(** * no-news: the rate-limited model-invocation layer

    A shallow embedding of [_models.py], [_openai.py], [_anthropic.py],
    [_aws.py] and [_connpool.py], and of [clean_events] of [events.py] and
    [apply_response] of [topics.py] among their callers, followed by the
    properties established about them.

    Conventions of the embedding.
    - A Python [str] is a Rocq [string]; every [ascii] stands for one code
      point, so the strings covered are those over code points below 256.
    - A Python [int] is a [Z]; a Python [float] is an IEEE-754 binary64
      value, [spec_float] at precision 53 and maximal exponent 1024.
    - A [dict] with string keys is a stdpp [gmap string _]; a parsed JSON
      object is an association list with distinct keys.
    - Coroutines are run one at a time, each to its end.  Every effect on
      the outside (limiter acquisitions, semaphore use, requests, sleeps,
      log records) is appended to the [world].  Acquiring a limiter or a
      semaphore, both of libraries outside the repository, is recorded and
      returns.  A coroutine that has not returned when its fuel is spent,
      or that waits on an empty or full queue, is [Pending]. *)

From Stdlib Require Import ZArith String Ascii List Bool Lia DecimalString.
From Stdlib Require Import Floats.SpecFloat.
From stdpp Require Import base gmap strings list.

Open Scope string_scope.
Open Scope list_scope.
Open Scope Z_scope.

(* ===================================================================== *)
(** * Python values *)
(* ===================================================================== *)

Module Py.

(** The exception classes the modelled code raises or lets through. *)
Inductive exn : Type :=
| ValueError (msg : string)
| KeyError (key : string)
| TypeError
| AttributeError
| IndexError
| OverflowError
| ZeroDivisionError
| RuntimeError (msg : string).

(** The outcome of running a coroutine. *)
Inductive result (A : Type) : Type :=
| Ok (a : A)
| Raise (e : exn)
| Pending.
Arguments Ok {A} a.
Arguments Raise {A} e.
Arguments Pending {A}.

Definition bind {A B : Type} (r : result A) (k : A -> result B) : result B :=
  match r with
  | Ok a => k a
  | Raise e => Raise e
  | Pending => Pending
  end.

(** ** Strings *)

Definition len (s : string) : Z := Z.of_nat (String.length s).

(** [str(n)] for an [int]. *)
Definition str_of_int (z : Z) : string := NilZero.string_of_int (Z.to_int z).

(** The characters [str.strip()] removes, among code points below 256:
    TAB, LF, VT, FF, CR, FS, GS, RS, US, SPACE, NEL and NBSP. *)
Definition isspace (c : ascii) : bool :=
  let n := Z.of_nat (nat_of_ascii c) in
  ((9 <=? n) && (n <=? 13)) || ((28 <=? n) && (n <=? 32))
  || (n =? 133) || (n =? 160).

Fixpoint lstrip (s : string) : string :=
  match s with
  | EmptyString => EmptyString
  | String c s' => if isspace c then lstrip s' else s
  end.

Definition rstrip (s : string) : string := String.rev (lstrip (String.rev s)).

Definition strip (s : string) : string := rstrip (lstrip s).

(** [sep.join(parts)] *)
Definition join (sep : string) (parts : list string) : string :=
  String.concat sep parts.

(** Truthiness of a [str]. *)
Definition truthy (s : string) : bool :=
  match s with EmptyString => false | _ => true end.

Definition TAB : string := String (ascii_of_nat 9) EmptyString.

(** ** Floats *)

Definition float : Type := spec_float.
Definition prec : Z := 53.
Definition emax : Z := 1024.

Definition fmul : float -> float -> float := SFmul prec emax.
Definition fadd : float -> float -> float := SFadd prec emax.
Definition fdiv : float -> float -> float := SFdiv prec emax.

(** The binary64 value nearest to [m * 2^e]. *)
Definition fmake (m e : Z) : float := binary_normalize prec emax m e false.

(** The least magnitude that no longer rounds to a finite binary64. *)
Definition float_overflow : Z := 2 ^ 1024 - 2 ^ 970.

(** [float(z)]: round to nearest even, [OverflowError] beyond the range. *)
Definition float_of_int (z : Z) : result float :=
  if Z.abs z <? float_overflow then Ok (fmake z 0) else Raise OverflowError.

(** ** Numbers: [int] or [float], with Python's mixed arithmetic *)

Inductive num : Type :=
| Int (z : Z)
| Float (f : float).

Definition to_float (x : num) : result float :=
  match x with
  | Int z => float_of_int z
  | Float f => Ok f
  end.

Definition lift2 (op : float -> float -> float) (x y : num) : result num :=
  match to_float x with
  | Ok fx =>
      match to_float y with
      | Ok fy => Ok (Float (op fx fy))
      | Raise e => Raise e
      | Pending => Pending
      end
  | Raise e => Raise e
  | Pending => Pending
  end.

(** [x * y] *)
Definition mul (x y : num) : result num :=
  match x, y with
  | Int a, Int b => Ok (Int (a * b))
  | _, _ => lift2 fmul x y
  end.

(** [x + y] *)
Definition add (x y : num) : result num :=
  match x, y with
  | Int a, Int b => Ok (Int (a + b))
  | _, _ => lift2 fadd x y
  end.

(** The quotient of two integers rounded once, from the exact integers. *)
Definition int_quotient (a b : Z) : float :=
  match a, b with
  | Z0, _ => S754_zero (b <? 0)
  | _, Z0 => S754_nan
  | Zpos p, Zpos q => fdiv (S754_finite false p 0) (S754_finite false q 0)
  | Zpos p, Zneg q => fdiv (S754_finite false p 0) (S754_finite true q 0)
  | Zneg p, Zpos q => fdiv (S754_finite true p 0) (S754_finite false q 0)
  | Zneg p, Zneg q => fdiv (S754_finite true p 0) (S754_finite true q 0)
  end.

Definition is_zero (f : float) : bool :=
  match f with S754_zero _ => true | _ => false end.

(** [x / y] (true division). *)
Definition truediv (x y : num) : result float :=
  match x, y with
  | Int a, Int b =>
      if b =? 0 then Raise ZeroDivisionError
      else if Z.abs a <? float_overflow * Z.abs b
           then Ok (int_quotient a b)
           else Raise OverflowError
  | _, _ =>
      match to_float x with
      | Ok fx =>
          match to_float y with
          | Ok fy => if is_zero fy then Raise ZeroDivisionError
                     else Ok (fdiv fx fy)
          | Raise e => Raise e
          | Pending => Pending
          end
      | Raise e => Raise e
      | Pending => Pending
      end
  end.

(** ** [format(x, ".2f")] *)

(** [m * 2^e] in hundredths, rounded to nearest, ties to even. *)
Definition hundredths (m : positive) (e : Z) : Z :=
  let n := 100 * Zpos m in
  match e with
  | Zneg k =>
      let d := 2 ^ Zpos k in
      let q := n / d in
      let r := n mod d in
      match 2 * r ?= d with
      | Lt => q
      | Eq => if Z.even q then q else q + 1
      | Gt => q + 1
      end
  | _ => n * 2 ^ e
  end.

Definition two_digits (z : Z) : string :=
  (if z <? 10 then "0" else EmptyString) +:+ str_of_int z.

Definition sign_str (s : bool) : string := if s then "-" else EmptyString.

Definition format_2f (f : float) : string :=
  match f with
  | S754_zero s => sign_str s +:+ "0.00"
  | S754_infinity s => sign_str s +:+ "inf"
  | S754_nan => "nan"
  | S754_finite s m e =>
      let h := hundredths m e in
      sign_str s +:+ str_of_int (h / 100) +:+ "." +:+ two_digits (h mod 100)
  end.

End Py.
Import Py.

Notation "x <- r ;; k" := (bind r (fun x => k))
  (at level 100, r at next level, right associativity, only parsing).


(* ===================================================================== *)
(** * The outside world *)
(* ===================================================================== *)

(** ** Limiter objects

    [AsyncLimiter(max_rate, time_period=60)] comes from the aiolimiter
    package.  What matters here is which object a name is bound to, so the
    objects live in a store and are named by their address. *)

Definition addr : Type := nat.

Record AsyncLimiter : Type := {
  max_rate : Z;
  time_period : Z;
}.

Definition store : Type := list AsyncLimiter.

(** Evaluating the constructor allocates a new object. *)
Definition new_limiter (rate period : Z) (h : store) : addr * store :=
  (List.length h, h ++ [{| max_rate := rate; time_period := period |}]).

(** ** Clients of the AWS connection pool *)

Definition client : Type := nat.

(** ** Semaphores ([asyncio.Semaphore]), named by a number *)

Definition semaphore : Type := nat.

(** ** Messages and requests *)

Record message : Type := {
  role : string;
  content : string;
}.

(** The keyword arguments of [client.chat.completions.create]. *)
Record openai_request : Type := {
  oa_model : string;
  oa_messages : list message;
  oa_response_format : string;
  oa_temperature : float;
  oa_max_tokens : Z;
}.

(** The keyword arguments of [client.messages.create]. *)
Record anthropic_request : Type := {
  an_model : string;
  an_messages : list message;
  an_system : string;
  an_temperature : float;
  an_max_tokens : Z;
}.

(** A content block [{"type": ..., "text": ...}] of a Bedrock message. *)
Record text_block : Type := {
  block_type : string;
  block_text : string;
}.

Record bedrock_message : Type := {
  bm_role : string;
  bm_content : list text_block;
}.

(** The dictionary built by [_aws.format_payload]. *)
Record payload : Type := {
  pl_anthropic_version : string;
  pl_max_tokens : Z;
  pl_temperature : float;
  pl_system : string;
  pl_messages : list bedrock_message;
}.

Inductive request : Type :=
| OpenAICreate (r : openai_request)
| AnthropicCreate (r : anthropic_request)
| BedrockInvoke (c : client) (body : payload) (modelId : string).

(** ** Effects *)

Inductive event : Type :=
| LimiterAcquire (limiter : addr) (amount : Z)
| SemaphoreAcquire (s : semaphore)
| SemaphoreRelease (s : semaphore)
| Request (r : request)
| Sleep (seconds : float).

Inductive level : Type := DEBUG | INFO | WARNING | ERROR.

(** A call of the [logging] module: the level, the format string, and the
    arguments; an argument that is a string or an exception is given by its
    text, one that is a response object or a serialised body is [None]. *)
Record log_record : Type := {
  lvl : level;
  fmt : string;
  args : list (option string);
}.

(** ** The module-level token counters *)

Record counters : Type := {
  PROMPT_TOKENS : Z;
  RESPONSE_TOKENS : Z;
}.

(** ** The state of [AWSClientConnectionPool] and of its clients

    [queue] is the content of the [asyncio.Queue], oldest first; [closed]
    lists the clients whose [close()] has been awaited, in order and with
    repetitions; [created] counts the clients made so far. *)
Record pool : Type := {
  maxsize : Z;
  queue : list client;
  closed : list client;
  created : nat;
}.

Record world : Type := {
  openai_counters : counters;
  aws_counters : counters;
  anthropic_counters : counters;
  aws_pool : pool;
  log : list log_record;
  trace : list event;
}.

Definition emit (e : event) (w : world) : world :=
  {| openai_counters := openai_counters w;
     aws_counters := aws_counters w;
     anthropic_counters := anthropic_counters w;
     aws_pool := aws_pool w;
     log := log w;
     trace := trace w ++ [e] |}.

Definition logging (l : level) (f : string) (a : list (option string))
    (w : world) : world :=
  {| openai_counters := openai_counters w;
     aws_counters := aws_counters w;
     anthropic_counters := anthropic_counters w;
     aws_pool := aws_pool w;
     log := log w ++ [{| lvl := l; fmt := f; args := a |}];
     trace := trace w |}.

Definition set_pool (p : pool) (w : world) : world :=
  {| openai_counters := openai_counters w;
     aws_counters := aws_counters w;
     anthropic_counters := anthropic_counters w;
     aws_pool := p;
     log := log w;
     trace := trace w |}.

Definition set_openai_counters (c : counters) (w : world) : world :=
  {| openai_counters := c;
     aws_counters := aws_counters w;
     anthropic_counters := anthropic_counters w;
     aws_pool := aws_pool w;
     log := log w;
     trace := trace w |}.

Definition set_aws_counters (c : counters) (w : world) : world :=
  {| openai_counters := openai_counters w;
     aws_counters := c;
     anthropic_counters := anthropic_counters w;
     aws_pool := aws_pool w;
     log := log w;
     trace := trace w |}.

Definition set_anthropic_counters (c : counters) (w : world) : world :=
  {| openai_counters := openai_counters w;
     aws_counters := aws_counters w;
     anthropic_counters := c;
     aws_pool := aws_pool w;
     log := log w;
     trace := trace w |}.

(* ===================================================================== *)
(** * [_connpool.py] *)
(* ===================================================================== *)

Module AWSClientConnectionPool.

(** [__init__(maxsize=10)]: an empty [asyncio.Queue(maxsize)]. *)
Definition init (size : Z) : pool :=
  {| maxsize := size; queue := []; closed := []; created := 0 |}.

Definition empty (p : pool) : bool :=
  match queue p with [] => true | _ => false end.

(** [asyncio.Queue.full]: a queue whose [maxsize] is not positive is
    never full. *)
Definition full (p : pool) : bool :=
  (0 <? maxsize p) && (maxsize p <=? Z.of_nat (List.length (queue p))).

(** [await self.pool.put(c)] waits while the queue is full. *)
Definition put (c : client) (p : pool) : result unit * pool :=
  if full p then (Pending, p)
  else (Ok tt, {| maxsize := maxsize p; queue := queue p ++ [c];
                  closed := closed p; created := created p |}).

(** [await self.pool.get()] waits while the queue is empty. *)
Definition get (p : pool) : result client * pool :=
  match queue p with
  | [] => (Pending, p)
  | c :: rest => (Ok c, {| maxsize := maxsize p; queue := rest;
                           closed := closed p; created := created p |})
  end.

(** [SESSION._create_client(...)]: a client that did not exist before. *)
Definition create_client (p : pool) : client * pool :=
  (created p, {| maxsize := maxsize p; queue := queue p;
                 closed := closed p; created := S (created p) |}).

(** [await client.close()] *)
Definition client_close (c : client) (p : pool) : pool :=
  {| maxsize := maxsize p; queue := queue p;
     closed := closed p ++ [c]; created := created p |}.

(** [for _ in range(self.maxsize)] of [initialize]. *)
Fixpoint initialize_loop (n : nat) (p : pool) : result unit * pool :=
  match n with
  | O => (Ok tt, p)
  | S n' =>
      let (c, p1) := create_client p in
      match put c p1 with
      | (Ok _, p2) => initialize_loop n' p2
      | other => other
      end
  end.

Definition initialize (p : pool) : result unit * pool :=
  initialize_loop (Z.to_nat (maxsize p)) p.

(** [while not self.pool.empty()] of [close]; [n] bounds the number of
    iterations. *)
Fixpoint close_loop (n : nat) (p : pool) : result unit * pool :=
  match n with
  | O => if empty p then (Ok tt, p) else (Pending, p)
  | S n' =>
      if empty p then (Ok tt, p)
      else match get p with
           | (Ok c, p1) => close_loop n' (client_close c p1)
           | (Raise e, p1) => (Raise e, p1)
           | (Pending, p1) => (Pending, p1)
           end
  end.

Definition close (p : pool) : result unit * pool :=
  close_loop (List.length (queue p)) p.

Definition acquire (p : pool) : result client * pool := get p.

Definition release (c : client) (p : pool) : result unit * pool := put c p.

End AWSClientConnectionPool.

(* ===================================================================== *)
(** * The attempt loop of the adapters *)
(* ===================================================================== *)

(** What one awaited request comes back with.  [RaisedProvider] is an
    exception of the class the adapter retries on ([openai.OpenAIError],
    [anthropic.APIError], botocore's [ClientError]); [RaisedOther] is any
    other [Exception].  Both carry the text of the exception. *)
Inductive outcome (R : Type) : Type :=
| Returned (r : R)
| RaisedProvider (e : string)
| RaisedOther (e : string).
Arguments Returned {R} r.
Arguments RaisedProvider {R} e.
Arguments RaisedOther {R} e.

Definition two : float := fmake 2 0.

(** [while retries < MAX_RETRIES: ... else: raise RuntimeError(...)], which
    [_openai.chat], [_anthropic.chat] and [_aws.chat] share up to the
    request, the logging calls and the test that guards [break]
    ([accepted r] is [None] when the test fails and the loop goes round
    again with [retries] unchanged).  [backend n] is what the [n]-th
    request of the invocation comes back with; [fuel] bounds the number of
    iterations run. *)
Section AttemptLoop.
Context {R A : Type}.
Variable MAX_RETRIES : nat.
Variable model : string.
Variable limiter : addr.
Variable tokens : Z.
Variable req : request.
Variable before_request : world -> world.
Variable accepted : R -> option A.
Variable on_provider_error : string -> world -> world.
Variable backend : nat -> outcome R.

Fixpoint attempt_loop (fuel : nat) (retries : nat) (wait_time : float)
    (n : nat) (w : world) : result A * world :=
  match fuel with
  | O => (Pending, w)
  | S fuel' =>
      if (retries <? MAX_RETRIES)%nat then
        let w := emit (LimiterAcquire limiter tokens) w in
        let w := before_request w in
        let w := emit (Request req) w in
        match backend n with
        | Returned r =>
            match accepted r with
            | Some a => (Ok a, w)
            | None => attempt_loop fuel' retries wait_time (S n) w
            end
        | RaisedProvider e =>
            let w := on_provider_error e w in
            let w := emit (Sleep wait_time) w in
            attempt_loop fuel' (S retries) (fmul wait_time two) (S n) w
        | RaisedOther e =>
            (Raise (RuntimeError ("Failed to connect to " +:+ model +:+ ": " +:+ e)), w)
        end
      else
        (Raise (RuntimeError ("Failed to connect to " +:+ model +:+ " after "
                              +:+ str_of_int (Z.of_nat retries) +:+ " retries")), w)
  end.
End AttemptLoop.

(* ===================================================================== *)
(** * [_openai.py] *)
(* ===================================================================== *)

Module OpenAI.

Definition MAX_RETRIES : nat := 3.
Definition MAX_TOKENS : Z := 1000.

(** [response.usage]; a field is [None] when it holds no [int]. *)
Record usage_t : Type := {
  prompt_tokens : option Z;
  completion_tokens : option Z;
}.

(** [response.choices[i]], reduced to [message.content]. *)
Record choice : Type := {
  message_content : option string;
}.

Record response : Type := {
  usage : option usage_t;
  choices : list choice;
}.

Definition request_for (model system prompt : string) (temperature : float)
    : request :=
  OpenAICreate
    {| oa_model := model;
       oa_messages := [ {| role := "system"; content := system |};
                        {| role := "system"; content := prompt |} ];
       oa_response_format := "json_object";
       oa_temperature := temperature;
       oa_max_tokens := MAX_TOKENS |}.

(** [if response is not None: break] *)
Definition is_not_None (r : option response) : option response := r.

Definition log_error (e : string) : world -> world :=
  logging ERROR "Error in OpenAI request: %s" [Some e].

(** [PROMPT_TOKENS += v] and [RESPONSE_TOKENS += v] on the module's
    counters; adding [None] to an [int] is a [TypeError]. *)
Definition add_prompt (v : option Z) (w : world) : result unit * world :=
  match v with
  | Some n =>
      (Ok tt, set_openai_counters
                {| PROMPT_TOKENS := PROMPT_TOKENS (openai_counters w) + n;
                   RESPONSE_TOKENS := RESPONSE_TOKENS (openai_counters w) |} w)
  | None => (Raise TypeError, w)
  end.

Definition add_response (v : option Z) (w : world) : result unit * world :=
  match v with
  | Some n =>
      (Ok tt, set_openai_counters
                {| PROMPT_TOKENS := PROMPT_TOKENS (openai_counters w);
                   RESPONSE_TOKENS := RESPONSE_TOKENS (openai_counters w) + n |} w)
  | None => (Raise TypeError, w)
  end.

Definition warn_unless_int (v : option Z) (text : string) (w : world) : world :=
  match v with
  | Some _ => w
  | None => logging WARNING text [None] w
  end.

(** The [try: ... except AttributeError:] block that counts the tokens. *)
Definition count_tokens (r : response) (w : world) : result unit * world :=
  match usage r with
  | None =>
      (Ok tt, logging WARNING "Failed to get token usage from response" [] w)
  | Some u =>
      let w := warn_unless_int (prompt_tokens u)
                 "Prompt tokens not found in response %s" w in
      let w := warn_unless_int (completion_tokens u)
                 "Completion tokens not found in response %s" w in
      match add_prompt (prompt_tokens u) w with
      | (Ok _, w) => add_response (completion_tokens u) w
      | other => other
      end
  end.

(** [response.choices[0].message.content] *)
Definition first_content (r : response) : result (option string) :=
  match choices r with
  | [] => Raise IndexError
  | c :: _ => Ok (message_content c)
  end.

Section Chat.
(** [get_encoding(model).encode(text)], the tiktoken encoder. *)
Variable encode : string -> string -> list Z.

(** The value bound to [tokens]. *)
Definition estimate (model system prompt : string) : Z :=
  Z.of_nat (List.length (encode model system))
  + Z.of_nat (List.length (encode model prompt)).

(** [chat]; [wait_time] is the value drawn by [random.uniform] and
    [pool] names the semaphore. *)
Definition chat (fuel : nat) (model system prompt : string) (limiter : addr)
    (pool : semaphore) (temperature : float) (wait_time : float)
    (backend : nat -> outcome (option response)) (w : world)
    : result (option string) * world :=
  let tokens := estimate model system prompt in
  let w := emit (SemaphoreAcquire pool) w in
  let (r, w) :=
    attempt_loop MAX_RETRIES model limiter tokens
      (request_for model system prompt temperature)
      (fun w => w) is_not_None log_error backend
      fuel 0%nat wait_time 0%nat w in
  match r with
  | Pending => (Pending, w)
  | Raise e => (Raise e, emit (SemaphoreRelease pool) w)
  | Ok resp =>
      let w := emit (SemaphoreRelease pool) w in
      match count_tokens resp w with
      | (Ok _, w) =>
          match first_content resp with
          | Ok text => (Ok text, w)
          | Raise e => (Raise e, w)
          | Pending => (Pending, w)
          end
      | (Raise e, w) => (Raise e, w)
      | (Pending, w) => (Pending, w)
      end
  end.
End Chat.

End OpenAI.

(* ===================================================================== *)
(** * [_anthropic.py] *)
(* ===================================================================== *)

Module Anthropic.

Definition MAX_RETRIES : nat := 3.
Definition MAX_TOKENS : Z := 1000.

Record usage_t : Type := {
  input_tokens : Z;
  output_tokens : Z;
}.

(** A block of [response.content]: one that has a [text] attribute, or one
    that has none. *)
Inductive block : Type :=
| TextBlock (text : string)
| OtherBlock.

(** A response object; [usage] is [None] when the object carries no usage
    record. *)
Record response : Type := {
  usage : option usage_t;
  content : list block;
}.

(** The value bound to [tokens]. *)
Definition estimate (system prompt : string) : Z :=
  (len system + len prompt + 4) / 5.

Definition messages_for (prompt json_start : string) : list message :=
  [ Build_message "user" prompt ]
  ++ (if truthy json_start
      then [ Build_message "assistant" json_start ]
      else []).

Definition request_for (model system prompt : string) (temperature : float)
    (json_start : string) : request :=
  AnthropicCreate
    {| an_model := model;
       an_messages := messages_for prompt json_start;
       an_system := system;
       an_temperature := temperature;
       an_max_tokens := MAX_TOKENS |}.

(** [if response: break]; the falsy response is [None]. *)
Definition is_truthy (r : option response) : option response := r.

Definition log_error (e : string) : world -> world :=
  logging ERROR "Error in Anthropic request: %s" [Some e].

(** [PROMPT_TOKENS += response.usage.input_tokens] followed by
    [RESPONSE_TOKENS += response.usage.output_tokens]. *)
Definition count_tokens (r : response) (w : world) : result unit * world :=
  match usage r with
  | None => (Raise AttributeError, w)
  | Some u =>
      let w := set_anthropic_counters
                 {| PROMPT_TOKENS := PROMPT_TOKENS (anthropic_counters w) + input_tokens u;
                    RESPONSE_TOKENS := RESPONSE_TOKENS (anthropic_counters w) |} w in
      let w := set_anthropic_counters
                 {| PROMPT_TOKENS := PROMPT_TOKENS (anthropic_counters w);
                    RESPONSE_TOKENS := RESPONSE_TOKENS (anthropic_counters w) + output_tokens u |} w in
      (Ok tt, w)
  end.

(** [response.content[0].text] *)
Definition first_text (r : response) : result string :=
  match content r with
  | [] => Raise IndexError
  | TextBlock t :: _ => Ok t
  | OtherBlock :: _ => Raise AttributeError
  end.

Definition chat (fuel : nat) (model system prompt : string) (limiter : addr)
    (pool : semaphore) (temperature : float) (json_start : string)
    (wait_time : float) (backend : nat -> outcome (option response))
    (w : world) : result string * world :=
  let tokens := estimate system prompt in
  let w := emit (SemaphoreAcquire pool) w in
  let (r, w) :=
    attempt_loop MAX_RETRIES model limiter tokens
      (request_for model system prompt temperature json_start)
      (fun w => w) is_truthy log_error backend
      fuel 0%nat wait_time 0%nat w in
  match r with
  | Pending => (Pending, w)
  | Raise e => (Raise e, emit (SemaphoreRelease pool) w)
  | Ok resp =>
      let w := emit (SemaphoreRelease pool) w in
      match count_tokens resp w with
      | (Ok _, w) =>
          match first_text resp with
          | Ok text => (Ok (json_start +:+ text), w)
          | Raise e => (Raise e, w)
          | Pending => (Pending, w)
          end
      | (Raise e, w) => (Raise e, w)
      | (Pending, w) => (Pending, w)
      end
  end.

End Anthropic.

(* ===================================================================== *)
(** * [_aws.py] *)
(* ===================================================================== *)

#[local] Unset Elimination Schemes.
(** What [json.loads] returns.  Numbers are integers: a document with a
    fractional number is outside the model. *)
Inductive json : Type :=
| JNull
| JBool (b : bool)
| JInt (z : Z)
| JStr (s : string)
| JArr (items : list json)
| JObj (fields : list (string * json)).
#[local] Set Elimination Schemes.

Module Json.

Fixpoint assoc (key : string) (fields : list (string * json)) : option json :=
  match fields with
  | [] => None
  | (k, v) :: rest => if String.eqb k key then Some v else assoc key rest
  end.

(** [x[key]] for a string key. *)
Definition getitem (x : json) (key : string) : result json :=
  match x with
  | JObj fields =>
      match assoc key fields with
      | Some v => Ok v
      | None => Raise (KeyError key)
      end
  | _ => Raise TypeError
  end.

(** [x.get(key, default)] *)
Definition get (x : json) (key : string) (default : json) : result json :=
  match x with
  | JObj fields =>
      match assoc key fields with
      | Some v => Ok v
      | None => Ok default
      end
  | _ => Raise AttributeError
  end.

(** [n + x] for an [int] [n]. *)
Definition int_add (n : Z) (x : json) : result Z :=
  match x with
  | JInt z => Ok (n + z)
  | JBool b => Ok (n + (if b then 1 else 0))
  | _ => Raise TypeError
  end.

Fixpoint chars (s : string) : list json :=
  match s with
  | EmptyString => []
  | String c s' => JStr (String c EmptyString) :: chars s'
  end.

(** The values [for content in x] runs through. *)
Definition iterate (x : json) : result (list json) :=
  match x with
  | JArr items => Ok items
  | JObj fields => Ok (map (fun kv => JStr (fst kv)) fields)
  | JStr s => Ok (chars s)
  | _ => Raise TypeError
  end.

(** [x == "text"] *)
Definition eq_str (x : json) (s : string) : bool :=
  match x with
  | JStr t => String.eqb t s
  | _ => false
  end.

End Json.

Module AWS.

Definition MAX_RETRIES : nat := 3.
Definition MAX_TOKENS : Z := 1000.

(** The bytes read from the response stream, as [json.loads] takes them:
    a document, or text it rejects with a [JSONDecodeError]. *)
Inductive body : Type :=
| Document (j : json)
| Malformed (e : string).

Definition format_payload (system prompt : string) (temperature : float)
    (json_start : string) : payload :=
  {| pl_anthropic_version := "bedrock-2023-05-31";
     pl_max_tokens := MAX_TOKENS;
     pl_temperature := temperature;
     pl_system := system;
     pl_messages :=
       [ {| bm_role := "user";
            bm_content := [ {| block_type := "text"; block_text := prompt |} ] |} ]
       ++ (if truthy json_start
           then [ {| bm_role := "assistant";
                     bm_content := [ {| block_type := "text";
                                        block_text := json_start |} ] |} ]
           else []) |}.

(** The value bound to [tokens]. *)
Definition estimate (system prompt json_start : string) : Z :=
  (len system + len prompt + len json_start + 4) / 5.

Definition log_debug (model : string) : world -> world :=
  logging DEBUG "Request to Claude model %s: %s" [Some model; None].

Definition log_warning (e : string) : world -> world :=
  logging WARNING "Error in AWS request: %s" [Some e].

(** [break] is reached whenever the body has been read. *)
Definition always (b : body) : option body := Some b.

(** [json.loads(response)] under [except json.JSONDecodeError]. *)
Definition parse (b : body) : result json :=
  match b with
  | Document j => Ok j
  | Malformed e => Raise (RuntimeError ("Ill-formatted Claude response: " +:+ e))
  end.

Definition warn_usage : world -> world :=
  logging WARNING "Token usage not found in response: %s" [None].

(** The [try: ... except KeyError:] block that counts the tokens. *)
Definition count_tokens (response : json) (w : world) : result unit * world :=
  let c := aws_counters w in
  match (u <- Json.getitem response "usage";;
         v <- Json.getitem u "input_tokens";;
         Json.int_add (PROMPT_TOKENS c) v) with
  | Ok p =>
      let w := set_aws_counters
                 {| PROMPT_TOKENS := p; RESPONSE_TOKENS := RESPONSE_TOKENS c |} w in
      match (u <- Json.getitem response "usage";;
             v <- Json.getitem u "output_tokens";;
             Json.int_add (RESPONSE_TOKENS c) v) with
      | Ok r =>
          (Ok tt, set_aws_counters
                    {| PROMPT_TOKENS := p; RESPONSE_TOKENS := r |} w)
      | Raise (KeyError _) => (Ok tt, warn_usage w)
      | Raise e => (Raise e, w)
      | Pending => (Pending, w)
      end
  | Raise (KeyError _) => (Ok tt, warn_usage w)
  | Raise e => (Raise e, w)
  | Pending => (Pending, w)
  end.

(** The list comprehension over [contents]: the [text] entry (default:
    the empty string) of every [content] whose [type] entry (same
    default) equals [text]. *)
Fixpoint text_parts (contents : list json) : result (list json) :=
  match contents with
  | [] => Ok []
  | content :: rest =>
      ty <- Json.get content "type" (JStr EmptyString);;
      if Json.eq_str ty "text"
      then t <- Json.get content "text" (JStr EmptyString);;
           ts <- text_parts rest;;
           Ok (t :: ts)
      else text_parts rest
  end.

(** [str.join] accepts strings only. *)
Fixpoint strings (parts : list json) : result (list string) :=
  match parts with
  | [] => Ok []
  | JStr s :: rest => ss <- strings rest;; Ok (s :: ss)
  | _ :: _ => Raise TypeError
  end.

(** The value returned after the counters are updated. *)
Definition reply (response : json) (json_start : string) : result string :=
  contents <- Json.get response "content" (JArr []);;
  items <- Json.iterate contents;;
  parts <- text_parts items;;
  ss <- strings parts;;
  Ok (json_start +:+ strip (join " " ss)).

(** [chat]; [pool] is the connection pool of the world. *)
Definition chat (fuel : nat) (model system prompt : string) (limiter : addr)
    (temperature : float) (json_start : string) (wait_time : float)
    (backend : nat -> outcome body) (w : world) : result string * world :=
  let payload := format_payload system prompt temperature json_start in
  let tokens := estimate system prompt json_start in
  match AWSClientConnectionPool.acquire (aws_pool w) with
  | (Ok client, p) =>
      let w := set_pool p w in
      let (r, w) :=
        attempt_loop MAX_RETRIES model limiter tokens
          (BedrockInvoke client payload model)
          (log_debug model) always log_warning backend
          fuel 0%nat wait_time 0%nat w in
      match r with
      | Pending => (Pending, w)
      | _ =>
          match AWSClientConnectionPool.release client (aws_pool w) with
          | (Ok _, p) =>
              let w := set_pool p w in
              match r with
              | Ok b =>
                  match parse b with
                  | Ok response =>
                      match count_tokens response w with
                      | (Ok _, w) => (reply response json_start, w)
                      | (Raise e, w) => (Raise e, w)
                      | (Pending, w) => (Pending, w)
                      end
                  | Raise e => (Raise e, w)
                  | Pending => (Pending, w)
                  end
              | Raise e => (Raise e, w)
              | Pending => (Pending, w)
              end
          | (Raise e, p) => (Raise e, set_pool p w)
          | (Pending, p) => (Pending, set_pool p w)
          end
      end
  | (Raise e, p) => (Raise e, set_pool p w)
  | (Pending, p) => (Pending, set_pool p w)
  end.

End AWS.

(* ===================================================================== *)
(** * [_models.py] *)
(* ===================================================================== *)

Definition MODELS : gmap string (gmap string string) :=
  list_to_map [
    ("OpenAI", list_to_map [
       ("gpt-4", "gpt-4-turbo-2024-04-09");
       ("gpt-3.5", "gpt-3.5-turbo-0125");
       ("ft-events-1", "ft:gpt-3.5-turbo-0125:computational-policy-lab:events:9A33J3DL");
       ("ft-events-2", "ft:gpt-3.5-turbo-0125:computational-policy-lab:events2:9A6G5JOs");
       ("ft-events-3", "ft:gpt-3.5-turbo-0125:computational-policy-lab:events3:9AAUeVtD");
       ("ft-classify-1", "ft:gpt-3.5-turbo-0125:computational-policy-lab:classify:9AWOhGqH");
       ("ft-classify-2", "ft:gpt-3.5-turbo-0125:computational-policy-lab:classify2:9Aazgks8");
       ("ft-classify-3", "ft:gpt-3.5-turbo-0125:computational-policy-lab:classify3:9AdamZ7x") ]);
    ("AWS", list_to_map [
       ("sonnet", "anthropic.claude-3-sonnet-20240229-v1:0");
       ("haiku", "anthropic.claude-3-haiku-20240307-v1:0") ]);
    ("Anthropic", list_to_map [
       ("opus", "claude-3-opus-20240229");
       ("sonnet", "claude-3-sonnet-20240229");
       ("haiku", "claude-3-haiku-20240307") ]) ].

(** ** Rate limiters and token limiters

    The module-level statements in the order Python runs them; every
    [AsyncLimiter(...)] expression allocates one object. *)

Record limiter_tables : Type := {
  gpt_3_5_turbo_rl : addr;
  RATE_LIMITERS : gmap string (gmap string addr);
  gpt_3_5_turbo : addr;
  TOKEN_LIMITERS : gmap string (gmap string addr);
  objects : store;
}.

Definition limiters : limiter_tables :=
  let h : store := [] in
  let (gpt_3_5_turbo_rl, h) := new_limiter 500 3 h in
  let (r_gpt4, h) := new_limiter 250 3 h in
  let (r_aws_sonnet, h) := new_limiter 50 6 h in
  let (r_aws_haiku, h) := new_limiter 100 6 h in
  let (r_opus, h) := new_limiter 200 6 h in
  let (r_sonnet, h) := new_limiter 200 6 h in
  let (r_haiku, h) := new_limiter 200 6 h in
  let rate : gmap string (gmap string addr) :=
    list_to_map [
      ("OpenAI", list_to_map [
         ("gpt-4", r_gpt4);
         ("gpt-3.5", gpt_3_5_turbo_rl);
         ("ft-events-1", gpt_3_5_turbo_rl);
         ("ft-events-2", gpt_3_5_turbo_rl);
         ("ft-events-3", gpt_3_5_turbo_rl);
         ("ft-classify-1", gpt_3_5_turbo_rl);
         ("ft-classify-2", gpt_3_5_turbo_rl);
         ("ft-classify-3", gpt_3_5_turbo_rl) ]);
      ("AWS", list_to_map [ ("sonnet", r_aws_sonnet); ("haiku", r_aws_haiku) ]);
      ("Anthropic", list_to_map [
         ("opus", r_opus); ("sonnet", r_sonnet); ("haiku", r_haiku) ]) ] in
  let (gpt_3_5_turbo, h) := new_limiter 500000 15 h in
  let (t_gpt4, h) := new_limiter 150000 15 h in
  let (t_aws_sonnet, h) := new_limiter 100000 6 h in
  let (t_aws_haiku, h) := new_limiter 200000 6 h in
  let (t_opus, h) := new_limiter 200000 60 h in
  let (t_sonnet, h) := new_limiter 160000 60 h in
  let (t_haiku, h) := new_limiter 80000 60 h in
  let token : gmap string (gmap string addr) :=
    list_to_map [
      ("OpenAI", list_to_map [
         ("gpt-4", t_gpt4);
         ("gpt-3.5", gpt_3_5_turbo);
         ("ft-events-1", gpt_3_5_turbo);
         ("ft-events-2", gpt_3_5_turbo);
         ("ft-events-3", gpt_3_5_turbo);
         ("ft-classify-1", gpt_3_5_turbo);
         ("ft-classify-2", gpt_3_5_turbo);
         ("ft-classify-3", gpt_3_5_turbo) ]);
      ("AWS", list_to_map [ ("sonnet", t_aws_sonnet); ("haiku", t_aws_haiku) ]);
      ("Anthropic", list_to_map [
         ("opus", t_opus); ("sonnet", t_sonnet); ("haiku", t_haiku) ]) ] in
  {| gpt_3_5_turbo_rl := gpt_3_5_turbo_rl;
     RATE_LIMITERS := rate;
     gpt_3_5_turbo := gpt_3_5_turbo;
     TOKEN_LIMITERS := token;
     objects := h |}.

(** ** Connection limiters *)

Inductive connection_limiter : Type :=
| ConnectionPool
| Semaphore (s : semaphore).

(** [AWSClientConnectionPool(maxsize=100)], [Semaphore(100)],
    [Semaphore(100)]: the pool is the one of the world, which starts as
    [initial_pool]. *)
Definition CONNECTION_LIMITERS : gmap string connection_limiter :=
  list_to_map [
    ("AWS", ConnectionPool);
    ("OpenAI", Semaphore 0%nat);
    ("Anthropic", Semaphore 1%nat) ].

Definition initial_pool : pool := AWSClientConnectionPool.init 100.

(** ** Prices per million tokens *)

Record prices : Type := {
  prompt : num;
  response : num;
}.

Definition half : num := Float (fmake 1 (-1)).           (* 0.5 *)
Definition one_and_half : num := Float (fmake 3 (-1)).   (* 1.5 *)
Definition quarter : num := Float (fmake 1 (-2)).        (* 0.25 *)
Definition one_and_quarter : num := Float (fmake 5 (-2)). (* 1.25 *)

Definition MODEL_COSTS : gmap string (gmap string prices) :=
  list_to_map [
    ("OpenAI", list_to_map [
       ("gpt-4", {| prompt := Int 10; response := Int 30 |});
       ("gpt-3.5", {| prompt := half; response := one_and_half |});
       ("ft-events-1", {| prompt := Int 3; response := Int 6 |});
       ("ft-events-2", {| prompt := Int 3; response := Int 6 |});
       ("ft-events-3", {| prompt := Int 3; response := Int 6 |});
       ("ft-classify-1", {| prompt := Int 3; response := Int 6 |});
       ("ft-classify-2", {| prompt := Int 3; response := Int 6 |});
       ("ft-classify-3", {| prompt := Int 3; response := Int 6 |}) ]);
    ("AWS", list_to_map [
       ("sonnet", {| prompt := Int 3; response := Int 15 |});
       ("haiku", {| prompt := quarter; response := one_and_quarter |}) ]);
    ("Anthropic", list_to_map [
       ("opus", {| prompt := Int 15; response := Int 75 |});
       ("sonnet", {| prompt := Int 3; response := Int 15 |});
       ("haiku", {| prompt := quarter; response := one_and_quarter |}) ]) ].

(** [d[k]] on a dictionary with string keys. *)
Definition subscript {V : Type} (d : gmap string V) (k : string) : result V :=
  match d !! k with
  | Some v => Ok v
  | None => Raise (KeyError k)
  end.

(** The counters [calculate_cost] reads for a service. *)
Definition counters_of (service : string) (w : world) : option counters :=
  if String.eqb service "OpenAI" then Some (openai_counters w)
  else if String.eqb service "AWS" then Some (aws_counters w)
  else if String.eqb service "Anthropic" then Some (anthropic_counters w)
  else None.

(** The expression bound to [cost]. *)
Definition cost_of (service model : string) (prompt_tokens response_tokens : Z)
    : result float :=
  by_service <- subscript MODEL_COSTS service;;
  by_model <- subscript by_service model;;
  a <- mul (prompt by_model) (Int prompt_tokens);;
  by_service <- subscript MODEL_COSTS service;;
  by_model <- subscript by_service model;;
  b <- mul (response by_model) (Int response_tokens);;
  total <- add a b;;
  truediv total (Int 1000000).

Definition summary (prompt_tokens response_tokens : Z) (cost : float) : string :=
  "prompt_tokens: " +:+ str_of_int prompt_tokens +:+ TAB
  +:+ "response_tokens: " +:+ str_of_int response_tokens +:+ TAB
  +:+ "cost: " +:+ format_2f cost.

Definition calculate_cost (service model : string) (w : world)
    : result string * world :=
  match MODELS !! service with
  | None => (Raise (ValueError ("Unknown service: " +:+ service)), w)
  | Some _ =>
      match counters_of service w with
      | None =>
          (Raise (ValueError ("This code should be unreachable: " +:+ service)), w)
      | Some c =>
          let prompt_tokens := PROMPT_TOKENS c in
          let response_tokens := RESPONSE_TOKENS c in
          match cost_of service model prompt_tokens response_tokens with
          | Ok cost => (Ok (summary prompt_tokens response_tokens cost), w)
          | Raise e => (Raise e, w)
          | Pending => (Pending, w)
          end
      end
  end.

(** ** Model context *)

(** The services reached by the adapters: what the [n]-th request of an
    invocation comes back with. *)
Record services : Type := {
  openai_api : nat -> outcome (option OpenAI.response);
  bedrock_api : nat -> outcome AWS.body;
  anthropic_api : nat -> outcome (option Anthropic.response);
}.

Module ModelContext.

Record t : Type := {
  service : string;
  model : string;
  full_model : string;
  rate_limiter : addr;
  token_limiter : addr;
  connection_limiter : connection_limiter;
}.

(** [__init__] *)
Definition init (service model : string) : result t :=
  match MODELS !! service with
  | None => Raise (ValueError ("Unknown service: " +:+ service))
  | Some aliases =>
      match aliases !! model with
      | None => Raise (ValueError ("Unknown model: " +:+ model))
      | Some full =>
          by_service <- subscript (RATE_LIMITERS limiters) service;;
          rate <- subscript by_service model;;
          by_service <- subscript (TOKEN_LIMITERS limiters) service;;
          token <- subscript by_service model;;
          connection <- subscript CONNECTION_LIMITERS service;;
          Ok {| service := service;
                model := model;
                full_model := full;
                rate_limiter := rate;
                token_limiter := token;
                connection_limiter := connection |}
      end
  end.

Definition lift_pool {A : Type} (r : result A * pool) (w : world)
    : result A * world :=
  (fst r, set_pool (snd r) w).

Definition initialize (self : t) (w : world) : result unit * world :=
  if String.eqb (service self) "AWS"
  then lift_pool (AWSClientConnectionPool.initialize (aws_pool w)) w
  else (Ok tt, w).

Definition close (self : t) (w : world) : result unit * world :=
  if String.eqb (service self) "AWS"
  then lift_pool (AWSClientConnectionPool.close (aws_pool w)) w
  else (Ok tt, w).

Definition some_str (r : result string * world) : result (option string) * world :=
  (s <- fst r;; Ok (Some s), snd r).

Section Chat.
Variable encode : string -> string -> list Z.
Variable api : services.

(** [chat]; [wait_time] is the value the adapter draws with
    [random.uniform].  A semaphore is what [async with pool] of
    [_openai.chat] and [_anthropic.chat] needs (anything else is a
    [TypeError] there), and [pool.client()] of [_aws.chat] needs the
    connection pool. *)
Definition chat (fuel : nat) (self : t) (system prompt : string)
    (temperature : float) (json_start : string) (wait_time : float)
    (w : world) : result (option string) * world :=
  let w := emit (LimiterAcquire (rate_limiter self) 1) w in
  if String.eqb (service self) "OpenAI" then
    let w := if truthy json_start
             then logging WARNING "json_start not supported for OpenAI: %s"
                    [Some json_start] w
             else w in
    match connection_limiter self with
    | Semaphore s =>
        OpenAI.chat encode fuel (full_model self) system prompt
          (token_limiter self) s temperature wait_time (openai_api api) w
    | ConnectionPool => (Raise TypeError, w)
    end
  else if String.eqb (service self) "AWS" then
    match connection_limiter self with
    | ConnectionPool =>
        some_str (AWS.chat fuel (full_model self) system prompt
                    (token_limiter self) temperature json_start wait_time
                    (bedrock_api api) w)
    | Semaphore _ => (Raise AttributeError, w)
    end
  else if String.eqb (service self) "Anthropic" then
    match connection_limiter self with
    | Semaphore s =>
        some_str (Anthropic.chat fuel (full_model self) system prompt
                    (token_limiter self) s temperature json_start wait_time
                    (anthropic_api api) w)
    | ConnectionPool => (Raise TypeError, w)
    end
  else (Ok None, w).
End Chat.

End ModelContext.

(** The world when the modules have just been imported. *)
Definition zero : counters := {| PROMPT_TOKENS := 0; RESPONSE_TOKENS := 0 |}.

Definition initial_world : world :=
  {| openai_counters := zero;
     aws_counters := zero;
     anthropic_counters := zero;
     aws_pool := initial_pool;
     log := [];
     trace := [] |}.

(* ===================================================================== *)
(** * [events.py]: [clean_events] *)
(* ===================================================================== *)

Module Events.

(** A row of [segments], as far as [clean_events] reads it: the column
    [id]. *)
Record segment : Type := {
  row_id : Z;
}.

(** The pydantic model [Event]. *)
Record Event : Type := {
  ev_description : string;
  ev_segments : list Z;
}.

(** What [clean_events] logs: the one warning, with the list it is given
    as argument. *)
Inductive record : Type :=
| Dropped (descriptions : list string).

Section CleanEvents.
(** The text of the [ValueError], an f-string over the event and the set
    of ids; how the two are printed is left open. *)
Variable message : Event -> gset Z -> string.

(** [{segment["id"] for segment in segments}] *)
Definition segment_ids (segments : list segment) : gset Z :=
  list_to_set (map row_id segments).

(** [any(segment_id not in segment_ids for segment_id in event.segments)] *)
Definition lists_unknown (ids : gset Z) (event : Event) : bool :=
  existsb (fun segment_id => negb (bool_decide (segment_id ∈ ids)))
    (ev_segments event).

(** The first [for] loop: the first event that lists an unknown segment
    raises. *)
Fixpoint check (ids : gset Z) (events : list Event) : result unit :=
  match events with
  | [] => Ok tt
  | event :: rest =>
      if lists_unknown ids event
      then Raise (ValueError (message event ids))
      else check ids rest
  end.

(** [event.segments] as a condition. *)
Definition has_segments (event : Event) : bool :=
  match ev_segments event with [] => false | _ :: _ => true end.

Definition clean_events (segments : list segment) (events : list Event)
    (log : list record) : result (list Event) * list record :=
  let ids := segment_ids segments in
  match check ids events with
  | Ok _ =>
      let ret_events := List.filter (fun event => has_segments event) events in
      let log :=
        if (List.length ret_events <? List.length events)%nat
        then log ++ [ Dropped (map ev_description
                                 (List.filter (fun e => negb (has_segments e))
                                    events)) ]
        else log in
      (Ok ret_events, log)
  | Raise e => (Raise e, log)
  | Pending => (Pending, log)
  end.
End CleanEvents.

End Events.

(* ===================================================================== *)
(** * [topics.py]: [apply_response] *)
(* ===================================================================== *)

Module Topics.

(** An entry of a topic list: a dictionary with the keys [title] and
    [description]. *)
Record topic : Type := {
  title : string;
  description : string;
}.

(** The pydantic models [Removal], [Addition] and [Response]. *)
Record Removal : Type := {
  rm_title : string;
  rm_id : Z;
}.

Record Addition : Type := {
  ad_title : string;
  ad_description : string;
}.

Record Response : Type := {
  explanation : string;
  removals : list Removal;
  additions : list Addition;
}.

(** The global [TOPICS] and the calls of the [logging] module; a message
    built by an f-string is the format of its record. *)
Record state : Type := {
  TOPICS : list (list topic);
  records : list log_record;
}.

Definition tell (l : level) (text : string) (st : state) : state :=
  {| TOPICS := TOPICS st;
     records := records st ++ [ {| lvl := l; fmt := text; args := [] |} ] |}.

(** [l[i]] for a list [l] and an integer [i], which counts from the end
    when negative. *)
Definition index {A : Type} (l : list A) (i : Z) : result A :=
  let n := Z.of_nat (List.length l) in
  let j := if i <? 0 then i + n else i in
  if (0 <=? j) && (j <? n)
  then match nth_error l (Z.to_nat j) with
       | Some x => Ok x
       | None => Raise IndexError
       end
  else Raise IndexError.

(** [for i, topic in enumerate(current_topics, start=1)], from index [i]
    on. *)
Fixpoint keep (i : Z) (current_topics : list topic) (removal_ids : gset Z)
    (topics : list topic) (st : state) : list topic * state :=
  match current_topics with
  | [] => (topics, st)
  | topic :: rest =>
      if bool_decide (i ∉ removal_ids)
      then keep (i + 1) rest removal_ids (topics ++ [topic])
             (tell INFO ("Keeping topic " +:+ str_of_int i +:+ ": "
                         +:+ title topic) st)
      else keep (i + 1) rest removal_ids topics
             (tell INFO ("Removing topic " +:+ str_of_int i +:+ ": "
                         +:+ title topic) st)
  end.

(** [for addition in response.additions] *)
Fixpoint add (additions : list Addition) (topics : list topic) (st : state)
    : list topic * state :=
  match additions with
  | [] => (topics, st)
  | addition :: rest =>
      add rest
        (topics ++ [ {| title := ad_title addition;
                        description := ad_description addition |} ])
        (tell INFO ("Adding topic: " +:+ ad_title addition) st)
  end.

(** [apply_response]; [shuffle] is the order [random.shuffle] leaves the
    list in. *)
Definition apply_response (shuffle : list topic -> list topic)
    (response : Response) (iteration : Z) (st : state)
    : result unit * state :=
  if negb (Z.of_nat (List.length (TOPICS st)) =? iteration)
  then (Raise (ValueError "Length of TOPICS is incorrect"),
        tell ERROR "Length of TOPICS is incorrect." st)
  else
    match index (TOPICS st) (iteration - 1) with
    | Ok current_topics =>
        let removal_ids : gset Z := list_to_set (map rm_id (removals response)) in
        let (topics, st) := keep 1 current_topics removal_ids [] st in
        let (topics, st) := add (additions response) topics st in
        let topics := shuffle topics in
        (Ok tt, {| TOPICS := TOPICS st ++ [topics]; records := records st |})
    | Raise e => (Raise e, st)
    | Pending => (Pending, st)
    end.

End Topics.

(* ===================================================================== *)
(** * Notions used to state the properties *)
(* ===================================================================== *)

(** ** The cost report *)

(** The arithmetic of [cost], for the prices [p] of one model. *)
Definition cost_formula (p : prices) (prompt_tokens response_tokens : Z)
    : result float :=
  a <- mul (prompt p) (Int prompt_tokens);;
  b <- mul (response p) (Int response_tokens);;
  total <- add a b;;
  truediv total (Int 1000000).

Definition million : float := fmake 1000000 0.

(** The counters of the module that serves [service]. *)
Definition module_counters (service : string) (w : world) : counters :=
  if String.eqb service "OpenAI" then openai_counters w
  else if String.eqb service "AWS" then aws_counters w
  else anthropic_counters w.

(** ** Which aliases share a limiter object *)

(** The aliases bound to [gpt_3_5_turbo_rl] and [gpt_3_5_turbo]. *)
Definition gpt_3_5_group : list string :=
  [ "gpt-3.5"; "ft-events-1"; "ft-events-2"; "ft-events-3";
    "ft-classify-1"; "ft-classify-2"; "ft-classify-3" ].

Definition in_group (alias : string) : bool :=
  existsb (String.eqb alias) gpt_3_5_group.

(** Every context [__init__] can build: service, alias, and the addresses
    of the request limiter and of the token limiter it binds. *)
Definition bindings : list (string * string * addr * addr) :=
  [ ("OpenAI", "gpt-4", 1, 8); ("OpenAI", "gpt-3.5", 0, 7);
    ("OpenAI", "ft-events-1", 0, 7); ("OpenAI", "ft-events-2", 0, 7);
    ("OpenAI", "ft-events-3", 0, 7); ("OpenAI", "ft-classify-1", 0, 7);
    ("OpenAI", "ft-classify-2", 0, 7); ("OpenAI", "ft-classify-3", 0, 7);
    ("AWS", "sonnet", 2, 9); ("AWS", "haiku", 3, 10);
    ("Anthropic", "opus", 4, 11); ("Anthropic", "sonnet", 5, 12);
    ("Anthropic", "haiku", 6, 13) ]%nat.

(** ** Reading a trace *)

(** The requests of a trace, in order. *)
Fixpoint requests (tr : list event) : list request :=
  match tr with
  | [] => []
  | Request r :: rest => r :: requests rest
  | _ :: rest => requests rest
  end.

(** The amounts acquired from [limiter] in a trace, in order. *)
Fixpoint acquired (limiter : addr) (tr : list event) : list Z :=
  match tr with
  | [] => []
  | LimiterAcquire l n :: rest =>
      if Nat.eqb l limiter then n :: acquired limiter rest
      else acquired limiter rest
  | _ :: rest => acquired limiter rest
  end.

(** An event that is neither a request nor an acquisition from [limiter]. *)
Definition unrelated (limiter : addr) (e : event) : Prop :=
  match e with
  | Request _ => False
  | LimiterAcquire l _ => l <> limiter
  | _ => True
  end.

(** A trace in which every request comes right after one acquisition of
    [tokens] from [limiter], and [limiter] is acquired nowhere else. *)
Inductive guarded (limiter : addr) (tokens : Z) : list event -> Prop :=
| guarded_nil : guarded limiter tokens []
| guarded_attempt (r : request) (rest : list event) :
    guarded limiter tokens rest ->
    guarded limiter tokens (LimiterAcquire limiter tokens :: Request r :: rest)
| guarded_skip (e : event) (rest : list event) :
    unrelated limiter e ->
    guarded limiter tokens rest ->
    guarded limiter tokens (e :: rest).

(** ** Values used in the examples *)

Definition one : float := fmake 1 0.

(** An encoder that finds no token in any text. *)
Definition no_tokens (model text : string) : list Z := [].

(** A service that fails every request with its own error class. *)
Definition overloaded {R : Type} (n : nat) : outcome R :=
  RaisedProvider "overloaded".

(** A pool of two clients, as [initialize] leaves it, and a world that has
    it. *)
Definition pool_of_two : pool :=
  snd (AWSClientConnectionPool.initialize (AWSClientConnectionPool.init 2)).

Definition warm_world : world := set_pool pool_of_two initial_world.

(** The character [U+0022]. *)
Definition QUOTE : string := String (ascii_of_nat 34) EmptyString.

(** The prefix and the continuation of the end-to-end example: an opening
    brace, a quoted [a] and a colon; then [ok], a quote and a closing
    brace. *)
Definition prefix_a : string := "{" +:+ QUOTE +:+ "a" +:+ QUOTE +:+ ":".
Definition ok_tail : string := "ok" +:+ QUOTE +:+ "}".

(** A Bedrock content block of type [text]. *)
Definition text_block_of (t : string) : json :=
  JObj [ ("type", JStr "text"); ("text", JStr t) ].

(** [b] is an object whose [type] entry is the string [text] and whose
    [text] entry is the string [t]. *)
Definition is_text_block (b : json) (t : string) : Prop :=
  exists fields : list (string * json),
    b = JObj fields
    /\ Json.assoc "type" fields = Some (JStr "text")
    /\ Json.assoc "text" fields = Some (JStr t).

(** A Bedrock reply made of text blocks, with its usage record. *)
Definition bedrock_reply (texts : list string) (input output : Z) : json :=
  JObj [ ("content", JArr (map text_block_of texts));
         ("usage", JObj [ ("input_tokens", JInt input);
                          ("output_tokens", JInt output) ]) ].

(** A service that answers every request with the same value. *)
Definition always_returns {R : Type} (r : R) (n : nat) : outcome R := Returned r.

(** The aws counters of the world used for the cost report. *)
Definition busy_world : world :=
  set_aws_counters {| PROMPT_TOKENS := 1200000; RESPONSE_TOKENS := 340000 |}
    initial_world.

(** The context [ModelContext("OpenAI", "gpt-4")]. *)
Definition gpt_4_context : ModelContext.t :=
  {| ModelContext.service := "OpenAI";
     ModelContext.model := "gpt-4";
     ModelContext.full_model := "gpt-4-turbo-2024-04-09";
     ModelContext.rate_limiter := 1%nat;
     ModelContext.token_limiter := 8%nat;
     ModelContext.connection_limiter := Semaphore 0%nat |}.

(* ===================================================================== *)
(** * Further notions on traces and worlds *)
(* ===================================================================== *)

(** The waits of a trace, in order. *)
Fixpoint sleeps (tr : list event) : list float :=
  match tr with
  | [] => []
  | Sleep t :: rest => t :: sleeps rest
  | _ :: rest => sleeps rest
  end.

(** [k] waits, each twice the one before, starting from [t]. *)
Fixpoint doubled (k : nat) (t : float) : list float :=
  match k with
  | O => []
  | S k' => t :: doubled k' (fmul t two)
  end.

(** The semaphores given back in a trace, in order. *)
Fixpoint released (tr : list event) : list semaphore :=
  match tr with
  | [] => []
  | SemaphoreRelease s :: rest => s :: released rest
  | _ :: rest => released rest
  end.

(** The semaphores taken in a trace, in order. *)
Fixpoint taken (tr : list event) : list semaphore :=
  match tr with
  | [] => []
  | SemaphoreAcquire s :: rest => s :: taken rest
  | _ :: rest => taken rest
  end.

(** The limiters acquired in a trace, in order. *)
Fixpoint limiters_acquired (tr : list event) : list addr :=
  match tr with
  | [] => []
  | LimiterAcquire l _ :: rest => l :: limiters_acquired rest
  | _ :: rest => limiters_acquired rest
  end.

(** What no logging call and no event touches: the counters of the three
    modules and the connection pool. *)
Definition holdings (w : world) : counters * counters * counters * pool :=
  (openai_counters w, aws_counters w, anthropic_counters w, aws_pool w).

(** A pool whose queue respects the bound of its [asyncio.Queue]. *)
Definition bounded (p : pool) : Prop :=
  maxsize p <= 0 \/ Z.of_nat (List.length (queue p)) <= maxsize p.

Definition is_pending {A : Type} (r : result A) : bool :=
  match r with Pending => true | _ => false end.

(** ** The adapters after their loop

    What [chat] does with a response once the loop has left it: the lines
    of each adapter below its [async with] block. *)

Definition openai_finish (resp : OpenAI.response) (w : world)
    : result (option string) * world :=
  match OpenAI.count_tokens resp w with
  | (Ok _, w) =>
      match OpenAI.first_content resp with
      | Ok text => (Ok text, w)
      | Raise e => (Raise e, w)
      | Pending => (Pending, w)
      end
  | (Raise e, w) => (Raise e, w)
  | (Pending, w) => (Pending, w)
  end.

Definition anthropic_finish (json_start : string) (resp : Anthropic.response)
    (w : world) : result string * world :=
  match Anthropic.count_tokens resp w with
  | (Ok _, w) =>
      match Anthropic.first_text resp with
      | Ok text => (Ok (json_start +:+ text), w)
      | Raise e => (Raise e, w)
      | Pending => (Pending, w)
      end
  | (Raise e, w) => (Raise e, w)
  | (Pending, w) => (Pending, w)
  end.

Definition aws_finish (json_start : string) (b : AWS.body) (w : world)
    : result string * world :=
  match AWS.parse b with
  | Ok response =>
      match AWS.count_tokens response w with
      | (Ok _, w) => (AWS.reply response json_start, w)
      | (Raise e, w) => (Raise e, w)
      | (Pending, w) => (Pending, w)
      end
  | Raise e => (Raise e, w)
  | Pending => (Pending, w)
  end.

(** The pool once its oldest client has been handed out, and once a client
    has been put back. *)
Definition handed_out (p : pool) : pool :=
  {| maxsize := maxsize p; queue := tl (queue p);
     closed := closed p; created := created p |}.

Definition put_back (c : client) (p : pool) : pool :=
  {| maxsize := maxsize p; queue := queue p ++ [c];
     closed := closed p; created := created p |}.

(** A service that fails the first request with its own error class and
    answers every later one with [o]. *)
Definition flaky_then {R : Type} (o : outcome R) (n : nat) : outcome R :=
  match n with
  | O => RaisedProvider "overloaded"
  | S _ => o
  end.

(** A response of each SDK with usage and one piece of text. *)
Definition openai_answer : OpenAI.response :=
  {| OpenAI.usage := Some {| OpenAI.prompt_tokens := Some 12;
                             OpenAI.completion_tokens := Some 5 |};
     OpenAI.choices := [ {| OpenAI.message_content := Some "yes" |} ] |}.

Definition anthropic_answer : Anthropic.response :=
  {| Anthropic.usage := Some {| Anthropic.input_tokens := 12;
                                Anthropic.output_tokens := 5 |};
     Anthropic.content := [ Anthropic.TextBlock "yes" ] |}.

(** A Bedrock reply whose usage record has no [output_tokens] entry. *)
Definition bedrock_reply_without_output (texts : list string) (input : Z) : json :=
  JObj [ ("content", JArr (map text_block_of texts));
         ("usage", JObj [ ("input_tokens", JInt input) ]) ].

(** The record of the warning of [_aws.chat] about the usage. *)
Definition usage_warning : log_record :=
  {| lvl := WARNING; fmt := "Token usage not found in response: %s";
     args := [None] |}.

(** The context [ModelContext("AWS", "haiku")]. *)
Definition haiku_context : ModelContext.t :=
  {| ModelContext.service := "AWS";
     ModelContext.model := "haiku";
     ModelContext.full_model := "anthropic.claude-3-haiku-20240307-v1:0";
     ModelContext.rate_limiter := 3%nat;
     ModelContext.token_limiter := 10%nat;
     ModelContext.connection_limiter := ConnectionPool |}.

(** ** Notions for [clean_events] and [apply_response] *)

(** [segment_id] is the [id] of one of the rows. *)
Definition existing (segments : list Events.segment) (segment_id : Z) : Prop :=
  exists row : Events.segment, In row segments /\ Events.row_id row = segment_id.

(** [enumerate(l, start=i)] *)
Fixpoint numbered {A : Type} (i : Z) (l : list A) : list (Z * A) :=
  match l with
  | [] => []
  | x :: rest => (i, x) :: numbered (i + 1) rest
  end.

(** The topics of a list whose number, counted from 1, is not among
    [ids]. *)
Definition survivors (ids : gset Z) (current : list Topics.topic)
    : list Topics.topic :=
  map snd (List.filter (fun it => bool_decide (fst it ∉ ids))
             (numbered 1 current)).

(** The dictionary [apply_response] makes of an addition. *)
Definition topic_of (a : Topics.Addition) : Topics.topic :=
  {| Topics.title := Topics.ad_title a;
     Topics.description := Topics.ad_description a |}.


(** Sample data. *)
Definition two_segments : list Events.segment :=
  [ {| Events.row_id := 1 |}; {| Events.row_id := 2 |} ].

Definition two_events : list Events.Event :=
  [ {| Events.ev_description := "a"; Events.ev_segments := [1; 2] |};
    {| Events.ev_description := "b"; Events.ev_segments := [] |} ].

Definition plain_message (e : Events.Event) (ids : gset Z) : string :=
  Events.ev_description e.

Definition three_topics : list Topics.topic :=
  [ {| Topics.title := "Politics"; Topics.description := "p" |};
    {| Topics.title := "Sports"; Topics.description := "s" |};
    {| Topics.title := "Courts"; Topics.description := "c" |} ].

Definition swap_sports : Topics.Response :=
  {| Topics.explanation := "x";
     Topics.removals := [ {| Topics.rm_title := "Sports"; Topics.rm_id := 2 |} ];
     Topics.additions := [ {| Topics.ad_title := "Games";
                              Topics.ad_description := "g" |} ] |}.

Definition first_list : Topics.state :=
  {| Topics.TOPICS := [three_topics]; Topics.records := [] |}.

(* ===================================================================== *)
(** * Properties: the catalogue *)
(* ===================================================================== *)

Section Lookup.
Context {V : Type}.

Lemma lookup_list_to_map_cons (k k' : string) (v : V) (l : list (string * V)) :
  (list_to_map ((k', v) :: l) : gmap string V) !! k
  = if decide (k' = k) then Some v else (list_to_map l : gmap string V) !! k.
Proof. cbn [list_to_map foldr]. cbn. apply lookup_insert. Qed.

Lemma lookup_list_to_map_nil (k : string) :
  (list_to_map [] : gmap string V) !! k = None.
Proof. apply lookup_empty. Qed.

Lemma subscript_Ok (d : gmap string V) (k : string) (v : V) :
  subscript d k = Ok v <-> d !! k = Some v.
Proof.
  unfold subscript. destruct (d !! k); split; intros H; congruence.
Qed.
End Lookup.

(** Case analysis on a lookup in a dictionary given by its literal. *)
Ltac lookup_cases H :=
  repeat (first [ rewrite lookup_list_to_map_cons in H
                | rewrite lookup_insert in H ];
          destruct (decide _) as [<- | ?]; [ | ]);
  try (first [ rewrite lookup_list_to_map_nil in H
             | rewrite lookup_empty in H ]; discriminate H).

Lemma MODELS_services (s : string) :
  is_Some (MODELS !! s) -> s = "OpenAI" \/ s = "AWS" \/ s = "Anthropic".
Proof.
  unfold MODELS. intros [aliases H]. lookup_cases H; auto.
Qed.

Lemma counters_of_known (s : string) (w : world) :
  is_Some (MODELS !! s) ->
  counters_of s w = Some (module_counters s w).
Proof.
  intros H. destruct (MODELS_services s H) as [-> | [-> | ->]]; reflexivity.
Qed.

(** C9.  [calculate_cost] checks the service name only: with a service of
    [MODELS] and a model name that has no entry in [MODEL_COSTS[service]],
    the price lookup raises [KeyError] on the model name, where an unknown
    service raises [ValueError]. *)
Theorem calculate_cost_unknown_model
    (service model : string) (w : world) (costs : gmap string prices) :
  is_Some (MODELS !! service) ->
  MODEL_COSTS !! service = Some costs ->
  costs !! model = None ->
  calculate_cost service model w = (Raise (KeyError model), w)
  /\ forall unknown : string,
       MODELS !! unknown = None ->
       calculate_cost unknown model w
       = (Raise (ValueError ("Unknown service: " +:+ unknown)), w).
Proof.
  intros Hs Hc Hm. split.
  - unfold calculate_cost. destruct Hs as [aliases Hs]. rewrite Hs.
    rewrite counters_of_known by eauto.
    unfold cost_of, subscript. rewrite Hc. cbn [bind]. rewrite Hm.
    reflexivity.
  - intros unknown Hu. unfold calculate_cost. rewrite Hu. reflexivity.
Qed.

Lemma calculate_cost_unknown_model_witness :
  calculate_cost "AWS" "opus" initial_world
  = (Raise (KeyError "opus"), initial_world).
Proof.
  refine (proj1 (calculate_cost_unknown_model "AWS" "opus" initial_world
                   (list_to_map [
                      ("sonnet", {| prompt := Int 3; response := Int 15 |});
                      ("haiku", {| prompt := quarter; response := one_and_quarter |}) ])
                   _ _ _)).
  - vm_compute. eexists. reflexivity.
  - vm_compute. reflexivity.
  - vm_compute. reflexivity.
Defined.

(** ** The cost report *)

Lemma cost_of_formula (service model : string) (costs : gmap string prices)
    (p : prices) (pt rt : Z) :
  MODEL_COSTS !! service = Some costs ->
  costs !! model = Some p ->
  cost_of service model pt rt = cost_formula p pt rt.
Proof.
  intros Hc Hm. unfold cost_of, cost_formula, subscript.
  rewrite Hc. cbn [bind]. rewrite Hm. cbn [bind].
  destruct (mul (prompt p) (Int pt)); reflexivity.
Qed.

(** [float_overflow] and the bound on the counters, over [2^970]. *)
Lemma float_overflow_split : float_overflow = 2 ^ 970 * 2 ^ 54 - 2 ^ 970.
Proof.
  unfold float_overflow. rewrite <- Z.pow_add_r by lia. reflexivity.
Qed.

Lemma bound_split : 2 ^ 1000 = 2 ^ 970 * 2 ^ 30.
Proof. rewrite <- Z.pow_add_r by lia. reflexivity. Qed.

Lemma below_float_overflow (z : Z) :
  Z.abs z < 2 ^ 1000 -> Z.abs z < float_overflow.
Proof.
  rewrite float_overflow_split, bound_split.
  assert (0 < 2 ^ 970) as Hpos by (apply Z.pow_pos_nonneg; lia).
  generalize dependent (2 ^ 970). intros X H HX.
  change (2 ^ 54) with 18014398509481984.
  change (2 ^ 30) with 1073741824 in H. lia.
Qed.

Lemma float_of_int_small (z : Z) :
  Z.abs z < 2 ^ 1000 -> float_of_int z = Ok (fmake z 0).
Proof.
  intros H. unfold float_of_int.
  replace (Z.abs z <? float_overflow) with true; [ reflexivity | ].
  symmetry. apply Z.ltb_lt. apply below_float_overflow. exact H.
Qed.

Lemma small_product (a x B : Z) :
  Z.abs a <= 75 -> Z.abs x < B -> Z.abs (a * x) <= 75 * B.
Proof. intros Ha Hx. rewrite Z.abs_mul. nia. Qed.

Lemma cost_formula_int (a b pt rt : Z) :
  Z.abs a <= 75 -> Z.abs b <= 75 ->
  Z.abs pt < 2 ^ 1000 -> Z.abs rt < 2 ^ 1000 ->
  cost_formula {| prompt := Int a; response := Int b |} pt rt
  = Ok (int_quotient (a * pt + b * rt) 1000000).
Proof.
  intros Ha Hb Hp Hr. unfold cost_formula. cbn [prompt response mul add bind truediv].
  replace (1000000 =? 0) with false by reflexivity.
  replace (Z.abs (a * pt + b * rt) <? float_overflow * Z.abs 1000000) with true;
    [ reflexivity | ].
  symmetry. apply Z.ltb_lt.
  pose proof (small_product a pt _ Ha Hp) as H1.
  pose proof (small_product b rt _ Hb Hr) as H2.
  pose proof (Z.abs_triangle (a * pt) (b * rt)) as H3.
  change (Z.abs 1000000) with 1000000.
  rewrite float_overflow_split. rewrite bound_split in H1, H2.
  assert (0 < 2 ^ 970) as Hpos by (apply Z.pow_pos_nonneg; lia).
  generalize dependent (2 ^ 970). intros X H1 H2 HX.
  change (2 ^ 54) with 18014398509481984.
  change (2 ^ 30) with 1073741824 in H1, H2. lia.
Qed.

Lemma cost_formula_float (f g : float) (pt rt : Z) :
  Z.abs pt < 2 ^ 1000 -> Z.abs rt < 2 ^ 1000 ->
  cost_formula {| prompt := Float f; response := Float g |} pt rt
  = Ok (fdiv (fadd (fmul f (fmake pt 0)) (fmul g (fmake rt 0))) million).
Proof.
  intros Hp Hr. unfold cost_formula.
  cbn [prompt response mul add bind truediv lift2 to_float].
  rewrite !float_of_int_small by assumption. cbn [bind].
  reflexivity.
Qed.

Lemma cost_formula_listed (service model : string)
    (costs : gmap string prices) (p : prices) (pt rt : Z) :
  MODEL_COSTS !! service = Some costs ->
  costs !! model = Some p ->
  Z.abs pt < 2 ^ 1000 -> Z.abs rt < 2 ^ 1000 ->
  exists cost : float, cost_formula p pt rt = Ok cost.
Proof.
  intros Hc Hm Hp Hr. unfold MODEL_COSTS in Hc.
  lookup_cases Hc; injection Hc as <-;
    lookup_cases Hm; injection Hm as <-;
    first [ eexists; apply cost_formula_int; [ cbn; lia | cbn; lia | assumption | assumption ]
          | eexists; apply cost_formula_float; assumption ].
Qed.

(** C8.  For a service of [MODELS] and a model with an entry in the price
    table, [calculate_cost] returns the summary of the service's prompt and
    response token counters and of
    [cost = (prompt price * prompt tokens + response price * response
    tokens) / 1_000_000], printed with two decimals, and the world it
    returns is the world it was given.  The counters are taken below
    [2^1000] in magnitude, where the conversion of an [int] to a [float]
    cannot overflow. *)
Theorem calculate_cost_report
    (service model : string) (w : world) (costs : gmap string prices) (p : prices) :
  is_Some (MODELS !! service) ->
  MODEL_COSTS !! service = Some costs ->
  costs !! model = Some p ->
  Z.abs (PROMPT_TOKENS (module_counters service w)) < 2 ^ 1000 ->
  Z.abs (RESPONSE_TOKENS (module_counters service w)) < 2 ^ 1000 ->
  exists cost : float,
    cost_formula p (PROMPT_TOKENS (module_counters service w))
                   (RESPONSE_TOKENS (module_counters service w)) = Ok cost
    /\ calculate_cost service model w
       = (Ok ("prompt_tokens: "
              +:+ str_of_int (PROMPT_TOKENS (module_counters service w)) +:+ TAB
              +:+ "response_tokens: "
              +:+ str_of_int (RESPONSE_TOKENS (module_counters service w)) +:+ TAB
              +:+ "cost: " +:+ format_2f cost),
          w).
Proof.
  intros Hs Hc Hm Hp Hr.
  destruct (cost_formula_listed service model costs p _ _ Hc Hm Hp Hr) as [cost Hcost].
  exists cost. split; [ exact Hcost | ].
  unfold calculate_cost. destruct Hs as [aliases Hs]. rewrite Hs.
  rewrite counters_of_known by eauto.
  rewrite (cost_of_formula service model costs p) by assumption.
  rewrite Hcost. reflexivity.
Qed.

Lemma calculate_cost_report_witness :
  exists cost : float,
    cost_formula {| prompt := quarter; response := one_and_quarter |}
      1200000 340000 = Ok cost
    /\ calculate_cost "AWS" "haiku" busy_world
       = (Ok ("prompt_tokens: 1200000" +:+ TAB +:+ "response_tokens: 340000"
              +:+ TAB +:+ "cost: " +:+ format_2f cost),
          busy_world).
Proof.
  refine (calculate_cost_report "AWS" "haiku" busy_world
            (list_to_map [
               ("sonnet", {| prompt := Int 3; response := Int 15 |});
               ("haiku", {| prompt := quarter; response := one_and_quarter |}) ])
            {| prompt := quarter; response := one_and_quarter |} _ _ _ _ _).
  - vm_compute. eexists. reflexivity.
  - vm_compute. reflexivity.
  - vm_compute. reflexivity.
  - vm_compute. reflexivity.
  - vm_compute. reflexivity.
Defined.

Example calculate_cost_haiku :
  calculate_cost "AWS" "haiku" busy_world
  = (Ok ("prompt_tokens: 1200000" +:+ TAB +:+ "response_tokens: 340000"
         +:+ TAB +:+ "cost: 0.72"), busy_world).
Proof. vm_compute. reflexivity. Qed.

(** ** Which aliases share a limiter object *)

Lemma init_bindings (service alias : string) (c : ModelContext.t) :
  ModelContext.init service alias = Ok c ->
  In (service, alias, ModelContext.rate_limiter c, ModelContext.token_limiter c)
     bindings.
Proof.
  unfold ModelContext.init. intros H.
  destruct (MODELS !! service) as [aliases|] eqn:Hs; [ | discriminate H ].
  destruct (aliases !! alias) as [full|] eqn:Ha; [ | discriminate H ].
  unfold MODELS in Hs.
  lookup_cases Hs; injection Hs as <-; lookup_cases Ha;
    vm_compute in H; injection H as <-; cbn; tauto.
Qed.

(** C4, as amended.  Two distinct aliases of one service are bound to the
    same request limiter object exactly when the service is OpenAI and both
    aliases belong to the gpt-3.5 group, and likewise for the token
    limiter; every other alias has a request limiter and a token limiter of
    its own. *)
Theorem limiters_shared_only_in_gpt_3_5_group
    (service a1 a2 : string) (c1 c2 : ModelContext.t) :
  ModelContext.init service a1 = Ok c1 ->
  ModelContext.init service a2 = Ok c2 ->
  a1 <> a2 ->
  (ModelContext.rate_limiter c1 = ModelContext.rate_limiter c2
   <-> service = "OpenAI" /\ in_group a1 = true /\ in_group a2 = true)
  /\ (ModelContext.token_limiter c1 = ModelContext.token_limiter c2
      <-> service = "OpenAI" /\ in_group a1 = true /\ in_group a2 = true).
Proof.
  intros H1 H2 Hne.
  apply init_bindings in H1. apply init_bindings in H2.
  generalize dependent (ModelContext.rate_limiter c1).
  generalize dependent (ModelContext.token_limiter c1).
  generalize dependent (ModelContext.rate_limiter c2).
  generalize dependent (ModelContext.token_limiter c2).
  intros t2 r2 H2 t1 r1 H1.
  unfold bindings in H1, H2. cbn [In] in H1, H2.
  repeat (destruct H1 as [H1 | H1]; [ injection H1 as <- <- <- <- | ]);
    try contradiction;
    repeat (destruct H2 as [H2 | H2];
            [ first [ discriminate H2 | injection H2 as <- <- <- ] | ]);
    try contradiction;
    try (exfalso; apply Hne; reflexivity);
    (split;
     (split;
      [ intros E; first [ discriminate E | repeat split; reflexivity ]
      | intros (E1 & E2 & E3);
        first [ discriminate E1 | discriminate E2 | discriminate E3
              | reflexivity ] ])).
Qed.

Lemma limiters_shared_only_in_gpt_3_5_group_witness :
  (4%nat = 5%nat
   <-> "Anthropic" = "OpenAI" /\ in_group "opus" = true /\ in_group "sonnet" = true)
  /\ (11%nat = 12%nat
      <-> "Anthropic" = "OpenAI" /\ in_group "opus" = true /\ in_group "sonnet" = true).
Proof.
  refine (limiters_shared_only_in_gpt_3_5_group "Anthropic" "opus" "sonnet"
            {| ModelContext.service := "Anthropic";
               ModelContext.model := "opus";
               ModelContext.full_model := "claude-3-opus-20240229";
               ModelContext.rate_limiter := 4%nat;
               ModelContext.token_limiter := 11%nat;
               ModelContext.connection_limiter := Semaphore 1%nat |}
            {| ModelContext.service := "Anthropic";
               ModelContext.model := "sonnet";
               ModelContext.full_model := "claude-3-sonnet-20240229";
               ModelContext.rate_limiter := 5%nat;
               ModelContext.token_limiter := 12%nat;
               ModelContext.connection_limiter := Semaphore 1%nat |} _ _ _).
  - vm_compute. reflexivity.
  - vm_compute. reflexivity.
  - discriminate.
Defined.

(** C4, as stated, fails: the distinct OpenAI aliases [gpt-3.5] and
    [ft-events-1] are bound to one request limiter object and to one token
    limiter object. *)
Lemma gpt_3_5_aliases_share_limiters :
  exists c1 c2 : ModelContext.t,
    ModelContext.init "OpenAI" "gpt-3.5" = Ok c1
    /\ ModelContext.init "OpenAI" "ft-events-1" = Ok c2
    /\ "gpt-3.5" <> "ft-events-1"
    /\ ModelContext.rate_limiter c1 = ModelContext.rate_limiter c2
    /\ ModelContext.token_limiter c1 = ModelContext.token_limiter c2.
Proof.
  do 2 eexists. split; [ vm_compute; reflexivity | ].
  split; [ vm_compute; reflexivity | ].
  split; [ discriminate | split; reflexivity ].
Qed.

(* ===================================================================== *)
(** * Properties: the connection pool *)
(* ===================================================================== *)

Module PoolFacts.
Import AWSClientConnectionPool.

Lemma close_loop_drains (n : nat) :
  forall p : pool,
    (List.length (queue p) <= n)%nat ->
    close_loop n p
    = (Ok tt, {| maxsize := maxsize p; queue := [];
                 closed := closed p ++ queue p; created := created p |}).
Proof.
  induction n as [| n IH]; intros [size q cl made] Hlen; cbn in Hlen.
  - destruct q; [ | cbn in Hlen; lia ].
    cbn. rewrite app_nil_r. reflexivity.
  - destruct q as [| c rest].
    + cbn. rewrite app_nil_r. reflexivity.
    + cbn [close_loop empty queue get client_close maxsize closed created].
      rewrite IH by (cbn in *; lia).
      unfold client_close. cbn [maxsize queue closed created].
      rewrite <- app_assoc. reflexivity.
Qed.

Lemma close_drains (p : pool) :
  close p
  = (Ok tt, {| maxsize := maxsize p; queue := [];
               closed := closed p ++ queue p; created := created p |}).
Proof. unfold close. apply close_loop_drains. lia. Qed.

Lemma release_into_drained (c : client) (size : Z) (cl : list client) (made : nat) :
  release c {| maxsize := size; queue := []; closed := cl; created := made |}
  = (Ok tt, {| maxsize := size; queue := [c]; closed := cl; created := made |}).
Proof.
  unfold release, put, full. cbn [maxsize queue closed created List.length].
  destruct (0 <? size) eqn:Hpos; cbn [andb]; [ | reflexivity ].
  apply Z.ltb_lt in Hpos.
  replace (size <=? Z.of_nat 0) with false; [ reflexivity | ].
  symmetry. apply Z.leb_gt. lia.
Qed.

End PoolFacts.

(** C10.  When a client [c] has been acquired from a pool of distinct
    clients and not released, [close()] closes the clients that are in the
    queue at that moment, each once and no other: [c] is not among them and
    is closed no more often than before.  The queue is then empty, and
    [release(c)] returns at once, leaving the queue holding [c] alone with
    no further client closed. *)
Theorem close_spares_acquired_client (p p1 : pool) (c : client) :
  NoDup (queue p) ->
  AWSClientConnectionPool.acquire p = (Ok c, p1) ->
  exists p2 p3 : pool,
    AWSClientConnectionPool.close p1 = (Ok tt, p2)
    /\ closed p2 = closed p ++ queue p1
    /\ queue p2 = []
    /\ ~ In c (queue p1)
    /\ count_occ Nat.eq_dec (closed p2) c = count_occ Nat.eq_dec (closed p) c
    /\ AWSClientConnectionPool.release c p2 = (Ok tt, p3)
    /\ queue p3 = [c]
    /\ closed p3 = closed p2.
Proof.
  intros Hnd Hacq.
  unfold AWSClientConnectionPool.acquire, AWSClientConnectionPool.get in Hacq.
  destruct p as [size q cl made]. cbn [queue maxsize closed created] in *.
  destruct q as [| c0 rest]; [ discriminate Hacq | ].
  injection Hacq as -> <-. cbn [queue closed].
  assert (Hnotin : ~ In c rest).
  { inversion Hnd as [| ? ? Hc _]; subst. rewrite <- list_elem_of_In. exact Hc. }
  eexists. eexists.
  split; [ apply PoolFacts.close_drains | ].
  cbn [queue closed maxsize created].
  split; [ reflexivity | ].
  split; [ reflexivity | ].
  split; [ exact Hnotin | ].
  split.
  { unfold client in *.
    rewrite count_occ_app, (proj1 (count_occ_not_In Nat.eq_dec rest c) Hnotin).
    lia. }
  split; [ apply PoolFacts.release_into_drained | ].
  split; reflexivity.
Qed.

Lemma close_spares_acquired_client_witness :
  exists p2 p3 : pool,
    AWSClientConnectionPool.close
      {| maxsize := 2; queue := [1%nat]; closed := []; created := 2 |}
    = (Ok tt, p2)
    /\ closed p2 = [] ++ [1%nat]
    /\ queue p2 = []
    /\ ~ In 0%nat [1%nat]
    /\ count_occ Nat.eq_dec (closed p2) 0%nat = count_occ Nat.eq_dec [] 0%nat
    /\ AWSClientConnectionPool.release 0%nat p2 = (Ok tt, p3)
    /\ queue p3 = [0%nat]
    /\ closed p3 = closed p2.
Proof.
  refine (close_spares_acquired_client pool_of_two
            {| maxsize := 2; queue := [1%nat]; closed := []; created := 2 |}
            0%nat _ _).
  - vm_compute.
    repeat (apply NoDup_cons_2; [ rewrite list_elem_of_In; cbn; lia | ]).
    apply NoDup_nil_2.
  - vm_compute. reflexivity.
Defined.

(* ===================================================================== *)
(** * Properties: the attempt loop *)
(* ===================================================================== *)

Lemma requests_app (a b : list event) :
  requests (a ++ b) = requests a ++ requests b.
Proof.
  induction a as [| e a IH]; [ reflexivity | ].
  destruct e; cbn; rewrite IH; reflexivity.
Qed.

Lemma acquired_app (limiter : addr) (a b : list event) :
  acquired limiter (a ++ b) = acquired limiter a ++ acquired limiter b.
Proof.
  induction a as [| e a IH]; [ reflexivity | ].
  destruct e; cbn; try (destruct (Nat.eqb _ _)); rewrite IH; reflexivity.
Qed.

Lemma guarded_app (limiter : addr) (tokens : Z) (a b : list event) :
  guarded limiter tokens a -> guarded limiter tokens b ->
  guarded limiter tokens (a ++ b).
Proof.
  intros Ha Hb. induction Ha as [| r rest _ IH | e rest He _ IH]; cbn.
  - exact Hb.
  - apply guarded_attempt. exact IH.
  - apply guarded_skip; assumption.
Qed.

(** In a guarded trace the acquisitions from the limiter are as many as the
    requests, and each is of [tokens]. *)
Lemma guarded_acquired (limiter : addr) (tokens : Z) (tr : list event) :
  guarded limiter tokens tr ->
  acquired limiter tr = repeat tokens (List.length (requests tr)).
Proof.
  intros H. induction H as [| r rest _ IH | e rest He _ IH].
  - reflexivity.
  - cbn. rewrite Nat.eqb_refl, IH. reflexivity.
  - destruct e; cbn in *; try exact IH; try contradiction.
    destruct (Nat.eqb_spec limiter0 limiter); [ contradiction | exact IH ].
Qed.

Section LoopFacts.
Context {R A : Type}.
Variable MAX_RETRIES : nat.
Variable model : string.
Variable limiter : addr.
Variable tokens : Z.
Variable req : request.
Variable before_request : world -> world.
Variable accepted : R -> option A.
Variable on_provider_error : string -> world -> world.
Variable backend : nat -> outcome R.

Hypothesis before_request_trace :
  forall w, trace (before_request w) = trace w.
Hypothesis on_provider_error_trace :
  forall e w, trace (on_provider_error e w) = trace w.

Let run := attempt_loop MAX_RETRIES model limiter tokens req before_request
             accepted on_provider_error backend.

(** What one pass adds to the trace before the request is answered. *)
Lemma attempt_prefix (w : world) :
  trace (emit (Request req)
           (before_request (emit (LimiterAcquire limiter tokens) w)))
  = trace w ++ [LimiterAcquire limiter tokens; Request req].
Proof.
  cbn [emit trace]. rewrite before_request_trace. cbn [emit trace].
  rewrite <- app_assoc. reflexivity.
Qed.

(** Whatever the services answer and however long the loop runs, it
    acquires [tokens] once right before every request it sends, and every
    request is [req]. *)
Lemma attempt_loop_guarded (fuel : nat) :
  forall (retries : nat) (wait_time : float) (n : nat) (w : world),
  exists new : list event,
    trace (snd (run fuel retries wait_time n w)) = trace w ++ new
    /\ guarded limiter tokens new
    /\ Forall (eq req) (requests new).
Proof.
  induction fuel as [| fuel IH]; intros retries wait_time n w.
  - exists []. cbn. rewrite app_nil_r. repeat split; constructor.
  - unfold run. cbn [attempt_loop]. fold run.
    destruct (retries <? MAX_RETRIES)%nat.
    2:{ exists []. cbn. rewrite app_nil_r. repeat split; constructor. }
    destruct (backend n) as [r | e | e].
    + destruct (accepted r) as [a |].
      * exists [LimiterAcquire limiter tokens; Request req].
        cbn [snd]. rewrite attempt_prefix.
        repeat split; repeat constructor.
      * destruct (IH retries wait_time (S n)
                    (emit (Request req)
                       (before_request (emit (LimiterAcquire limiter tokens) w))))
          as (new & Htr & Hg & Hr).
        exists ([LimiterAcquire limiter tokens; Request req] ++ new).
        rewrite Htr, attempt_prefix, <- app_assoc.
        repeat split.
        -- apply guarded_attempt. exact Hg.
        -- cbn. constructor; [ reflexivity | exact Hr ].
    + match goal with
      | |- context [run fuel ?r ?t ?k ?w'] =>
          destruct (IH r t k w') as (new & Htr & Hg & Hr)
      end.
      exists ([LimiterAcquire limiter tokens; Request req; Sleep wait_time] ++ new).
      rewrite Htr. cbn [emit trace]. rewrite on_provider_error_trace, attempt_prefix.
      rewrite <- !app_assoc. repeat split.
      -- apply guarded_attempt. apply guarded_skip; [ exact I | exact Hg ].
      -- cbn. constructor; [ reflexivity | exact Hr ].
    + exists [LimiterAcquire limiter tokens; Request req].
      cbn [snd]. rewrite attempt_prefix.
      repeat split; repeat constructor.
Qed.

(** A value the loop returns was returned by the service and passed the
    test. *)
Lemma attempt_loop_Ok (fuel : nat) :
  forall (retries : nat) (wait_time : float) (n : nat) (w w' : world) (a : A),
    run fuel retries wait_time n w = (Ok a, w') ->
    exists (k : nat) (r : R), backend k = Returned r /\ accepted r = Some a.
Proof.
  induction fuel as [| fuel IH]; intros retries wait_time n w w' a H.
  - discriminate H.
  - unfold run in H. cbn [attempt_loop] in H. fold run in H.
    destruct (retries <? MAX_RETRIES)%nat; [ | discriminate H ].
    destruct (backend n) as [r | e | e] eqn:Hb.
    + destruct (accepted r) as [a0 |] eqn:Ha.
      * injection H as <- _. eauto.
      * eapply IH. exact H.
    + eapply IH. exact H.
    + discriminate H.
Qed.

(** When every request fails with the provider's error, the loop sends
    one request for each retry it has left and then raises. *)
Lemma attempt_loop_exhausts :
  (forall k : nat, exists e : string, backend k = RaisedProvider e) ->
  forall (left retries fuel : nat) (wait_time : float) (n : nat) (w : world),
    (retries + left = MAX_RETRIES)%nat ->
    (left < fuel)%nat ->
    exists new : list event,
      fst (run fuel retries wait_time n w)
      = Raise (RuntimeError ("Failed to connect to " +:+ model +:+ " after "
                             +:+ str_of_int (Z.of_nat MAX_RETRIES) +:+ " retries"))
      /\ trace (snd (run fuel retries wait_time n w)) = trace w ++ new
      /\ List.length (requests new) = left.
Proof.
  intros Hall. induction left as [| left IH];
    intros retries fuel wait_time n w Hsum Hfuel.
  - destruct fuel as [| fuel]; [ lia | ].
    unfold run. cbn [attempt_loop].
    replace (retries <? MAX_RETRIES)%nat with false
      by (symmetry; apply Nat.ltb_ge; lia).
    exists []. cbn [fst snd]. rewrite app_nil_r.
    replace retries with MAX_RETRIES by lia. repeat split.
  - destruct fuel as [| fuel]; [ lia | ].
    unfold run. cbn [attempt_loop]. fold run.
    replace (retries <? MAX_RETRIES)%nat with true
      by (symmetry; apply Nat.ltb_lt; lia).
    destruct (Hall n) as [e ->].
    match goal with
    | |- context [run fuel ?r ?t ?k ?w'] =>
        destruct (IH r fuel t k w') as (new & Hres & Htr & Hlen); [ lia | lia | ]
    end.
    exists ([LimiterAcquire limiter tokens; Request req; Sleep wait_time] ++ new).
    rewrite Hres, Htr. cbn [emit trace].
    rewrite on_provider_error_trace, attempt_prefix, <- !app_assoc.
    repeat split. cbn. rewrite Hlen. reflexivity.
Qed.

Hypothesis before_request_pool :
  forall w, aws_pool (before_request w) = aws_pool w.
Hypothesis on_provider_error_pool :
  forall e w, aws_pool (on_provider_error e w) = aws_pool w.

(** The loop leaves the connection pool as it found it. *)
Lemma attempt_loop_pool (fuel : nat) :
  forall (retries : nat) (wait_time : float) (n : nat) (w : world),
    aws_pool (snd (run fuel retries wait_time n w)) = aws_pool w.
Proof.
  induction fuel as [| fuel IH]; intros retries wait_time n w;
    [ reflexivity | ].
  unfold run. cbn [attempt_loop]. fold run.
  destruct (retries <? MAX_RETRIES)%nat; [ | reflexivity ].
  destruct (backend n) as [r | e | e].
  - destruct (accepted r) as [a |].
    + cbn [snd emit aws_pool]. rewrite before_request_pool. reflexivity.
    + rewrite IH. cbn [emit aws_pool]. rewrite before_request_pool.
      reflexivity.
  - rewrite IH. cbn [emit aws_pool].
    rewrite on_provider_error_pool. cbn [emit aws_pool].
    rewrite before_request_pool. reflexivity.
  - cbn [snd emit aws_pool]. rewrite before_request_pool. reflexivity.
Qed.

End LoopFacts.

(* ===================================================================== *)
(** * Properties: the adapters *)
(* ===================================================================== *)

Lemma guarded_acquired_all (limiter : addr) (tokens : Z) (tr : list event) :
  guarded limiter tokens tr -> Forall (eq tokens) (acquired limiter tr).
Proof.
  intros H. rewrite (guarded_acquired limiter tokens tr H).
  induction (List.length (requests tr)); cbn; constructor; auto.
Qed.

(** A trace made of a guarded part between two semaphore events. *)
Lemma guarded_between (limiter : addr) (tokens : Z) (s : semaphore)
    (new tail : list event) :
  guarded limiter tokens new ->
  tail = [] \/ tail = [SemaphoreRelease s] ->
  guarded limiter tokens (SemaphoreAcquire s :: new ++ tail).
Proof.
  intros Hg Htail. apply guarded_skip; [ exact I | ].
  apply guarded_app; [ exact Hg | ].
  destruct Htail as [-> | ->]; [ constructor | ].
  apply guarded_skip; [ exact I | constructor ].
Qed.

Module OpenAIFacts.
Import OpenAI.

Lemma openai_count_tokens_trace (r : response) (w : world) :
  trace (snd (count_tokens r w)) = trace w.
Proof.
  unfold count_tokens. destruct (usage r) as [u |]; [ | reflexivity ].
  destruct (prompt_tokens u), (completion_tokens u); reflexivity.
Qed.

Section Chat.
Variable encode : string -> string -> list Z.
Variables (fuel : nat) (model system prompt : string) (limiter : addr).
Variables (pool : semaphore) (temperature wait_time : float).
Variable backend : nat -> outcome (option response).
Variable w : world.

Let loop :=
  attempt_loop MAX_RETRIES model limiter
    (estimate encode model system prompt)
    (request_for model system prompt temperature)
    (fun w => w) is_not_None log_error backend
    fuel 0%nat wait_time 0%nat (emit (SemaphoreAcquire pool) w).

(** The trace of [chat]: the semaphore is taken, the loop runs, and the
    semaphore is given back unless the loop is still running. *)
Lemma openai_chat_trace :
  exists tail : list event,
    trace (snd (chat encode fuel model system prompt limiter pool
                  temperature wait_time backend w))
    = trace (snd loop) ++ tail
    /\ (tail = [] \/ tail = [SemaphoreRelease pool]).
Proof.
  unfold chat. fold loop. destruct loop as [[resp | e |] w1]; cbn [snd].
  - exists [SemaphoreRelease pool]. split; [ | auto ].
    destruct (count_tokens resp (emit (SemaphoreRelease pool) w1))
      as [[[] | e |] w2] eqn:Hc;
      pose proof (openai_count_tokens_trace resp (emit (SemaphoreRelease pool) w1)) as Ht;
      rewrite Hc in Ht; cbn [snd] in Ht;
      try destruct (first_content resp); cbn [snd]; exact Ht.
  - exists [SemaphoreRelease pool]. split; [ reflexivity | auto ].
  - exists []. split; [ rewrite app_nil_r; reflexivity | auto ].
Qed.

Lemma openai_chat_guarded :
  exists new : list event,
    trace (snd (chat encode fuel model system prompt limiter pool
                  temperature wait_time backend w))
    = trace w ++ new
    /\ guarded limiter (estimate encode model system prompt) new
    /\ Forall (eq (request_for model system prompt temperature)) (requests new).
Proof.
  destruct openai_chat_trace as (tail & Htr & Htail).
  destruct (attempt_loop_guarded MAX_RETRIES model limiter
              (estimate encode model system prompt)
              (request_for model system prompt temperature)
              (fun w => w) is_not_None log_error backend
              (fun _ => eq_refl) (fun _ _ => eq_refl)
              fuel 0%nat wait_time 0%nat (emit (SemaphoreAcquire pool) w))
    as (new & Hloop & Hg & Hr).
  fold loop in Hloop.
  exists (SemaphoreAcquire pool :: new ++ tail).
  rewrite Htr, Hloop. cbn [emit trace]. rewrite <- !app_assoc.
  repeat split.
  - apply guarded_between; assumption.
  - cbn. rewrite requests_app.
    replace (requests tail) with (@nil request)
      by (destruct Htail as [-> | ->]; reflexivity).
    rewrite app_nil_r. exact Hr.
Qed.
End Chat.
End OpenAIFacts.

Module AnthropicFacts.
Import Anthropic.

Lemma anthropic_count_tokens_trace (r : response) (w : world) :
  trace (snd (count_tokens r w)) = trace w.
Proof. unfold count_tokens. destruct (usage r); reflexivity. Qed.

Section Chat.
Variables (fuel : nat) (model system prompt : string) (limiter : addr).
Variables (pool : semaphore) (temperature : float) (json_start : string).
Variable wait_time : float.
Variable backend : nat -> outcome (option response).
Variable w : world.

Let loop :=
  attempt_loop MAX_RETRIES model limiter (estimate system prompt)
    (request_for model system prompt temperature json_start)
    (fun w => w) is_truthy log_error backend
    fuel 0%nat wait_time 0%nat (emit (SemaphoreAcquire pool) w).

Lemma anthropic_chat_trace :
  exists tail : list event,
    trace (snd (chat fuel model system prompt limiter pool temperature
                  json_start wait_time backend w))
    = trace (snd loop) ++ tail
    /\ (tail = [] \/ tail = [SemaphoreRelease pool]).
Proof.
  unfold chat. fold loop. destruct loop as [[resp | e |] w1]; cbn [snd].
  - exists [SemaphoreRelease pool]. split; [ | auto ].
    destruct (count_tokens resp (emit (SemaphoreRelease pool) w1))
      as [[[] | e |] w2] eqn:Hc;
      pose proof (anthropic_count_tokens_trace resp (emit (SemaphoreRelease pool) w1)) as Ht;
      rewrite Hc in Ht; cbn [snd] in Ht;
      try destruct (first_text resp); cbn [snd]; exact Ht.
  - exists [SemaphoreRelease pool]. split; [ reflexivity | auto ].
  - exists []. split; [ rewrite app_nil_r; reflexivity | auto ].
Qed.

Lemma anthropic_chat_guarded :
  exists new : list event,
    trace (snd (chat fuel model system prompt limiter pool temperature
                  json_start wait_time backend w))
    = trace w ++ new
    /\ guarded limiter (estimate system prompt) new
    /\ Forall (eq (request_for model system prompt temperature json_start))
              (requests new).
Proof.
  destruct anthropic_chat_trace as (tail & Htr & Htail).
  destruct (attempt_loop_guarded MAX_RETRIES model limiter
              (estimate system prompt)
              (request_for model system prompt temperature json_start)
              (fun w => w) is_truthy log_error backend
              (fun _ => eq_refl) (fun _ _ => eq_refl)
              fuel 0%nat wait_time 0%nat (emit (SemaphoreAcquire pool) w))
    as (new & Hloop & Hg & Hr).
  fold loop in Hloop.
  exists (SemaphoreAcquire pool :: new ++ tail).
  rewrite Htr, Hloop. cbn [emit trace]. rewrite <- !app_assoc.
  repeat split.
  - apply guarded_between; assumption.
  - cbn. rewrite requests_app.
    replace (requests tail) with (@nil request)
      by (destruct Htail as [-> | ->]; reflexivity).
    rewrite app_nil_r. exact Hr.
Qed.
End Chat.
End AnthropicFacts.

Module AWSFacts.
Import AWS.

Lemma aws_count_tokens_trace (response : json) (w : world) :
  trace (snd (count_tokens response w)) = trace w.
Proof.
  unfold count_tokens.
  repeat match goal with
         | |- context [match ?x with _ => _ end] => destruct x
         end; reflexivity.
Qed.

Section Chat.
Variables (fuel : nat) (model system prompt : string) (limiter : addr).
Variables (temperature : float) (json_start : string) (wait_time : float).
Variable backend : nat -> outcome body.
Variable w : world.

(** The trace of [chat] holds the events of the loop and nothing else:
    taking and returning the client shows in the pool only. *)
Lemma aws_chat_guarded :
  exists new : list event,
    trace (snd (chat fuel model system prompt limiter temperature
                  json_start wait_time backend w))
    = trace w ++ new
    /\ guarded limiter (estimate system prompt json_start) new.
Proof.
  unfold chat.
  destruct (AWSClientConnectionPool.acquire (aws_pool w)) as [[c | e |] p].
  2,3: exists []; cbn; rewrite app_nil_r; split; [ reflexivity | constructor ].
  match goal with
  | |- context [attempt_loop ?m ?mo ?l ?t ?rq ?b ?a ?o ?bk ?f ?r ?wt ?n ?w0] =>
      destruct (attempt_loop_guarded m mo l t rq b a o bk
                  (fun _ => eq_refl) (fun _ _ => eq_refl) f r wt n w0)
        as (new & Hloop & Hg & _);
      destruct (attempt_loop m mo l t rq b a o bk f r wt n w0) as [res w1]
  end.
  cbn [snd set_pool trace] in Hloop.
  exists new. split; [ | exact Hg ]. rewrite <- Hloop.
  destruct res as [b | e |]; [ | | reflexivity ];
    destruct (AWSClientConnectionPool.release c (aws_pool w1)) as [[[] | e' |] p1];
    try reflexivity.
  destruct (parse b) as [response | e' |]; try reflexivity.
  pose proof (aws_count_tokens_trace response (set_pool p1 w1)) as Ht.
  destruct (count_tokens response (set_pool p1 w1)) as [[[] | e' |] w2];
    cbn [snd] in *; exact Ht.
Qed.
End Chat.
End AWSFacts.

(** C7.  In every invocation of [chat], on each of the three adapters and
    for as long as it runs, the token limiter is acquired for the estimated
    cost once right before every request, the first one and every one that
    follows a failure, and at no other point: the acquisitions are as many
    as the requests and each is of the estimate. *)
Theorem token_limiter_acquired_before_each_attempt :
  (forall (encode : string -> string -> list Z) (fuel : nat)
          (model system prompt : string) (limiter : addr) (pool : semaphore)
          (temperature wait_time : float)
          (backend : nat -> outcome (option OpenAI.response)) (w : world),
     exists new : list event,
       trace (snd (OpenAI.chat encode fuel model system prompt limiter pool
                     temperature wait_time backend w)) = trace w ++ new
       /\ guarded limiter (OpenAI.estimate encode model system prompt) new
       /\ acquired limiter new
          = repeat (OpenAI.estimate encode model system prompt)
                   (List.length (requests new)))
  /\ (forall (fuel : nat) (model system prompt : string) (limiter : addr)
             (pool : semaphore) (temperature : float) (json_start : string)
             (wait_time : float)
             (backend : nat -> outcome (option Anthropic.response)) (w : world),
        exists new : list event,
          trace (snd (Anthropic.chat fuel model system prompt limiter pool
                        temperature json_start wait_time backend w))
          = trace w ++ new
          /\ guarded limiter (Anthropic.estimate system prompt) new
          /\ acquired limiter new
             = repeat (Anthropic.estimate system prompt)
                      (List.length (requests new)))
  /\ (forall (fuel : nat) (model system prompt : string) (limiter : addr)
             (temperature : float) (json_start : string) (wait_time : float)
             (backend : nat -> outcome AWS.body) (w : world),
        exists new : list event,
          trace (snd (AWS.chat fuel model system prompt limiter temperature
                        json_start wait_time backend w)) = trace w ++ new
          /\ guarded limiter (AWS.estimate system prompt json_start) new
          /\ acquired limiter new
             = repeat (AWS.estimate system prompt json_start)
                      (List.length (requests new))).
Proof.
  split; [ | split ].
  - intros encode fuel model system prompt limiter pool temperature wait_time
      backend w.
    destruct (OpenAIFacts.openai_chat_guarded encode fuel model system prompt limiter
                pool temperature wait_time backend w) as (new & Htr & Hg & _).
    exists new. repeat split; [ exact Htr | exact Hg | ].
    apply guarded_acquired. exact Hg.
  - intros fuel model system prompt limiter pool temperature json_start
      wait_time backend w.
    destruct (AnthropicFacts.anthropic_chat_guarded fuel model system prompt limiter
                pool temperature json_start wait_time backend w)
      as (new & Htr & Hg & _).
    exists new. repeat split; [ exact Htr | exact Hg | ].
    apply guarded_acquired. exact Hg.
  - intros fuel model system prompt limiter temperature json_start wait_time
      backend w.
    destruct (AWSFacts.aws_chat_guarded fuel model system prompt limiter
                temperature json_start wait_time backend w) as (new & Htr & Hg).
    exists new. repeat split; [ exact Htr | exact Hg | ].
    apply guarded_acquired. exact Hg.
Qed.

(** C2.  When every request of an invocation fails with the provider's
    error, [chat] of [_openai.py] and of [_anthropic.py] sends exactly three
    requests ([MAX_RETRIES]) and then raises the error whose text names the
    model and the count of three; no fourth request is sent.  Four rounds of
    the loop are enough for that. *)
Theorem exhausted_after_three_attempts
    (encode : string -> string -> list Z) (fuel : nat)
    (model system prompt : string) (limiter : addr) (pool : semaphore)
    (temperature : float) (json_start : string) (wait_time : float)
    (openai : nat -> outcome (option OpenAI.response))
    (anthropic : nat -> outcome (option Anthropic.response)) (w : world) :
  (4 <= fuel)%nat ->
  (forall k : nat, exists e : string, openai k = RaisedProvider e) ->
  (forall k : nat, exists e : string, anthropic k = RaisedProvider e) ->
  (exists new : list event,
     fst (OpenAI.chat encode fuel model system prompt limiter pool
            temperature wait_time openai w)
     = Raise (RuntimeError ("Failed to connect to " +:+ model
                            +:+ " after 3 retries"))
     /\ trace (snd (OpenAI.chat encode fuel model system prompt limiter pool
                      temperature wait_time openai w)) = trace w ++ new
     /\ List.length (requests new) = 3%nat)
  /\ (exists new : list event,
        fst (Anthropic.chat fuel model system prompt limiter pool
               temperature json_start wait_time anthropic w)
        = Raise (RuntimeError ("Failed to connect to " +:+ model
                               +:+ " after 3 retries"))
        /\ trace (snd (Anthropic.chat fuel model system prompt limiter pool
                         temperature json_start wait_time anthropic w))
           = trace w ++ new
        /\ List.length (requests new) = 3%nat).
Proof.
  intros Hfuel Hopenai Hanthropic. split.
  - destruct (attempt_loop_exhausts OpenAI.MAX_RETRIES model limiter
                (OpenAI.estimate encode model system prompt)
                (OpenAI.request_for model system prompt temperature)
                (fun w => w) OpenAI.is_not_None OpenAI.log_error openai
                (fun _ => eq_refl) (fun _ _ => eq_refl) Hopenai
                3%nat 0%nat fuel wait_time 0%nat
                (emit (SemaphoreAcquire pool) w) eq_refl)
      as (new & Hres & Htr & Hlen); [ unfold lt; exact Hfuel | ].
    exists (SemaphoreAcquire pool :: new ++ [SemaphoreRelease pool]).
    unfold OpenAI.chat.
    destruct (attempt_loop _ _ _ _ _ _ _ _ _ _ _ _ _ _) as [res w1].
    cbn [fst snd] in Hres, Htr. subst res. cbn [fst snd emit trace].
    rewrite Htr. cbn [emit trace]. rewrite <- !app_assoc.
    repeat split. cbn. rewrite requests_app, length_app, Hlen. reflexivity.
  - destruct (attempt_loop_exhausts Anthropic.MAX_RETRIES model limiter
                (Anthropic.estimate system prompt)
                (Anthropic.request_for model system prompt temperature json_start)
                (fun w => w) Anthropic.is_truthy Anthropic.log_error anthropic
                (fun _ => eq_refl) (fun _ _ => eq_refl) Hanthropic
                3%nat 0%nat fuel wait_time 0%nat
                (emit (SemaphoreAcquire pool) w) eq_refl)
      as (new & Hres & Htr & Hlen); [ unfold lt; exact Hfuel | ].
    exists (SemaphoreAcquire pool :: new ++ [SemaphoreRelease pool]).
    unfold Anthropic.chat.
    destruct (attempt_loop _ _ _ _ _ _ _ _ _ _ _ _ _ _) as [res w1].
    cbn [fst snd] in Hres, Htr. subst res. cbn [fst snd emit trace].
    rewrite Htr. cbn [emit trace]. rewrite <- !app_assoc.
    repeat split. cbn. rewrite requests_app, length_app, Hlen. reflexivity.
Qed.

Lemma exhausted_after_three_attempts_witness :
  (exists new : list event,
     fst (OpenAI.chat no_tokens 4 "gpt-4-turbo-2024-04-09" "s" "p" 8%nat 0%nat
            one one overloaded initial_world)
     = Raise (RuntimeError ("Failed to connect to " +:+ "gpt-4-turbo-2024-04-09"
                            +:+ " after 3 retries"))
     /\ trace (snd (OpenAI.chat no_tokens 4 "gpt-4-turbo-2024-04-09" "s" "p"
                      8%nat 0%nat one one overloaded initial_world))
        = trace initial_world ++ new
     /\ List.length (requests new) = 3%nat)
  /\ (exists new : list event,
        fst (Anthropic.chat 4 "gpt-4-turbo-2024-04-09" "s" "p" 8%nat 0%nat one
               EmptyString one overloaded initial_world)
        = Raise (RuntimeError ("Failed to connect to " +:+ "gpt-4-turbo-2024-04-09"
                               +:+ " after 3 retries"))
        /\ trace (snd (Anthropic.chat 4 "gpt-4-turbo-2024-04-09" "s" "p" 8%nat
                         0%nat one EmptyString one overloaded initial_world))
           = trace initial_world ++ new
        /\ List.length (requests new) = 3%nat).
Proof.
  refine (exhausted_after_three_attempts no_tokens 4 "gpt-4-turbo-2024-04-09"
            "s" "p" 8%nat 0%nat one EmptyString one overloaded overloaded
            initial_world _ _ _).
  - lia.
  - intros k. exists "overloaded". reflexivity.
  - intros k. exists "overloaded". reflexivity.
Defined.

(** The same on AWS, for a pool that has a client to hand out: the client
    goes back to the end of the queue when the error is raised. *)
Lemma aws_exhausted_after_three_attempts
    (fuel : nat) (model system prompt : string) (limiter : addr)
    (temperature : float) (json_start : string) (wait_time : float)
    (backend : nat -> outcome AWS.body) (w : world)
    (c : client) (rest : list client) :
  (4 <= fuel)%nat ->
  (forall k : nat, exists e : string, backend k = RaisedProvider e) ->
  queue (aws_pool w) = c :: rest ->
  maxsize (aws_pool w) <= 0
  \/ Z.of_nat (List.length rest) < maxsize (aws_pool w) ->
  exists new : list event,
    fst (AWS.chat fuel model system prompt limiter temperature json_start
           wait_time backend w)
    = Raise (RuntimeError ("Failed to connect to " +:+ model
                           +:+ " after 3 retries"))
    /\ trace (snd (AWS.chat fuel model system prompt limiter temperature
                     json_start wait_time backend w)) = trace w ++ new
    /\ List.length (requests new) = 3%nat
    /\ queue (aws_pool (snd (AWS.chat fuel model system prompt limiter
                               temperature json_start wait_time backend w)))
       = rest ++ [c].
Proof.
  intros Hfuel Hall Hq Hsize.
  unfold AWS.chat, AWSClientConnectionPool.acquire, AWSClientConnectionPool.get.
  rewrite Hq.
  set (p := {| maxsize := maxsize (aws_pool w); queue := rest;
               closed := closed (aws_pool w); created := created (aws_pool w) |}).
  set (payload := BedrockInvoke c _ model).
  destruct (attempt_loop_exhausts AWS.MAX_RETRIES model limiter
              (AWS.estimate system prompt json_start) payload
              (AWS.log_debug model) AWS.always AWS.log_warning backend
              (fun _ => eq_refl) (fun _ _ => eq_refl) Hall
              3%nat 0%nat fuel wait_time 0%nat (set_pool p w) eq_refl)
    as (new & Hres & Htr & Hlen); [ unfold lt; exact Hfuel | ].
  pose proof (attempt_loop_pool AWS.MAX_RETRIES model limiter
                (AWS.estimate system prompt json_start) payload
                (AWS.log_debug model) AWS.always AWS.log_warning backend
                (fun _ => eq_refl) (fun _ _ => eq_refl)
                fuel 0%nat wait_time 0%nat (set_pool p w)) as Hpool.
  destruct (attempt_loop _ _ _ _ _ _ _ _ _ _ _ _ _ _) as [res w1].
  cbn [fst snd set_pool aws_pool trace] in Hres, Htr, Hpool. subst res.
  exists new.
  unfold AWSClientConnectionPool.release, AWSClientConnectionPool.put,
    AWSClientConnectionPool.full.
  rewrite Hpool. subst p. cbn [maxsize queue closed created].
  replace ((0 <? maxsize (aws_pool w))
           && (maxsize (aws_pool w) <=? Z.of_nat (List.length rest)))
    with false
    by (symmetry; apply andb_false_iff;
        destruct Hsize; [ left; apply Z.ltb_ge | right; apply Z.leb_gt ]; lia).
  cbn [fst snd set_pool aws_pool trace queue].
  repeat split; assumption.
Qed.

(** The three requests and the doubled waits, spelled out. *)
Example anthropic_gives_up :
  Anthropic.chat 4 "claude-3-haiku-20240307" "s" "p" 13%nat 1%nat one
    EmptyString one overloaded initial_world
  = (Raise (RuntimeError "Failed to connect to claude-3-haiku-20240307 after 3 retries"),
     let req := Anthropic.request_for "claude-3-haiku-20240307" "s" "p" one
                  EmptyString in
     let failed := {| lvl := ERROR; fmt := "Error in Anthropic request: %s";
                      args := [Some "overloaded"] |} in
     {| openai_counters := zero; aws_counters := zero; anthropic_counters := zero;
        aws_pool := initial_pool;
        log := [failed; failed; failed];
        trace := [ SemaphoreAcquire 1%nat;
                   LimiterAcquire 13%nat 1; Request req; Sleep one;
                   LimiterAcquire 13%nat 1; Request req; Sleep (fmake 2 0);
                   LimiterAcquire 13%nat 1; Request req; Sleep (fmake 4 0);
                   SemaphoreRelease 1%nat ] |}).
Proof. vm_compute. reflexivity. Qed.

(** C6, as amended.  The amount acquired from the token limiter is, on
    every acquisition: for OpenAI, the number of tokens the encoder finds
    in [system] plus the number it finds in [prompt]; for Anthropic,
    [(len(system) + len(prompt) + 4) // 5]; for AWS,
    [(len(system) + len(prompt) + len(json_start) + 4) // 5], which counts
    the assistant prefix as well. *)
Theorem acquired_amount_is_the_estimate :
  (forall (encode : string -> string -> list Z) (fuel : nat)
          (model system prompt : string) (limiter : addr) (pool : semaphore)
          (temperature wait_time : float)
          (backend : nat -> outcome (option OpenAI.response)) (w : world),
     exists new : list event,
       trace (snd (OpenAI.chat encode fuel model system prompt limiter pool
                     temperature wait_time backend w)) = trace w ++ new
       /\ Forall (eq (Z.of_nat (List.length (encode model system))
                      + Z.of_nat (List.length (encode model prompt))))
                 (acquired limiter new))
  /\ (forall (fuel : nat) (model system prompt : string) (limiter : addr)
             (pool : semaphore) (temperature : float) (json_start : string)
             (wait_time : float)
             (backend : nat -> outcome (option Anthropic.response)) (w : world),
        exists new : list event,
          trace (snd (Anthropic.chat fuel model system prompt limiter pool
                        temperature json_start wait_time backend w))
          = trace w ++ new
          /\ Forall (eq ((len system + len prompt + 4) / 5))
                    (acquired limiter new))
  /\ (forall (fuel : nat) (model system prompt : string) (limiter : addr)
             (temperature : float) (json_start : string) (wait_time : float)
             (backend : nat -> outcome AWS.body) (w : world),
        exists new : list event,
          trace (snd (AWS.chat fuel model system prompt limiter temperature
                        json_start wait_time backend w)) = trace w ++ new
          /\ Forall (eq ((len system + len prompt + len json_start + 4) / 5))
                    (acquired limiter new)).
Proof.
  split; [ | split ].
  - intros encode fuel model system prompt limiter pool temperature wait_time
      backend w.
    destruct (OpenAIFacts.openai_chat_guarded encode fuel model system prompt limiter
                pool temperature wait_time backend w) as (new & Htr & Hg & _).
    exists new. split; [ exact Htr | ].
    apply (guarded_acquired_all _ _ _ Hg).
  - intros fuel model system prompt limiter pool temperature json_start
      wait_time backend w.
    destruct (AnthropicFacts.anthropic_chat_guarded fuel model system prompt limiter
                pool temperature json_start wait_time backend w)
      as (new & Htr & Hg & _).
    exists new. split; [ exact Htr | ].
    apply (guarded_acquired_all _ _ _ Hg).
  - intros fuel model system prompt limiter temperature json_start wait_time
      backend w.
    destruct (AWSFacts.aws_chat_guarded fuel model system prompt limiter
                temperature json_start wait_time backend w) as (new & Htr & Hg).
    exists new. split; [ exact Htr | ].
    apply (guarded_acquired_all _ _ _ Hg).
Qed.

(** C6, as stated, fails on AWS: with the same [system] and [prompt], an
    invocation without assistant prefix acquires 1 and an invocation with
    the prefix [12345] acquires 2, so the amount is not a function of
    [system] and [prompt] only. *)
Lemma aws_estimate_counts_json_start :
  acquired 10%nat
    (trace (snd (AWS.chat 1 "anthropic.claude-3-haiku-20240307-v1:0" "s" "p"
                   10%nat one EmptyString one
                   (always_returns (AWS.Document (bedrock_reply ["ok"] 1 1)))
                   warm_world)))
  = [1]
  /\ acquired 10%nat
       (trace (snd (AWS.chat 1 "anthropic.claude-3-haiku-20240307-v1:0" "s" "p"
                      10%nat one "12345" one
                      (always_returns (AWS.Document (bedrock_reply ["ok"] 1 1)))
                      warm_world)))
     = [2].
Proof. split; vm_compute; reflexivity. Qed.

(** No constant [k] makes the AWS estimate [(len(system)+len(prompt)+k)//5]. *)
Lemma aws_estimate_has_no_constant :
  ~ exists k : Z,
      forall system prompt json_start : string,
        AWS.estimate system prompt json_start = (len system + len prompt + k) / 5.
Proof.
  intros [k H].
  pose proof (H EmptyString EmptyString EmptyString) as H0.
  pose proof (H EmptyString EmptyString "12345") as H5.
  change (0 = (0 + 0 + k) / 5) in H0.
  change (1 = (0 + 0 + k) / 5) in H5.
  lia.
Qed.

(** ** What [chat] returns *)

Lemma text_parts_of_text_blocks (blocks : list json) (ts : list string) :
  Forall2 is_text_block blocks ts ->
  AWS.text_parts blocks = Ok (map JStr ts).
Proof.
  induction 1 as [| b t blocks ts (fields & -> & Hty & Htx) _ IH];
    [ reflexivity | ].
  cbn [map AWS.text_parts Json.get]. rewrite Hty. cbn [bind Json.eq_str].
  rewrite String.eqb_refl, Htx. cbn [bind]. rewrite IH. reflexivity.
Qed.

Lemma text_block_of_is_text_block (t : string) :
  is_text_block (text_block_of t) t.
Proof. eexists. repeat split. Qed.

Lemma strings_of_JStr (ts : list string) : AWS.strings (map JStr ts) = Ok ts.
Proof.
  induction ts as [| t ts IH]; [ reflexivity | ].
  cbn [map AWS.strings]. rewrite IH. reflexivity.
Qed.

Lemma reply_of_text_blocks (fields : list (string * json))
    (blocks : list json) (ts : list string) (json_start : string) :
  Json.assoc "content" fields = Some (JArr blocks) ->
  Forall2 is_text_block blocks ts ->
  AWS.reply (JObj fields) json_start = Ok (json_start +:+ strip (join " " ts)).
Proof.
  intros H Hblocks. unfold AWS.reply, Json.get. rewrite H.
  cbn [bind Json.iterate].
  rewrite (text_parts_of_text_blocks blocks ts Hblocks). cbn [bind].
  rewrite strings_of_JStr. reflexivity.
Qed.

Lemma anthropic_chat_Ok (fuel : nat) (model system prompt : string)
    (limiter : addr) (pool : semaphore) (temperature : float)
    (json_start : string) (wait_time : float)
    (backend : nat -> outcome (option Anthropic.response))
    (w w' : world) (text : string) :
  Anthropic.chat fuel model system prompt limiter pool temperature json_start
    wait_time backend w = (Ok text, w') ->
  exists (k : nat) (resp : Anthropic.response) (t : string)
         (rest : list Anthropic.block),
    backend k = Returned (Some resp)
    /\ Anthropic.content resp = Anthropic.TextBlock t :: rest
    /\ text = json_start +:+ t.
Proof.
  unfold Anthropic.chat. intros H.
  destruct (attempt_loop _ _ _ _ _ _ _ _ _ _ _ _ _ _) as [res w1] eqn:Hloop.
  destruct res as [resp | e |]; [ | discriminate H | discriminate H ].
  apply attempt_loop_Ok in Hloop. destruct Hloop as (k & r & Hk & Hr).
  unfold Anthropic.is_truthy in Hr. subst r.
  destruct (Anthropic.count_tokens resp _) as [[[] | e |] w2];
    [ | discriminate H | discriminate H ].
  unfold Anthropic.first_text in H.
  destruct (Anthropic.content resp) as [| [t |] rest] eqn:Hc;
    [ discriminate H | | discriminate H ].
  injection H as <- _. exists k, resp, t, rest. auto.
Qed.

Lemma aws_chat_Ok (fuel : nat) (model system prompt : string)
    (limiter : addr) (temperature : float) (json_start : string)
    (wait_time : float) (backend : nat -> outcome AWS.body)
    (w w' : world) (text : string) :
  AWS.chat fuel model system prompt limiter temperature json_start wait_time
    backend w = (Ok text, w') ->
  exists (k : nat) (doc : json),
    backend k = Returned (AWS.Document doc)
    /\ AWS.reply doc json_start = Ok text.
Proof.
  unfold AWS.chat. intros H.
  destruct (AWSClientConnectionPool.acquire (aws_pool w)) as [[c | e |] p];
    [ | discriminate H | discriminate H ].
  destruct (attempt_loop _ _ _ _ _ _ _ _ _ _ _ _ _ _) as [res w1] eqn:Hloop.
  destruct res as [b | e |]; [ | | discriminate H ].
  - apply attempt_loop_Ok in Hloop. destruct Hloop as (k & r & Hk & Hr).
    unfold AWS.always in Hr. injection Hr as ->.
    destruct (AWSClientConnectionPool.release c (aws_pool w1)) as [[[] | e |] p1];
      [ | discriminate H | discriminate H ].
    destruct b as [doc | e]; [ | discriminate H ].
    cbn [AWS.parse] in H.
    destruct (AWS.count_tokens doc _) as [[[] | e |] w2];
      [ | discriminate H | discriminate H ].
    injection H as H _. exists k, doc. auto.
  - destruct (AWSClientConnectionPool.release c (aws_pool w1)) as [[[] | e' |] p1];
      discriminate H.
Qed.

(** C5, as amended.  A successful [chat] with assistant prefix
    [json_start] returns: on Anthropic, [json_start] followed by the text of
    the first content block of the response, unchanged; on AWS, for a
    response whose content is a list of blocks of type [text],
    [json_start] followed by their texts joined with single spaces and
    stripped of leading and trailing whitespace, which is [json_start]
    followed by the text itself when there is one block and it has no
    whitespace at either end. *)
Theorem returned_text_continues_prefix :
  (forall (fuel : nat) (model system prompt : string) (limiter : addr)
          (pool : semaphore) (temperature : float) (json_start : string)
          (wait_time : float)
          (backend : nat -> outcome (option Anthropic.response))
          (w w' : world) (text : string),
     Anthropic.chat fuel model system prompt limiter pool temperature
       json_start wait_time backend w = (Ok text, w') ->
     exists (k : nat) (resp : Anthropic.response) (t : string)
            (rest : list Anthropic.block),
       backend k = Returned (Some resp)
       /\ Anthropic.content resp = Anthropic.TextBlock t :: rest
       /\ text = json_start +:+ t)
  /\ (forall (fuel : nat) (model system prompt : string) (limiter : addr)
             (temperature : float) (json_start : string) (wait_time : float)
             (backend : nat -> outcome AWS.body) (w w' : world) (text : string),
        AWS.chat fuel model system prompt limiter temperature json_start
          wait_time backend w = (Ok text, w') ->
        exists (k : nat) (doc : json),
          backend k = Returned (AWS.Document doc)
          /\ forall (fields : list (string * json)) (blocks : list json)
                    (ts : list string),
               doc = JObj fields ->
               Json.assoc "content" fields = Some (JArr blocks) ->
               Forall2 is_text_block blocks ts ->
               text = json_start +:+ strip (join " " ts)
               /\ forall t : string,
                    ts = [t] -> strip t = t -> text = json_start +:+ t).
Proof.
  split.
  - intros fuel model system prompt limiter pool temperature json_start
      wait_time backend w w' text H.
    eapply anthropic_chat_Ok. exact H.
  - intros fuel model system prompt limiter temperature json_start wait_time
      backend w w' text H.
    destruct (aws_chat_Ok _ _ _ _ _ _ _ _ _ _ _ _ H) as (k & doc & Hk & Hreply).
    exists k, doc. split; [ exact Hk | ].
    intros fields blocks ts -> Hcontent Hblocks.
    rewrite (reply_of_text_blocks fields blocks ts json_start Hcontent Hblocks)
      in Hreply.
    injection Hreply as <-. split; [ reflexivity | ].
    intros t -> Hstrip. cbn [join String.concat]. rewrite Hstrip. reflexivity.
Qed.

(** The end-to-end example on both adapters: the prefix, then the
    continuation. *)
Lemma returned_text_continues_prefix_witness :
  (exists (k : nat) (resp : Anthropic.response) (t : string)
          (rest : list Anthropic.block),
     always_returns
       (Some {| Anthropic.usage := Some {| Anthropic.input_tokens := 3;
                                           Anthropic.output_tokens := 2 |};
                Anthropic.content := [Anthropic.TextBlock ok_tail] |}) k
     = Returned (Some resp)
     /\ Anthropic.content resp = Anthropic.TextBlock t :: rest
     /\ prefix_a +:+ ok_tail = prefix_a +:+ t)
  /\ (exists (k : nat) (doc : json),
        always_returns (AWS.Document (bedrock_reply [ok_tail] 3 2)) k
        = Returned (AWS.Document doc)
        /\ forall (fields : list (string * json)) (blocks : list json)
                  (ts : list string),
             doc = JObj fields ->
             Json.assoc "content" fields = Some (JArr blocks) ->
             Forall2 is_text_block blocks ts ->
             prefix_a +:+ ok_tail = prefix_a +:+ strip (join " " ts)
             /\ forall t : string,
                  ts = [t] -> strip t = t ->
                  prefix_a +:+ ok_tail = prefix_a +:+ t).
Proof.
  split.
  - refine (proj1 returned_text_continues_prefix 1%nat
              "claude-3-haiku-20240307" "s" "p" 13%nat 1%nat one prefix_a one
              (always_returns
                 (Some {| Anthropic.usage := Some {| Anthropic.input_tokens := 3;
                                                     Anthropic.output_tokens := 2 |};
                          Anthropic.content := [Anthropic.TextBlock ok_tail] |}))
              initial_world
              (snd (Anthropic.chat 1 "claude-3-haiku-20240307" "s" "p" 13%nat
                      1%nat one prefix_a one
                      (always_returns
                         (Some {| Anthropic.usage :=
                                    Some {| Anthropic.input_tokens := 3;
                                            Anthropic.output_tokens := 2 |};
                                  Anthropic.content :=
                                    [Anthropic.TextBlock ok_tail] |}))
                      initial_world))
              (prefix_a +:+ ok_tail) _).
    vm_compute. reflexivity.
  - refine (proj2 returned_text_continues_prefix 1%nat
              "anthropic.claude-3-haiku-20240307-v1:0" "s" "p" 10%nat one
              prefix_a one
              (always_returns (AWS.Document (bedrock_reply [ok_tail] 3 2)))
              warm_world
              (snd (AWS.chat 1 "anthropic.claude-3-haiku-20240307-v1:0" "s" "p"
                      10%nat one prefix_a one
                      (always_returns (AWS.Document (bedrock_reply [ok_tail] 3 2)))
                      warm_world))
              (prefix_a +:+ ok_tail) _).
    vm_compute. reflexivity.
Defined.

(** C5, as stated, fails on AWS: when the continuation starts with a
    space, the text returned is the prefix followed by the continuation
    without that space. *)
Lemma aws_strips_the_continuation :
  fst (AWS.chat 1 "anthropic.claude-3-haiku-20240307-v1:0" "s" "p" 10%nat one
         prefix_a one
         (always_returns (AWS.Document (bedrock_reply [" " +:+ ok_tail] 3 2)))
         warm_world)
  = Ok (prefix_a +:+ ok_tail)
  /\ prefix_a +:+ ok_tail <> prefix_a +:+ (" " +:+ ok_tail).
Proof. split; [ vm_compute; reflexivity | vm_compute; discriminate ]. Qed.

(** Two text blocks come back joined by a space that the model did not
    write. *)
Example aws_joins_the_blocks :
  fst (AWS.chat 1 "anthropic.claude-3-haiku-20240307-v1:0" "s" "p" 10%nat one
         "{" one
         (always_returns (AWS.Document (bedrock_reply ["a"; "b"] 3 2)))
         warm_world)
  = Ok "{a b".
Proof. vm_compute. reflexivity. Qed.

Example anthropic_end_to_end :
  let out :=
    Anthropic.chat 1 "claude-3-haiku-20240307" "s" "p" 13%nat 1%nat one
      prefix_a one
      (always_returns
         (Some {| Anthropic.usage := Some {| Anthropic.input_tokens := 3;
                                             Anthropic.output_tokens := 2 |};
                  Anthropic.content := [Anthropic.TextBlock ok_tail] |}))
      initial_world in
  fst out = Ok ("{" +:+ QUOTE +:+ "a" +:+ QUOTE +:+ ":ok" +:+ QUOTE +:+ "}")
  /\ anthropic_counters (snd out) = {| PROMPT_TOKENS := 3; RESPONSE_TOKENS := 2 |}.
Proof. vm_compute. split; reflexivity. Qed.

(** ** The OpenAI request *)

Lemma init_OpenAI (alias : string) (c : ModelContext.t) :
  ModelContext.init "OpenAI" alias = Ok c ->
  ModelContext.service c = "OpenAI"
  /\ ModelContext.connection_limiter c = Semaphore 0%nat.
Proof.
  unfold ModelContext.init, bind. intros H.
  repeat match type of H with
         | context [match ?x with _ => _ end] =>
             destruct x eqn:?; try discriminate H
         end.
  injection H as <-. cbn [ModelContext.service ModelContext.connection_limiter].
  split; [ reflexivity | ].
  match goal with
  | E : subscript CONNECTION_LIMITERS _ = Ok ?v |- ?v = _ =>
      vm_compute in E; injection E as <-; reflexivity
  end.
Qed.

(** C1, where the code departs from it.  Every request that
    [ModelContext.chat] sends for an OpenAI context carries two messages,
    both of role [system]: the first holds the system text, the second the
    prompt.  No message of role [user] is sent, and no assistant prefix. *)
Theorem openai_sends_prompt_as_system
    (encode : string -> string -> list Z) (api : services) (fuel : nat)
    (alias : string) (c : ModelContext.t) (system prompt : string)
    (temperature : float) (json_start : string) (wait_time : float)
    (w : world) :
  ModelContext.init "OpenAI" alias = Ok c ->
  exists new : list event,
    trace (snd (ModelContext.chat encode api fuel c system prompt temperature
                  json_start wait_time w)) = trace w ++ new
    /\ Forall (eq (OpenAICreate
                     {| oa_model := ModelContext.full_model c;
                        oa_messages := [ {| role := "system"; content := system |};
                                         {| role := "system"; content := prompt |} ];
                        oa_response_format := "json_object";
                        oa_temperature := temperature;
                        oa_max_tokens := 1000 |}))
              (requests new).
Proof.
  intros Hinit. destruct (init_OpenAI alias c Hinit) as [Hs Hc].
  unfold ModelContext.chat. rewrite Hs, Hc. cbn [String.eqb Ascii.eqb Bool.eqb].
  match goal with
  | |- context [OpenAI.chat ?en ?f ?m ?s ?p ?l ?po ?t ?wt ?b ?w0] =>
      destruct (OpenAIFacts.openai_chat_guarded en f m s p l po t wt b w0)
        as (new & Htr & _ & Hr)
  end.
  exists (LimiterAcquire (ModelContext.rate_limiter c) 1 :: new).
  rewrite Htr. split.
  - destruct (truthy json_start); cbn [logging emit trace];
      rewrite <- app_assoc; reflexivity.
  - exact Hr.
Qed.

Lemma openai_sends_prompt_as_system_witness :
  exists new : list event,
    trace (snd (ModelContext.chat no_tokens
                  {| openai_api := overloaded; bedrock_api := overloaded;
                     anthropic_api := overloaded |}
                  4 gpt_4_context "s" "p" one "{" one initial_world))
    = trace initial_world ++ new
    /\ Forall (eq (OpenAICreate
                     {| oa_model := ModelContext.full_model gpt_4_context;
                        oa_messages := [ {| role := "system"; content := "s" |};
                                         {| role := "system"; content := "p" |} ];
                        oa_response_format := "json_object";
                        oa_temperature := one;
                        oa_max_tokens := 1000 |}))
              (requests new).
Proof.
  refine (openai_sends_prompt_as_system no_tokens
            {| openai_api := overloaded; bedrock_api := overloaded;
               anthropic_api := overloaded |}
            4 "gpt-4" gpt_4_context "s" "p" one "{" one initial_world _).
  vm_compute. reflexivity.
Defined.

(** One call with a prefix: the warning is logged, the request holds the
    two [system] messages and no prefix, and the content of the first
    choice is returned as it is. *)
Example openai_call_with_prefix :
  ModelContext.chat no_tokens
    {| openai_api :=
         always_returns
           (Some {| OpenAI.usage := Some {| OpenAI.prompt_tokens := Some 3;
                                            OpenAI.completion_tokens := Some 2 |};
                    OpenAI.choices := [ {| OpenAI.message_content := Some "{}" |} ] |});
       bedrock_api := overloaded;
       anthropic_api := overloaded |}
    1 gpt_4_context "s" "p" one "{" one initial_world
  = (Ok (Some "{}"),
     {| openai_counters := {| PROMPT_TOKENS := 3; RESPONSE_TOKENS := 2 |};
        aws_counters := zero;
        anthropic_counters := zero;
        aws_pool := initial_pool;
        log := [ {| lvl := WARNING;
                    fmt := "json_start not supported for OpenAI: %s";
                    args := [Some "{"] |} ];
        trace := [ LimiterAcquire 1%nat 1;
                   SemaphoreAcquire 0%nat;
                   LimiterAcquire 8%nat 0;
                   Request (OpenAICreate
                              {| oa_model := "gpt-4-turbo-2024-04-09";
                                 oa_messages :=
                                   [ {| role := "system"; content := "s" |};
                                     {| role := "system"; content := "p" |} ];
                                 oa_response_format := "json_object";
                                 oa_temperature := one;
                                 oa_max_tokens := 1000 |});
                   SemaphoreRelease 0%nat ] |}).
Proof. vm_compute. reflexivity. Qed.

(** ** Responses without usage *)

(** C3, where the code departs from it.  On the Anthropic adapter a
    response that has text content and no usage record makes [chat] raise
    [AttributeError]: no text is returned, no warning is logged, and the
    counters stay as they were.  On the OpenAI adapter a usage object whose
    prompt count is [None] is replaced by 0 in a local variable only; the
    addition still takes the field and raises [TypeError], which the
    handler for [AttributeError] lets through. *)
Theorem missing_usage_fails_the_call :
  (forall (fuel : nat) (model system prompt : string) (limiter : addr)
          (pool : semaphore) (temperature : float) (json_start : string)
          (wait_time : float) (w : world) (text : string)
          (rest : list Anthropic.block),
     let resp := {| Anthropic.usage := None;
                    Anthropic.content := Anthropic.TextBlock text :: rest |} in
     let out := Anthropic.chat (S fuel) model system prompt limiter pool
                  temperature json_start wait_time
                  (always_returns (Some resp)) w in
     fst out = Raise AttributeError
     /\ anthropic_counters (snd out) = anthropic_counters w
     /\ log (snd out) = log w)
  /\ (forall (encode : string -> string -> list Z) (fuel : nat)
             (model system prompt : string) (limiter : addr) (pool : semaphore)
             (temperature wait_time : float) (w : world) (text : option string)
             (completion : option Z),
        let resp :=
          {| OpenAI.usage := Some {| OpenAI.prompt_tokens := None;
                                     OpenAI.completion_tokens := completion |};
             OpenAI.choices := [ {| OpenAI.message_content := text |} ] |} in
        fst (OpenAI.chat encode (S fuel) model system prompt limiter pool
               temperature wait_time (always_returns (Some resp)) w)
        = Raise TypeError).
Proof.
  split.
  - intros fuel model system prompt limiter pool temperature json_start
      wait_time w text rest. cbn. repeat split.
  - intros encode fuel model system prompt limiter pool temperature wait_time
      w text completion. cbn. destruct completion; reflexivity.
Qed.

(** The sibling on AWS: the same call succeeds, with a warning and with
    the counters as they were. *)
Lemma aws_missing_usage_succeeds
    (fuel : nat) (model system prompt : string) (limiter : addr)
    (temperature : float) (json_start : string) (wait_time : float)
    (text : string) :
  let doc := JObj [ ("content", JArr [text_block_of text]) ] in
  let out := AWS.chat (S fuel) model system prompt limiter temperature
               json_start wait_time (always_returns (AWS.Document doc))
               warm_world in
  fst out = Ok (json_start +:+ strip text)
  /\ aws_counters (snd out) = aws_counters warm_world
  /\ log (snd out)
     = [ {| lvl := DEBUG; fmt := "Request to Claude model %s: %s";
            args := [Some model; None] |};
         {| lvl := WARNING; fmt := "Token usage not found in response: %s";
            args := [None] |} ].
Proof. cbn. repeat split. Qed.

(** The sibling on OpenAI, for a response without usage object. *)
Lemma openai_missing_usage_succeeds
    (encode : string -> string -> list Z) (fuel : nat)
    (model system prompt : string) (limiter : addr) (pool : semaphore)
    (temperature wait_time : float) (w : world) (text : option string)
    (rest : list OpenAI.choice) :
  let resp := {| OpenAI.usage := None;
                 OpenAI.choices := {| OpenAI.message_content := text |} :: rest |} in
  let out := OpenAI.chat encode (S fuel) model system prompt limiter pool
               temperature wait_time (always_returns (Some resp)) w in
  fst out = Ok text
  /\ openai_counters (snd out) = openai_counters w
  /\ log (snd out)
     = log w ++ [ {| lvl := WARNING;
                     fmt := "Failed to get token usage from response";
                     args := [] |} ].
Proof. cbn. repeat split. Qed.

(* ===================================================================== *)
(** * Further properties of the attempt loop *)
(* ===================================================================== *)

Lemma sleeps_app (a b : list event) : sleeps (a ++ b) = sleeps a ++ sleeps b.
Proof.
  induction a as [| e a IH]; [ reflexivity | ].
  destruct e; cbn; rewrite IH; reflexivity.
Qed.

Lemma released_app (a b : list event) :
  released (a ++ b) = released a ++ released b.
Proof.
  induction a as [| e a IH]; [ reflexivity | ].
  destruct e; cbn; rewrite IH; reflexivity.
Qed.

Lemma taken_app (a b : list event) : taken (a ++ b) = taken a ++ taken b.
Proof.
  induction a as [| e a IH]; [ reflexivity | ].
  destruct e; cbn; rewrite IH; reflexivity.
Qed.

Lemma limiters_acquired_app (a b : list event) :
  limiters_acquired (a ++ b) = limiters_acquired a ++ limiters_acquired b.
Proof.
  induction a as [| e a IH]; [ reflexivity | ].
  destruct e; cbn; rewrite IH; reflexivity.
Qed.

Section LoopRuns.
Context {R A : Type}.
Variable MAX_RETRIES : nat.
Variable model : string.
Variable limiter : addr.
Variable tokens : Z.
Variable req : request.
Variable before_request : world -> world.
Variable accepted : R -> option A.
Variable on_provider_error : string -> world -> world.
Variable backend : nat -> outcome R.

Hypothesis before_request_trace :
  forall w, trace (before_request w) = trace w.
Hypothesis on_provider_error_trace :
  forall e w, trace (on_provider_error e w) = trace w.
Hypothesis before_request_holdings :
  forall w, holdings (before_request w) = holdings w.
Hypothesis on_provider_error_holdings :
  forall e w, holdings (on_provider_error e w) = holdings w.

Let run := attempt_loop MAX_RETRIES model limiter tokens req before_request
             accepted on_provider_error backend.

Let pass (w : world) : world :=
  emit (Request req) (before_request (emit (LimiterAcquire limiter tokens) w)).

Lemma pass_trace (w : world) :
  trace (pass w) = trace w ++ [LimiterAcquire limiter tokens; Request req].
Proof.
  unfold pass. cbn [emit trace]. rewrite before_request_trace.
  cbn [emit trace]. rewrite <- app_assoc. reflexivity.
Qed.

Lemma pass_holdings (w : world) : holdings (pass w) = holdings w.
Proof.
  unfold pass. change (holdings (emit (Request req) ?x)) with (holdings x).
  rewrite before_request_holdings. reflexivity.
Qed.

(** The loop touches neither the counters nor the pool. *)
Lemma attempt_loop_holdings (fuel : nat) :
  forall (retries : nat) (wait_time : float) (n : nat) (w : world),
    holdings (snd (run fuel retries wait_time n w)) = holdings w.
Proof.
  induction fuel as [| fuel IH]; intros retries wait_time n w;
    [ reflexivity | ].
  unfold run. cbn [attempt_loop]. fold run. fold (pass w).
  destruct (retries <? MAX_RETRIES)%nat; [ | reflexivity ].
  destruct (backend n) as [r | e | e].
  - destruct (accepted r) as [a |]; [ apply pass_holdings | ].
    rewrite IH. apply pass_holdings.
  - rewrite IH.
    change (holdings (emit (Sleep wait_time) ?x)) with (holdings x).
    rewrite on_provider_error_holdings. apply pass_holdings.
  - apply pass_holdings.
Qed.

(** The loop takes and gives back no semaphore, and acquires no limiter
    but its own. *)
Lemma attempt_loop_events (fuel : nat) :
  forall (retries : nat) (wait_time : float) (n : nat) (w : world),
  exists new : list event,
    trace (snd (run fuel retries wait_time n w)) = trace w ++ new
    /\ taken new = [] /\ released new = []
    /\ Forall (eq limiter) (limiters_acquired new).
Proof.
  induction fuel as [| fuel IH]; intros retries wait_time n w.
  - exists []. cbn. rewrite app_nil_r. repeat split; constructor.
  - unfold run. cbn [attempt_loop]. fold run. fold (pass w).
    destruct (retries <? MAX_RETRIES)%nat.
    2:{ exists []. cbn. rewrite app_nil_r. repeat split; constructor. }
    destruct (backend n) as [r | e | e].
    + destruct (accepted r) as [a |].
      * exists [LimiterAcquire limiter tokens; Request req].
        cbn [snd]. rewrite pass_trace. repeat split; repeat constructor.
      * destruct (IH retries wait_time (S n) (pass w))
          as (new & Htr & Ht & Hr & Hl).
        exists ([LimiterAcquire limiter tokens; Request req] ++ new).
        rewrite Htr, pass_trace, <- app_assoc. cbn.
        repeat split; try assumption. constructor; [ reflexivity | exact Hl ].
    + match goal with
      | |- context [run fuel ?r ?t ?k ?w'] =>
          destruct (IH r t k w') as (new & Htr & Ht & Hr & Hl)
      end.
      exists ([LimiterAcquire limiter tokens; Request req; Sleep wait_time] ++ new).
      rewrite Htr. cbn [emit trace].
      rewrite on_provider_error_trace, pass_trace, <- !app_assoc. cbn.
      repeat split; try assumption. constructor; [ reflexivity | exact Hl ].
    + exists [LimiterAcquire limiter tokens; Request req].
      cbn [snd]. rewrite pass_trace. repeat split; repeat constructor.
Qed.

(** An error that is not the provider's ends the loop at once. *)
Lemma attempt_loop_fatal (fuel retries : nat) (wait_time : float) (n : nat)
    (w : world) (e : string) :
  (retries < MAX_RETRIES)%nat ->
  backend n = RaisedOther e ->
  run (S fuel) retries wait_time n w
  = (Raise (RuntimeError ("Failed to connect to " +:+ model +:+ ": " +:+ e)),
     pass w).
Proof.
  intros Hlt Hb. unfold run. cbn [attempt_loop].
  replace (retries <? MAX_RETRIES)%nat with true
    by (symmetry; apply Nat.ltb_lt; exact Hlt).
  rewrite Hb. reflexivity.
Qed.

(** After [k] failures with the provider's error and an accepted answer to
    the next request, the loop returns that answer: it has sent [k + 1]
    requests and waited [k] times, each wait twice the one before. *)
Lemma attempt_loop_recovers (k : nat) :
  forall (retries fuel : nat) (wait_time : float) (n : nat) (w : world)
         (r : R) (a : A),
    (forall i : nat, (i < k)%nat ->
                     exists e : string, backend (n + i)%nat = RaisedProvider e) ->
    backend (n + k)%nat = Returned r ->
    accepted r = Some a ->
    (retries + k < MAX_RETRIES)%nat ->
    (k < fuel)%nat ->
    exists new : list event,
      fst (run fuel retries wait_time n w) = Ok a
      /\ trace (snd (run fuel retries wait_time n w)) = trace w ++ new
      /\ List.length (requests new) = S k
      /\ sleeps new = doubled k wait_time.
Proof.
  induction k as [| k IH];
    intros retries fuel wait_time n w r a Hfail Hret Hacc Hlt Hfuel;
    (destruct fuel as [| fuel]; [ lia | ]);
    unfold run; cbn [attempt_loop]; fold run; fold (pass w);
    replace (retries <? MAX_RETRIES)%nat with true
      by (symmetry; apply Nat.ltb_lt; lia).
  - rewrite Nat.add_0_r in Hret. rewrite Hret, Hacc.
    exists [LimiterAcquire limiter tokens; Request req].
    cbn [fst snd]. rewrite pass_trace. repeat split.
  - destruct (Hfail 0%nat) as [e He]; [ lia | ].
    rewrite Nat.add_0_r in He. rewrite He.
    match goal with
    | |- context [run fuel ?r' ?t ?m ?w'] =>
        destruct (IH r' fuel t m w' r a) as (new & Hres & Htr & Hlen & Hsl)
    end.
    + intros i Hi. destruct (Hfail (S i)) as [e' He']; [ lia | ].
      exists e'. rewrite <- He'. f_equal. lia.
    + rewrite <- Hret. f_equal. lia.
    + exact Hacc.
    + lia.
    + lia.
    + exists ([LimiterAcquire limiter tokens; Request req; Sleep wait_time] ++ new).
      rewrite Hres, Htr. cbn [emit trace].
      rewrite on_provider_error_trace, pass_trace, <- !app_assoc.
      repeat split; cbn; [ rewrite Hlen | rewrite Hsl ]; reflexivity.
Qed.

(** After [k] failures with the provider's error, an error of another
    class ends the loop: [k + 1] requests have been sent, and the error
    raised carries the text of the last one. *)
Lemma attempt_loop_gives_up (k : nat) :
  forall (retries fuel : nat) (wait_time : float) (n : nat) (w : world)
         (e : string),
    (forall i : nat, (i < k)%nat ->
                     exists e' : string, backend (n + i)%nat = RaisedProvider e') ->
    backend (n + k)%nat = RaisedOther e ->
    (retries + k < MAX_RETRIES)%nat ->
    (k < fuel)%nat ->
    exists new : list event,
      fst (run fuel retries wait_time n w)
      = Raise (RuntimeError ("Failed to connect to " +:+ model +:+ ": " +:+ e))
      /\ trace (snd (run fuel retries wait_time n w)) = trace w ++ new
      /\ List.length (requests new) = S k
      /\ sleeps new = doubled k wait_time.
Proof.
  induction k as [| k IH];
    intros retries fuel wait_time n w e Hfail Hret Hlt Hfuel;
    (destruct fuel as [| fuel]; [ lia | ]);
    unfold run; cbn [attempt_loop]; fold run; fold (pass w);
    replace (retries <? MAX_RETRIES)%nat with true
      by (symmetry; apply Nat.ltb_lt; lia).
  - rewrite Nat.add_0_r in Hret. rewrite Hret.
    exists [LimiterAcquire limiter tokens; Request req].
    cbn [fst snd]. rewrite pass_trace. repeat split.
  - destruct (Hfail 0%nat) as [e0 He]; [ lia | ].
    rewrite Nat.add_0_r in He. rewrite He.
    match goal with
    | |- context [run fuel ?r' ?t ?m ?w'] =>
        destruct (IH r' fuel t m w' e) as (new & Hres & Htr & Hlen & Hsl)
    end.
    + intros i Hi. destruct (Hfail (S i)) as [e' He']; [ lia | ].
      exists e'. rewrite <- He'. f_equal. lia.
    + rewrite <- Hret. f_equal. lia.
    + lia.
    + lia.
    + exists ([LimiterAcquire limiter tokens; Request req; Sleep wait_time] ++ new).
      rewrite Hres, Htr. cbn [emit trace].
      rewrite on_provider_error_trace, pass_trace, <- !app_assoc.
      repeat split; cbn; [ rewrite Hlen | rewrite Hsl ]; reflexivity.
Qed.

(** While every answer fails the test that guards [break], the loop goes
    on: it has neither returned nor raised after any number of rounds, has
    sent one request per round, and has not waited. *)
Lemma attempt_loop_spins :
  (forall i : nat, exists r : R, backend i = Returned r /\ accepted r = None) ->
  forall (fuel retries : nat) (wait_time : float) (n : nat) (w : world),
    (retries < MAX_RETRIES)%nat ->
    exists new : list event,
      fst (run fuel retries wait_time n w) = Pending
      /\ trace (snd (run fuel retries wait_time n w)) = trace w ++ new
      /\ List.length (requests new) = fuel
      /\ sleeps new = [].
Proof.
  intros Hnone. induction fuel as [| fuel IH]; intros retries wait_time n w Hlt.
  - exists []. cbn. rewrite app_nil_r. repeat split.
  - unfold run. cbn [attempt_loop]. fold run. fold (pass w).
    replace (retries <? MAX_RETRIES)%nat with true
      by (symmetry; apply Nat.ltb_lt; exact Hlt).
    destruct (Hnone n) as (r & -> & ->).
    destruct (IH retries wait_time (S n) (pass w) Hlt)
      as (new & Hres & Htr & Hlen & Hsl).
    exists ([LimiterAcquire limiter tokens; Request req] ++ new).
    rewrite Hres, Htr, pass_trace, <- app_assoc.
    repeat split; cbn; [ rewrite Hlen; reflexivity | exact Hsl ].
Qed.

(** Every request of the loop is the one request the adapter built. *)
Lemma attempt_loop_requests (fuel : nat) :
  forall (retries : nat) (wait_time : float) (n : nat) (w : world),
  exists new : list event,
    trace (snd (run fuel retries wait_time n w)) = trace w ++ new
    /\ Forall (eq req) (requests new).
Proof.
  induction fuel as [| fuel IH]; intros retries wait_time n w.
  - exists []. cbn. rewrite app_nil_r. split; constructor.
  - unfold run. cbn [attempt_loop]. fold run. fold (pass w).
    destruct (retries <? MAX_RETRIES)%nat.
    2:{ exists []. cbn. rewrite app_nil_r. split; constructor. }
    destruct (backend n) as [r | e | e].
    + destruct (accepted r) as [a |].
      * exists [LimiterAcquire limiter tokens; Request req].
        cbn [snd]. rewrite pass_trace. split; repeat constructor.
      * destruct (IH retries wait_time (S n) (pass w)) as (new & Htr & Hreq).
        exists ([LimiterAcquire limiter tokens; Request req] ++ new).
        rewrite Htr, pass_trace, <- app_assoc. cbn.
        split; [ reflexivity | constructor; [ reflexivity | exact Hreq ] ].
    + match goal with
      | |- context [run fuel ?r ?t ?k ?w'] =>
          destruct (IH r t k w') as (new & Htr & Hreq)
      end.
      exists ([LimiterAcquire limiter tokens; Request req; Sleep wait_time] ++ new).
      rewrite Htr. cbn [emit trace].
      rewrite on_provider_error_trace, pass_trace, <- !app_assoc. cbn.
      split; [ reflexivity | constructor; [ reflexivity | exact Hreq ] ].
    + exists [LimiterAcquire limiter tokens; Request req].
      cbn [snd]. rewrite pass_trace. split; repeat constructor.
Qed.

End LoopRuns.

(* ===================================================================== *)
(** * Further properties of the adapters *)
(* ===================================================================== *)

Section OpenAIRuns.
Variable encode : string -> string -> list Z.
Variables (fuel : nat) (model system prompt : string) (limiter : addr).
Variables (pool : semaphore) (temperature wait_time : float).
Variable backend : nat -> outcome (option OpenAI.response).
Variable w : world.

Let loop :=
  attempt_loop OpenAI.MAX_RETRIES model limiter
    (OpenAI.estimate encode model system prompt)
    (OpenAI.request_for model system prompt temperature)
    (fun w => w) OpenAI.is_not_None OpenAI.log_error backend
    fuel 0%nat wait_time 0%nat (emit (SemaphoreAcquire pool) w).

Lemma openai_chat_unfold :
  OpenAI.chat encode fuel model system prompt limiter pool temperature
    wait_time backend w
  = match fst loop with
    | Pending => (Pending, snd loop)
    | Raise e => (Raise e, emit (SemaphoreRelease pool) (snd loop))
    | Ok resp => openai_finish resp (emit (SemaphoreRelease pool) (snd loop))
    end.
Proof.
  unfold OpenAI.chat, openai_finish. fold loop.
  destruct loop as [[resp | e |] w1]; reflexivity.
Qed.

Lemma openai_loop_frame :
  holdings (snd loop) = holdings w
  /\ exists new : list event,
       trace (snd loop) = trace w ++ SemaphoreAcquire pool :: new
       /\ taken new = [] /\ released new = []
       /\ Forall (eq limiter) (limiters_acquired new).
Proof.
  split.
  - apply (attempt_loop_holdings OpenAI.MAX_RETRIES model limiter
             (OpenAI.estimate encode model system prompt)
             (OpenAI.request_for model system prompt temperature)
             (fun w => w) OpenAI.is_not_None OpenAI.log_error backend
             (fun _ => eq_refl) (fun _ _ => eq_refl)
             fuel 0%nat wait_time 0%nat (emit (SemaphoreAcquire pool) w)).
  - destruct (attempt_loop_events OpenAI.MAX_RETRIES model limiter
                (OpenAI.estimate encode model system prompt)
                (OpenAI.request_for model system prompt temperature)
                (fun w => w) OpenAI.is_not_None OpenAI.log_error backend
                (fun _ => eq_refl) (fun _ _ => eq_refl)
                fuel 0%nat wait_time 0%nat (emit (SemaphoreAcquire pool) w))
      as (new & Htr & H).
    exists new. split; [ | exact H ].
    fold loop in Htr. rewrite Htr. cbn [emit trace].
    rewrite <- app_assoc. reflexivity.
Qed.

Lemma openai_loop_new (new : list event) :
  trace (snd loop) = trace (emit (SemaphoreAcquire pool) w) ++ new ->
  trace (snd loop) = trace w ++ SemaphoreAcquire pool :: new
  /\ taken new = [] /\ released new = []
  /\ Forall (eq limiter) (limiters_acquired new).
Proof.
  intros Htr. destruct openai_loop_frame as (_ & new' & Htr' & H).
  assert (new = new') as ->.
  { rewrite Htr in Htr'. cbn [emit trace] in Htr'.
    rewrite <- app_assoc in Htr'. apply app_inv_head in Htr'.
    injection Htr' as ->. reflexivity. }
  split; [ exact Htr' | exact H ].
Qed.
End OpenAIRuns.

Section AnthropicRuns.
Variables (fuel : nat) (model system prompt : string) (limiter : addr).
Variables (pool : semaphore) (temperature : float) (json_start : string).
Variable wait_time : float.
Variable backend : nat -> outcome (option Anthropic.response).
Variable w : world.

Let loop :=
  attempt_loop Anthropic.MAX_RETRIES model limiter
    (Anthropic.estimate system prompt)
    (Anthropic.request_for model system prompt temperature json_start)
    (fun w => w) Anthropic.is_truthy Anthropic.log_error backend
    fuel 0%nat wait_time 0%nat (emit (SemaphoreAcquire pool) w).

Lemma anthropic_chat_unfold :
  Anthropic.chat fuel model system prompt limiter pool temperature json_start
    wait_time backend w
  = match fst loop with
    | Pending => (Pending, snd loop)
    | Raise e => (Raise e, emit (SemaphoreRelease pool) (snd loop))
    | Ok resp =>
        anthropic_finish json_start resp (emit (SemaphoreRelease pool) (snd loop))
    end.
Proof.
  unfold Anthropic.chat, anthropic_finish. fold loop.
  destruct loop as [[resp | e |] w1]; reflexivity.
Qed.

Lemma anthropic_loop_frame :
  holdings (snd loop) = holdings w
  /\ exists new : list event,
       trace (snd loop) = trace w ++ SemaphoreAcquire pool :: new
       /\ taken new = [] /\ released new = []
       /\ Forall (eq limiter) (limiters_acquired new).
Proof.
  split.
  - apply (attempt_loop_holdings Anthropic.MAX_RETRIES model limiter
             (Anthropic.estimate system prompt)
             (Anthropic.request_for model system prompt temperature json_start)
             (fun w => w) Anthropic.is_truthy Anthropic.log_error backend
             (fun _ => eq_refl) (fun _ _ => eq_refl)
             fuel 0%nat wait_time 0%nat (emit (SemaphoreAcquire pool) w)).
  - destruct (attempt_loop_events Anthropic.MAX_RETRIES model limiter
                (Anthropic.estimate system prompt)
                (Anthropic.request_for model system prompt temperature json_start)
                (fun w => w) Anthropic.is_truthy Anthropic.log_error backend
                (fun _ => eq_refl) (fun _ _ => eq_refl)
                fuel 0%nat wait_time 0%nat (emit (SemaphoreAcquire pool) w))
      as (new & Htr & H).
    exists new. split; [ | exact H ].
    fold loop in Htr. rewrite Htr. cbn [emit trace].
    rewrite <- app_assoc. reflexivity.
Qed.

Lemma anthropic_loop_new (new : list event) :
  trace (snd loop) = trace (emit (SemaphoreAcquire pool) w) ++ new ->
  trace (snd loop) = trace w ++ SemaphoreAcquire pool :: new
  /\ taken new = [] /\ released new = []
  /\ Forall (eq limiter) (limiters_acquired new).
Proof.
  intros Htr. destruct anthropic_loop_frame as (_ & new' & Htr' & H).
  assert (new = new') as ->.
  { rewrite Htr in Htr'. cbn [emit trace] in Htr'.
    rewrite <- app_assoc in Htr'. apply app_inv_head in Htr'.
    injection Htr' as ->. reflexivity. }
  split; [ exact Htr' | exact H ].
Qed.
End AnthropicRuns.

Lemma openai_count_tokens_log_grows (r : OpenAI.response) (w : world) :
  exists more, log (snd (OpenAI.count_tokens r w)) = log w ++ more.
Proof.
  unfold OpenAI.count_tokens. destruct (OpenAI.usage r) as [u |].
  - destruct (OpenAI.prompt_tokens u), (OpenAI.completion_tokens u); cbn;
      eexists; first [ rewrite <- app_assoc; reflexivity
                     | symmetry; apply app_nil_r
                     | reflexivity ].
  - eexists. reflexivity.
Qed.

Section AWSRuns.
Variables (fuel : nat) (model system prompt : string) (limiter : addr).
Variables (temperature : float) (json_start : string) (wait_time : float).
Variable backend : nat -> outcome AWS.body.
Variable w : world.
Variables (c : client) (rest : list client).

Hypothesis queue_ready : queue (aws_pool w) = c :: rest.
Hypothesis pool_bounded : bounded (aws_pool w).

Let loop :=
  attempt_loop AWS.MAX_RETRIES model limiter
    (AWS.estimate system prompt json_start)
    (BedrockInvoke c (AWS.format_payload system prompt temperature json_start)
       model)
    (AWS.log_debug model) AWS.always AWS.log_warning backend
    fuel 0%nat wait_time 0%nat (set_pool (handed_out (aws_pool w)) w).

Lemma aws_loop_pool : aws_pool (snd loop) = handed_out (aws_pool w).
Proof.
  unfold loop.
  pose proof (attempt_loop_holdings AWS.MAX_RETRIES model limiter
                (AWS.estimate system prompt json_start)
                (BedrockInvoke c
                   (AWS.format_payload system prompt temperature json_start) model)
                (AWS.log_debug model) AWS.always AWS.log_warning backend
                (fun _ => eq_refl) (fun _ _ => eq_refl)
                fuel 0%nat wait_time 0%nat
                (set_pool (handed_out (aws_pool w)) w)) as H.
  unfold holdings in H. injection H as _ _ _ H. exact H.
Qed.

(** With a client at hand and a queue within its bound, [chat] takes the
    oldest client, runs the loop, and puts the client back at the end of
    the queue on every way out of the loop. *)
Lemma aws_chat_unfold :
  AWS.chat fuel model system prompt limiter temperature json_start wait_time
    backend w
  = match fst loop with
    | Pending => (Pending, snd loop)
    | Raise e =>
        (Raise e, set_pool (put_back c (handed_out (aws_pool w))) (snd loop))
    | Ok b =>
        aws_finish json_start b
          (set_pool (put_back c (handed_out (aws_pool w))) (snd loop))
    end.
Proof.
  unfold AWS.chat, AWSClientConnectionPool.acquire, AWSClientConnectionPool.get.
  rewrite queue_ready.
  replace {| maxsize := maxsize (aws_pool w); queue := rest;
             closed := closed (aws_pool w); created := created (aws_pool w) |}
    with (handed_out (aws_pool w))
    by (unfold handed_out; rewrite queue_ready; reflexivity).
  fold loop. pose proof aws_loop_pool as Hpool.
  destruct loop as [res w1]. cbn [fst snd] in *.
  destruct res as [b | e |]; [ | | reflexivity ];
    unfold AWSClientConnectionPool.release, AWSClientConnectionPool.put,
      AWSClientConnectionPool.full;
    rewrite Hpool;
    (replace ((0 <? maxsize (handed_out (aws_pool w)))
              && (maxsize (handed_out (aws_pool w))
                  <=? Z.of_nat (List.length (queue (handed_out (aws_pool w))))))
       with false;
     [ | symmetry; apply andb_false_iff; unfold handed_out; cbn [maxsize queue];
         unfold bounded in pool_bounded; rewrite queue_ready in *;
         cbn [tl List.length] in *;
         destruct pool_bounded; [ left; apply Z.ltb_ge | right; apply Z.leb_gt ];
         lia ]);
    reflexivity.
Qed.
End AWSRuns.

(** X1.  On the OpenAI and Anthropic adapters, when the first [k] requests
    ([k] below 3) fail with the provider's error and the next one fails
    with any other exception, [chat] raises at once the error that names
    the model and that exception: [k + 1] requests have been sent, the
    waits are the [k] doubled ones, the semaphore has been given back, and
    neither a counter nor the pool has changed. *)
Theorem unknown_error_ends_the_call
    (encode : string -> string -> list Z) (k fuel : nat)
    (model system prompt : string) (limiter : addr) (pool : semaphore)
    (temperature : float) (json_start : string) (wait_time : float)
    (openai : nat -> outcome (option OpenAI.response))
    (anthropic : nat -> outcome (option Anthropic.response))
    (w : world) (e : string) :
  (k < 3)%nat -> (k < fuel)%nat ->
  (forall i : nat, (i < k)%nat -> exists e' : string, openai i = RaisedProvider e') ->
  openai k = RaisedOther e ->
  (forall i : nat, (i < k)%nat ->
                   exists e' : string, anthropic i = RaisedProvider e') ->
  anthropic k = RaisedOther e ->
  (let out := OpenAI.chat encode fuel model system prompt limiter pool
                temperature wait_time openai w in
   exists new : list event,
     fst out = Raise (RuntimeError ("Failed to connect to " +:+ model +:+ ": " +:+ e))
     /\ trace (snd out) = trace w ++ new
     /\ List.length (requests new) = S k
     /\ sleeps new = doubled k wait_time
     /\ released new = [pool]
     /\ holdings (snd out) = holdings w)
  /\ (let out := Anthropic.chat fuel model system prompt limiter pool
                   temperature json_start wait_time anthropic w in
      exists new : list event,
        fst out = Raise (RuntimeError ("Failed to connect to " +:+ model +:+ ": " +:+ e))
        /\ trace (snd out) = trace w ++ new
        /\ List.length (requests new) = S k
        /\ sleeps new = doubled k wait_time
        /\ released new = [pool]
        /\ holdings (snd out) = holdings w).
Proof.
  intros Hk Hfuel Ho Hok Ha Hak. split; cbn zeta.
  - rewrite openai_chat_unfold.
    destruct (attempt_loop_gives_up OpenAI.MAX_RETRIES model limiter
                (OpenAI.estimate encode model system prompt)
                (OpenAI.request_for model system prompt temperature)
                (fun w => w) OpenAI.is_not_None OpenAI.log_error openai
                (fun _ => eq_refl) (fun _ _ => eq_refl)
                k 0%nat fuel wait_time 0%nat (emit (SemaphoreAcquire pool) w) e
                Ho Hok Hk Hfuel) as (new & Hres & Htr & Hlen & Hsl).
    destruct (openai_loop_new encode fuel model system prompt limiter pool
                temperature wait_time openai w new Htr) as (Htr' & _ & Hrel & _).
    destruct (openai_loop_frame encode fuel model system prompt limiter pool
                temperature wait_time openai w) as (Hhold & _).
    rewrite Hres. cbn [fst snd].
    exists (SemaphoreAcquire pool :: new ++ [SemaphoreRelease pool]).
    split; [ reflexivity | ].
    split; [ cbn [emit trace]; rewrite Htr';
             rewrite <- !app_assoc; reflexivity | ].
    split; [ cbn; rewrite requests_app, length_app, Hlen; cbn; lia | ].
    split; [ cbn; rewrite sleeps_app, Hsl; cbn; apply app_nil_r | ].
    split; [ cbn; rewrite released_app, Hrel; reflexivity | exact Hhold ].
  - rewrite anthropic_chat_unfold.
    destruct (attempt_loop_gives_up Anthropic.MAX_RETRIES model limiter
                (Anthropic.estimate system prompt)
                (Anthropic.request_for model system prompt temperature json_start)
                (fun w => w) Anthropic.is_truthy Anthropic.log_error anthropic
                (fun _ => eq_refl) (fun _ _ => eq_refl)
                k 0%nat fuel wait_time 0%nat (emit (SemaphoreAcquire pool) w) e
                Ha Hak Hk Hfuel) as (new & Hres & Htr & Hlen & Hsl).
    destruct (anthropic_loop_new fuel model system prompt limiter pool
                temperature json_start wait_time anthropic w new Htr)
      as (Htr' & _ & Hrel & _).
    destruct (anthropic_loop_frame fuel model system prompt limiter pool
                temperature json_start wait_time anthropic w) as (Hhold & _).
    rewrite Hres. cbn [fst snd].
    exists (SemaphoreAcquire pool :: new ++ [SemaphoreRelease pool]).
    split; [ reflexivity | ].
    split; [ cbn [emit trace]; rewrite Htr';
             rewrite <- !app_assoc; reflexivity | ].
    split; [ cbn; rewrite requests_app, length_app, Hlen; cbn; lia | ].
    split; [ cbn; rewrite sleeps_app, Hsl; cbn; apply app_nil_r | ].
    split; [ cbn; rewrite released_app, Hrel; reflexivity | exact Hhold ].
Qed.

Lemma unknown_error_ends_the_call_witness :
  (let out := OpenAI.chat no_tokens 2 "gpt-4-turbo-2024-04-09" "s" "p" 8%nat
                0%nat one one (flaky_then (RaisedOther "reset")) initial_world in
   exists new : list event,
     fst out = Raise (RuntimeError ("Failed to connect to "
                                    +:+ "gpt-4-turbo-2024-04-09" +:+ ": " +:+ "reset"))
     /\ trace (snd out) = trace initial_world ++ new
     /\ List.length (requests new) = 2%nat
     /\ sleeps new = doubled 1 one
     /\ released new = [0%nat]
     /\ holdings (snd out) = holdings initial_world)
  /\ (let out := Anthropic.chat 2 "gpt-4-turbo-2024-04-09" "s" "p" 8%nat 0%nat
                   one EmptyString one (flaky_then (RaisedOther "reset"))
                   initial_world in
      exists new : list event,
        fst out = Raise (RuntimeError ("Failed to connect to "
                                       +:+ "gpt-4-turbo-2024-04-09" +:+ ": " +:+ "reset"))
        /\ trace (snd out) = trace initial_world ++ new
        /\ List.length (requests new) = 2%nat
        /\ sleeps new = doubled 1 one
        /\ released new = [0%nat]
        /\ holdings (snd out) = holdings initial_world).
Proof.
  refine (unknown_error_ends_the_call no_tokens 1 2 "gpt-4-turbo-2024-04-09"
            "s" "p" 8%nat 0%nat one EmptyString one
            (flaky_then (RaisedOther "reset")) (flaky_then (RaisedOther "reset"))
            initial_world "reset" _ _ _ _ _ _).
  - lia.
  - lia.
  - intros i Hi. exists "overloaded". destruct i; [ reflexivity | lia ].
  - reflexivity.
  - intros i Hi. exists "overloaded". destruct i; [ reflexivity | lia ].
  - reflexivity.
Defined.

Lemma openai_finish_counts (resp : OpenAI.response) (w : world) (p q : Z)
    (ch : OpenAI.choice) (more : list OpenAI.choice) :
  OpenAI.usage resp = Some {| OpenAI.prompt_tokens := Some p;
                              OpenAI.completion_tokens := Some q |} ->
  OpenAI.choices resp = ch :: more ->
  openai_finish resp w
  = (Ok (OpenAI.message_content ch),
     set_openai_counters
       {| PROMPT_TOKENS := PROMPT_TOKENS (openai_counters w) + p;
          RESPONSE_TOKENS := RESPONSE_TOKENS (openai_counters w) + q |} w).
Proof.
  intros Hu Hc. unfold openai_finish, OpenAI.count_tokens, OpenAI.first_content.
  rewrite Hu, Hc. reflexivity.
Qed.

Lemma anthropic_finish_counts (json_start : string) (resp : Anthropic.response)
    (w : world) (u : Anthropic.usage_t) (t : string)
    (blocks : list Anthropic.block) :
  Anthropic.usage resp = Some u ->
  Anthropic.content resp = Anthropic.TextBlock t :: blocks ->
  anthropic_finish json_start resp w
  = (Ok (json_start +:+ t),
     set_anthropic_counters
       {| PROMPT_TOKENS := PROMPT_TOKENS (anthropic_counters w)
                           + Anthropic.input_tokens u;
          RESPONSE_TOKENS := RESPONSE_TOKENS (anthropic_counters w)
                             + Anthropic.output_tokens u |} w).
Proof.
  intros Hu Hc.
  unfold anthropic_finish, Anthropic.count_tokens, Anthropic.first_text.
  rewrite Hu, Hc. reflexivity.
Qed.

(** X2.  On the OpenAI and Anthropic adapters, when the first [k] requests
    ([k] below 3) fail with the provider's error and the next one is
    answered by a response with usage and text, [chat] returns the text of
    that response (after the prefix on Anthropic): [k + 1] requests have
    been sent, the [k] waits start at the drawn value and double each time,
    the semaphore has been given back, and the counters of the adapter have
    grown by the usage of that one response, those of the other modules
    and the pool staying as they were. *)
Theorem recovers_after_provider_errors
    (encode : string -> string -> list Z) (k fuel : nat)
    (model system prompt : string) (limiter : addr) (pool : semaphore)
    (temperature : float) (json_start : string) (wait_time : float)
    (openai : nat -> outcome (option OpenAI.response))
    (anthropic : nat -> outcome (option Anthropic.response)) (w : world)
    (oresp : OpenAI.response) (p q : Z) (ch : OpenAI.choice)
    (more : list OpenAI.choice)
    (aresp : Anthropic.response) (u : Anthropic.usage_t) (t : string)
    (blocks : list Anthropic.block) :
  (k < 3)%nat -> (k < fuel)%nat ->
  (forall i : nat, (i < k)%nat -> exists e : string, openai i = RaisedProvider e) ->
  openai k = Returned (Some oresp) ->
  OpenAI.usage oresp = Some {| OpenAI.prompt_tokens := Some p;
                               OpenAI.completion_tokens := Some q |} ->
  OpenAI.choices oresp = ch :: more ->
  (forall i : nat, (i < k)%nat ->
                   exists e : string, anthropic i = RaisedProvider e) ->
  anthropic k = Returned (Some aresp) ->
  Anthropic.usage aresp = Some u ->
  Anthropic.content aresp = Anthropic.TextBlock t :: blocks ->
  (let out := OpenAI.chat encode fuel model system prompt limiter pool
                temperature wait_time openai w in
   exists new : list event,
     fst out = Ok (OpenAI.message_content ch)
     /\ trace (snd out) = trace w ++ new
     /\ List.length (requests new) = S k
     /\ sleeps new = doubled k wait_time
     /\ released new = [pool]
     /\ holdings (snd out)
        = ({| PROMPT_TOKENS := PROMPT_TOKENS (openai_counters w) + p;
              RESPONSE_TOKENS := RESPONSE_TOKENS (openai_counters w) + q |},
           aws_counters w, anthropic_counters w, aws_pool w))
  /\ (let out := Anthropic.chat fuel model system prompt limiter pool
                   temperature json_start wait_time anthropic w in
      exists new : list event,
        fst out = Ok (json_start +:+ t)
        /\ trace (snd out) = trace w ++ new
        /\ List.length (requests new) = S k
        /\ sleeps new = doubled k wait_time
        /\ released new = [pool]
        /\ holdings (snd out)
           = (openai_counters w, aws_counters w,
              {| PROMPT_TOKENS := PROMPT_TOKENS (anthropic_counters w)
                                  + Anthropic.input_tokens u;
                 RESPONSE_TOKENS := RESPONSE_TOKENS (anthropic_counters w)
                                    + Anthropic.output_tokens u |},
              aws_pool w)).
Proof.
  intros Hk Hfuel Ho Hok Hou Hoc Ha Hak Hau Hac. split; cbn zeta.
  - rewrite openai_chat_unfold.
    destruct (attempt_loop_recovers OpenAI.MAX_RETRIES model limiter
                (OpenAI.estimate encode model system prompt)
                (OpenAI.request_for model system prompt temperature)
                (fun w => w) OpenAI.is_not_None OpenAI.log_error openai
                (fun _ => eq_refl) (fun _ _ => eq_refl)
                k 0%nat fuel wait_time 0%nat (emit (SemaphoreAcquire pool) w)
                (Some oresp) oresp Ho Hok eq_refl Hk Hfuel)
      as (new & Hres & Htr & Hlen & Hsl).
    destruct (openai_loop_new encode fuel model system prompt limiter pool
                temperature wait_time openai w new Htr) as (Htr' & _ & Hrel & _).
    destruct (openai_loop_frame encode fuel model system prompt limiter pool
                temperature wait_time openai w) as (Hhold & _).
    rewrite Hres. rewrite (openai_finish_counts oresp _ p q ch more Hou Hoc).
    cbn [fst snd].
    exists (SemaphoreAcquire pool :: new ++ [SemaphoreRelease pool]).
    split; [ reflexivity | ].
    split; [ cbn [set_openai_counters emit trace]; rewrite Htr';
             rewrite <- !app_assoc; reflexivity | ].
    split; [ cbn; rewrite requests_app, length_app, Hlen; cbn; lia | ].
    split; [ cbn; rewrite sleeps_app, Hsl; cbn; apply app_nil_r | ].
    split; [ cbn; rewrite released_app, Hrel; reflexivity | ].
    unfold holdings in *. cbn [set_openai_counters emit openai_counters
      aws_counters anthropic_counters aws_pool].
    injection Hhold as -> -> -> ->. reflexivity.
  - rewrite anthropic_chat_unfold.
    destruct (attempt_loop_recovers Anthropic.MAX_RETRIES model limiter
                (Anthropic.estimate system prompt)
                (Anthropic.request_for model system prompt temperature json_start)
                (fun w => w) Anthropic.is_truthy Anthropic.log_error anthropic
                (fun _ => eq_refl) (fun _ _ => eq_refl)
                k 0%nat fuel wait_time 0%nat (emit (SemaphoreAcquire pool) w)
                (Some aresp) aresp Ha Hak eq_refl Hk Hfuel)
      as (new & Hres & Htr & Hlen & Hsl).
    destruct (anthropic_loop_new fuel model system prompt limiter pool
                temperature json_start wait_time anthropic w new Htr)
      as (Htr' & _ & Hrel & _).
    destruct (anthropic_loop_frame fuel model system prompt limiter pool
                temperature json_start wait_time anthropic w) as (Hhold & _).
    rewrite Hres.
    rewrite (anthropic_finish_counts json_start aresp _ u t blocks Hau Hac).
    cbn [fst snd].
    exists (SemaphoreAcquire pool :: new ++ [SemaphoreRelease pool]).
    split; [ reflexivity | ].
    split; [ cbn [set_anthropic_counters emit trace]; rewrite Htr';
             rewrite <- !app_assoc; reflexivity | ].
    split; [ cbn; rewrite requests_app, length_app, Hlen; cbn; lia | ].
    split; [ cbn; rewrite sleeps_app, Hsl; cbn; apply app_nil_r | ].
    split; [ cbn; rewrite released_app, Hrel; reflexivity | ].
    unfold holdings in *. cbn [set_anthropic_counters emit openai_counters
      aws_counters anthropic_counters aws_pool].
    injection Hhold as -> -> -> ->. reflexivity.
Qed.

Lemma recovers_after_provider_errors_witness :
  (let out := OpenAI.chat no_tokens 3 "claude-3-haiku-20240307" "s" "p" 8%nat
                0%nat one one (flaky_then (Returned (Some openai_answer)))
                initial_world in
   exists new : list event,
     fst out = Ok (Some "yes")
     /\ trace (snd out) = trace initial_world ++ new
     /\ List.length (requests new) = 2%nat
     /\ sleeps new = doubled 1 one
     /\ released new = [0%nat]
     /\ holdings (snd out)
        = ({| PROMPT_TOKENS := PROMPT_TOKENS (openai_counters initial_world) + 12;
              RESPONSE_TOKENS := RESPONSE_TOKENS (openai_counters initial_world) + 5 |},
           aws_counters initial_world, anthropic_counters initial_world,
           aws_pool initial_world))
  /\ (let out := Anthropic.chat 3 "claude-3-haiku-20240307" "s" "p" 8%nat 0%nat
                   one "{" one (flaky_then (Returned (Some anthropic_answer)))
                   initial_world in
      exists new : list event,
        fst out = Ok ("{" +:+ "yes")
        /\ trace (snd out) = trace initial_world ++ new
        /\ List.length (requests new) = 2%nat
        /\ sleeps new = doubled 1 one
        /\ released new = [0%nat]
        /\ holdings (snd out)
           = (openai_counters initial_world, aws_counters initial_world,
              {| PROMPT_TOKENS := PROMPT_TOKENS (anthropic_counters initial_world) + 12;
                 RESPONSE_TOKENS := RESPONSE_TOKENS (anthropic_counters initial_world) + 5 |},
              aws_pool initial_world)).
Proof.
  refine (recovers_after_provider_errors no_tokens 1 3 "claude-3-haiku-20240307"
            "s" "p" 8%nat 0%nat one "{" one
            (flaky_then (Returned (Some openai_answer)))
            (flaky_then (Returned (Some anthropic_answer)))
            initial_world openai_answer 12 5
            {| OpenAI.message_content := Some "yes" |} []
            anthropic_answer
            {| Anthropic.input_tokens := 12; Anthropic.output_tokens := 5 |}
            "yes" [] _ _ _ _ _ _ _ _ _ _).
  - lia.
  - lia.
  - intros i Hi. exists "overloaded". destruct i; [ reflexivity | lia ].
  - reflexivity.
  - reflexivity.
  - reflexivity.
  - intros i Hi. exists "overloaded". destruct i; [ reflexivity | lia ].
  - reflexivity.
  - reflexivity.
  - reflexivity.
Defined.

Lemma openai_finish_frame (resp : OpenAI.response) (w : world) :
  is_pending (fst (openai_finish resp w)) = false
  /\ trace (snd (openai_finish resp w)) = trace w
  /\ aws_counters (snd (openai_finish resp w)) = aws_counters w
  /\ anthropic_counters (snd (openai_finish resp w)) = anthropic_counters w
  /\ aws_pool (snd (openai_finish resp w)) = aws_pool w.
Proof.
  unfold openai_finish, OpenAI.count_tokens, OpenAI.first_content.
  destruct (OpenAI.usage resp) as [[[p |] [q |]] |];
    destruct (OpenAI.choices resp); cbn; repeat split.
Qed.

Lemma anthropic_finish_frame (json_start : string) (resp : Anthropic.response)
    (w : world) :
  is_pending (fst (anthropic_finish json_start resp w)) = false
  /\ trace (snd (anthropic_finish json_start resp w)) = trace w
  /\ openai_counters (snd (anthropic_finish json_start resp w)) = openai_counters w
  /\ aws_counters (snd (anthropic_finish json_start resp w)) = aws_counters w
  /\ aws_pool (snd (anthropic_finish json_start resp w)) = aws_pool w.
Proof.
  unfold anthropic_finish, Anthropic.count_tokens, Anthropic.first_text.
  destruct (Anthropic.usage resp) as [u |];
    destruct (Anthropic.content resp) as [| [t |] blocks]; cbn; repeat split.
Qed.

(** X3.  On the OpenAI and Anthropic adapters, an answer that fails the
    test before [break] (a response that is [None]) is not counted as a
    retry: while every answer is such, [chat] has neither returned nor
    raised after any number of rounds, it has sent one request per round
    without waiting in between, and it still holds the semaphore. *)
Theorem none_answers_keep_chat_running
    (encode : string -> string -> list Z) (fuel : nat)
    (model system prompt : string) (limiter : addr) (pool : semaphore)
    (temperature : float) (json_start : string) (wait_time : float)
    (openai : nat -> outcome (option OpenAI.response))
    (anthropic : nat -> outcome (option Anthropic.response)) (w : world) :
  (forall i : nat, openai i = Returned None) ->
  (forall i : nat, anthropic i = Returned None) ->
  (let out := OpenAI.chat encode fuel model system prompt limiter pool
                temperature wait_time openai w in
   exists new : list event,
     fst out = Pending
     /\ trace (snd out) = trace w ++ new
     /\ List.length (requests new) = fuel
     /\ sleeps new = []
     /\ taken new = [pool] /\ released new = [])
  /\ (let out := Anthropic.chat fuel model system prompt limiter pool
                   temperature json_start wait_time anthropic w in
      exists new : list event,
        fst out = Pending
        /\ trace (snd out) = trace w ++ new
        /\ List.length (requests new) = fuel
        /\ sleeps new = []
        /\ taken new = [pool] /\ released new = []).
Proof.
  intros Ho Ha. split; cbn zeta.
  - rewrite openai_chat_unfold.
    destruct (attempt_loop_spins OpenAI.MAX_RETRIES model limiter
                (OpenAI.estimate encode model system prompt)
                (OpenAI.request_for model system prompt temperature)
                (fun w => w) OpenAI.is_not_None OpenAI.log_error openai
                (fun _ => eq_refl)
                (fun i => ex_intro _ None (conj (Ho i) eq_refl))
                fuel 0%nat wait_time 0%nat (emit (SemaphoreAcquire pool) w))
      as (new & Hres & Htr & Hlen & Hsl); [ unfold OpenAI.MAX_RETRIES; lia | ].
    destruct (openai_loop_new encode fuel model system prompt limiter pool
                temperature wait_time openai w new Htr) as (Htr' & Htk & Hrel & _).
    rewrite Hres. cbn [fst snd]. exists (SemaphoreAcquire pool :: new).
    repeat split; try assumption; cbn; rewrite ?Hlen, ?Htk; reflexivity.
  - rewrite anthropic_chat_unfold.
    destruct (attempt_loop_spins Anthropic.MAX_RETRIES model limiter
                (Anthropic.estimate system prompt)
                (Anthropic.request_for model system prompt temperature json_start)
                (fun w => w) Anthropic.is_truthy Anthropic.log_error anthropic
                (fun _ => eq_refl)
                (fun i => ex_intro _ None (conj (Ha i) eq_refl))
                fuel 0%nat wait_time 0%nat (emit (SemaphoreAcquire pool) w))
      as (new & Hres & Htr & Hlen & Hsl); [ unfold Anthropic.MAX_RETRIES; lia | ].
    destruct (anthropic_loop_new fuel model system prompt limiter pool
                temperature json_start wait_time anthropic w new Htr)
      as (Htr' & Htk & Hrel & _).
    rewrite Hres. cbn [fst snd]. exists (SemaphoreAcquire pool :: new).
    repeat split; try assumption; cbn; rewrite ?Hlen, ?Htk; reflexivity.
Qed.

Lemma none_answers_keep_chat_running_witness :
  (let out := OpenAI.chat no_tokens 5 "gpt-4-turbo-2024-04-09" "s" "p" 8%nat
                0%nat one one (always_returns None) initial_world in
   exists new : list event,
     fst out = Pending
     /\ trace (snd out) = trace initial_world ++ new
     /\ List.length (requests new) = 5%nat
     /\ sleeps new = []
     /\ taken new = [0%nat] /\ released new = [])
  /\ (let out := Anthropic.chat 5 "gpt-4-turbo-2024-04-09" "s" "p" 8%nat 0%nat
                   one EmptyString one (always_returns None) initial_world in
      exists new : list event,
        fst out = Pending
        /\ trace (snd out) = trace initial_world ++ new
        /\ List.length (requests new) = 5%nat
        /\ sleeps new = []
        /\ taken new = [0%nat] /\ released new = []).
Proof.
  refine (none_answers_keep_chat_running no_tokens 5 "gpt-4-turbo-2024-04-09"
            "s" "p" 8%nat 0%nat one EmptyString one
            (always_returns None) (always_returns None) initial_world _ _).
  - intros i. reflexivity.
  - intros i. reflexivity.
Defined.

(** The events of one [chat] of the OpenAI adapter. *)
Lemma openai_chat_events
    (encode : string -> string -> list Z) (fuel : nat)
    (model system prompt : string) (limiter : addr) (pool : semaphore)
    (temperature wait_time : float)
    (backend : nat -> outcome (option OpenAI.response)) (w : world) :
  let out := OpenAI.chat encode fuel model system prompt limiter pool
               temperature wait_time backend w in
  exists new : list event,
    trace (snd out) = trace w ++ new
    /\ taken new = [pool]
    /\ released new = (if is_pending (fst out) then [] else [pool])
    /\ Forall (eq limiter) (limiters_acquired new).
Proof.
  cbn zeta. rewrite openai_chat_unfold.
  destruct (openai_loop_frame encode fuel model system prompt limiter pool
              temperature wait_time backend w)
    as (_ & new & Htr & Htk & Hrel & Hlim).
  destruct (fst (attempt_loop _ _ _ _ _ _ _ _ _ _ _ _ _ _)) as [resp | e |].
  - destruct (openai_finish_frame resp
                (emit (SemaphoreRelease pool)
                   (snd (attempt_loop OpenAI.MAX_RETRIES model limiter
                           (OpenAI.estimate encode model system prompt)
                           (OpenAI.request_for model system prompt temperature)
                           (fun w => w) OpenAI.is_not_None OpenAI.log_error
                           backend fuel 0%nat wait_time 0%nat
                           (emit (SemaphoreAcquire pool) w)))))
      as (Hp & Ht & _).
    rewrite Hp, Ht. cbn [emit trace]. rewrite Htr.
    exists (SemaphoreAcquire pool :: new ++ [SemaphoreRelease pool]).
    rewrite <- !app_assoc. cbn.
    rewrite taken_app, released_app, limiters_acquired_app, Htk, Hrel.
    cbn. rewrite app_nil_r. repeat split. exact Hlim.
  - cbn [fst snd is_pending emit trace]. rewrite Htr.
    exists (SemaphoreAcquire pool :: new ++ [SemaphoreRelease pool]).
    rewrite <- !app_assoc. cbn.
    rewrite taken_app, released_app, limiters_acquired_app, Htk, Hrel.
    cbn. rewrite app_nil_r. repeat split. exact Hlim.
  - cbn [fst snd is_pending]. rewrite Htr.
    exists (SemaphoreAcquire pool :: new). cbn.
    rewrite Htk, Hrel. repeat split. exact Hlim.
Qed.

(** The events of one [chat] of the Anthropic adapter. *)
Lemma anthropic_chat_events
    (fuel : nat) (model system prompt : string) (limiter : addr)
    (pool : semaphore) (temperature : float) (json_start : string)
    (wait_time : float)
    (backend : nat -> outcome (option Anthropic.response)) (w : world) :
  let out := Anthropic.chat fuel model system prompt limiter pool
               temperature json_start wait_time backend w in
  exists new : list event,
    trace (snd out) = trace w ++ new
    /\ taken new = [pool]
    /\ released new = (if is_pending (fst out) then [] else [pool])
    /\ Forall (eq limiter) (limiters_acquired new).
Proof.
  cbn zeta. rewrite anthropic_chat_unfold.
  destruct (anthropic_loop_frame fuel model system prompt limiter pool
              temperature json_start wait_time backend w)
    as (_ & new & Htr & Htk & Hrel & Hlim).
  destruct (fst (attempt_loop _ _ _ _ _ _ _ _ _ _ _ _ _ _)) as [resp | e |].
  - destruct (anthropic_finish_frame json_start resp
                (emit (SemaphoreRelease pool)
                   (snd (attempt_loop Anthropic.MAX_RETRIES model limiter
                           (Anthropic.estimate system prompt)
                           (Anthropic.request_for model system prompt
                              temperature json_start)
                           (fun w => w) Anthropic.is_truthy Anthropic.log_error
                           backend fuel 0%nat wait_time 0%nat
                           (emit (SemaphoreAcquire pool) w)))))
      as (Hp & Ht & _).
    rewrite Hp, Ht. cbn [emit trace]. rewrite Htr.
    exists (SemaphoreAcquire pool :: new ++ [SemaphoreRelease pool]).
    rewrite <- !app_assoc. cbn.
    rewrite taken_app, released_app, limiters_acquired_app, Htk, Hrel.
    cbn. rewrite app_nil_r. repeat split. exact Hlim.
  - cbn [fst snd is_pending emit trace]. rewrite Htr.
    exists (SemaphoreAcquire pool :: new ++ [SemaphoreRelease pool]).
    rewrite <- !app_assoc. cbn.
    rewrite taken_app, released_app, limiters_acquired_app, Htk, Hrel.
    cbn. rewrite app_nil_r. repeat split. exact Hlim.
  - cbn [fst snd is_pending]. rewrite Htr.
    exists (SemaphoreAcquire pool :: new). cbn.
    rewrite Htk, Hrel. repeat split. exact Hlim.
Qed.

(** X4.  On the OpenAI and Anthropic adapters, whatever the service does
    and however long [chat] runs, it takes the semaphore once, gives it
    back once on every way out (a value returned or an exception raised,
    inside the loop or after it) and not while it is still running, and it
    acquires no limiter other than the token limiter it was given. *)
Theorem semaphore_given_back_on_every_exit :
  (forall (encode : string -> string -> list Z) (fuel : nat)
          (model system prompt : string) (limiter : addr) (pool : semaphore)
          (temperature wait_time : float)
          (backend : nat -> outcome (option OpenAI.response)) (w : world),
     let out := OpenAI.chat encode fuel model system prompt limiter pool
                  temperature wait_time backend w in
     exists new : list event,
       trace (snd out) = trace w ++ new
       /\ taken new = [pool]
       /\ released new = (if is_pending (fst out) then [] else [pool])
       /\ Forall (eq limiter) (limiters_acquired new))
  /\ (forall (fuel : nat) (model system prompt : string) (limiter : addr)
             (pool : semaphore) (temperature : float) (json_start : string)
             (wait_time : float)
             (backend : nat -> outcome (option Anthropic.response)) (w : world),
        let out := Anthropic.chat fuel model system prompt limiter pool
                     temperature json_start wait_time backend w in
        exists new : list event,
          trace (snd out) = trace w ++ new
          /\ taken new = [pool]
          /\ released new = (if is_pending (fst out) then [] else [pool])
          /\ Forall (eq limiter) (limiters_acquired new)).
Proof.
  split; intros.
  - apply openai_chat_events.
  - apply anthropic_chat_events.
Qed.




(* ===================================================================== *)
(** * The AWS adapter and its client *)
(* ===================================================================== *)

Lemma json_getitem_returns (x : json) (key : string) :
  Json.getitem x key <> Pending.
Proof.
  unfold Json.getitem. destruct x; try discriminate.
  destruct (Json.assoc key fields); discriminate.
Qed.

Lemma json_int_add_returns (n : Z) (x : json) : Json.int_add n x <> Pending.
Proof. destruct x; discriminate. Qed.

Lemma aws_usage_sum_returns (response : json) (key : string) (n : Z) :
  (u <- Json.getitem response "usage";;
   v <- Json.getitem u key;;
   Json.int_add n v) <> Pending.
Proof.
  pose proof (json_getitem_returns response "usage") as H.
  destruct (Json.getitem response "usage") as [u | e |];
    [ | discriminate | contradiction ].
  cbn [bind]. pose proof (json_getitem_returns u key) as H'.
  destruct (Json.getitem u key) as [v | e |];
    [ | discriminate | contradiction ].
  cbn [bind]. apply json_int_add_returns.
Qed.

(** [count_tokens] of the AWS adapter returns or raises, and touches
    nothing but the counters of its module and the log. *)
Lemma aws_count_tokens_frame (response : json) (w : world) :
  fst (AWS.count_tokens response w) <> Pending
  /\ trace (snd (AWS.count_tokens response w)) = trace w
  /\ openai_counters (snd (AWS.count_tokens response w)) = openai_counters w
  /\ anthropic_counters (snd (AWS.count_tokens response w))
     = anthropic_counters w
  /\ aws_pool (snd (AWS.count_tokens response w)) = aws_pool w.
Proof.
  unfold AWS.count_tokens.
  pose proof (aws_usage_sum_returns response "input_tokens"
                (PROMPT_TOKENS (aws_counters w))) as Hin.
  pose proof (aws_usage_sum_returns response "output_tokens"
                (RESPONSE_TOKENS (aws_counters w))) as Hout.
  destruct (u <- Json.getitem response "usage";;
            v <- Json.getitem u "input_tokens";;
            Json.int_add (PROMPT_TOKENS (aws_counters w)) v) as [p | e |];
    [ | destruct e; cbn; repeat split; discriminate | contradiction ].
  destruct (u <- Json.getitem response "usage";;
            v <- Json.getitem u "output_tokens";;
            Json.int_add (RESPONSE_TOKENS (aws_counters w)) v) as [r | e |];
    [ cbn; repeat split; discriminate
    | destruct e; cbn; repeat split; discriminate
    | contradiction ].
Qed.

Lemma aws_text_parts_returns (contents : list json) :
  AWS.text_parts contents <> Pending.
Proof.
  induction contents as [| content rest IH]; [ discriminate | ].
  cbn [AWS.text_parts].
  destruct (Json.get content "type" (JStr EmptyString)) as [ty | e |] eqn:Hty;
    [ | discriminate | ].
  - cbn [bind]. destruct (Json.eq_str ty "text"); [ | exact IH ].
    destruct (Json.get content "text" (JStr EmptyString)) as [t | e |] eqn:Ht;
      [ | discriminate | ].
    + cbn [bind]. destruct (AWS.text_parts rest); [ | | contradiction ];
        discriminate.
    + unfold Json.get in Ht. destruct content; try discriminate.
      destruct (Json.assoc "text" fields); discriminate.
  - unfold Json.get in Hty. destruct content; try discriminate.
    destruct (Json.assoc "type" fields); discriminate.
Qed.

Lemma aws_strings_returns (parts : list json) : AWS.strings parts <> Pending.
Proof.
  induction parts as [| part rest IH]; [ discriminate | ].
  cbn [AWS.strings]. destruct part; try discriminate.
  destruct (AWS.strings rest); [ | | contradiction ]; discriminate.
Qed.

Lemma aws_reply_returns (response : json) (json_start : string) :
  AWS.reply response json_start <> Pending.
Proof.
  unfold AWS.reply.
  destruct (Json.get response "content" (JArr [])) as [contents | e |] eqn:Hc;
    [ | discriminate | ].
  - cbn [bind].
    destruct (Json.iterate contents) as [items | e |] eqn:Hi;
      [ | discriminate | destruct contents; discriminate ].
    cbn [bind]. pose proof (aws_text_parts_returns items) as Hp.
    destruct (AWS.text_parts items) as [parts | e |];
      [ | discriminate | contradiction ].
    cbn [bind]. pose proof (aws_strings_returns parts) as Hs.
    destruct (AWS.strings parts); [ | | contradiction ]; discriminate.
  - unfold Json.get in Hc. destruct response; try discriminate.
    destruct (Json.assoc "content" fields); discriminate.
Qed.

(** What follows the loop of the AWS adapter returns or raises, and
    touches nothing but the counters of its module and the log. *)
Lemma aws_finish_frame (json_start : string) (b : AWS.body) (w : world) :
  is_pending (fst (aws_finish json_start b w)) = false
  /\ trace (snd (aws_finish json_start b w)) = trace w
  /\ openai_counters (snd (aws_finish json_start b w)) = openai_counters w
  /\ anthropic_counters (snd (aws_finish json_start b w))
     = anthropic_counters w
  /\ aws_pool (snd (aws_finish json_start b w)) = aws_pool w.
Proof.
  unfold aws_finish. destruct b as [doc | e]; cbn [AWS.parse];
    [ | repeat split ].
  destruct (aws_count_tokens_frame doc w) as (Hp & Ht & Ho & Ha & Hq).
  destruct (AWS.count_tokens doc w) as [[[] | e |] w1]; cbn [fst snd] in *;
    [ | repeat split; assumption | contradiction ].
  pose proof (aws_reply_returns doc json_start) as Hr.
  destruct (AWS.reply doc json_start); [ | | contradiction ];
    repeat split; assumption.
Qed.

(** X6.  With a client in the queue of the pool, [chat] of the AWS adapter
    takes the oldest client and sends every request of the call on that
    client with the one payload built from its arguments; on every way
    out, by a returned text or by any error, the client is back at the end
    of the queue (and held only while the call is still running), no
    client is created or closed, and the counters of the other modules are
    as they were. *)
Theorem aws_client_goes_back_to_the_queue
    (fuel : nat) (model system prompt : string) (limiter : addr)
    (temperature : float) (json_start : string) (wait_time : float)
    (backend : nat -> outcome AWS.body) (w : world)
    (c : client) (rest : list client) :
  queue (aws_pool w) = c :: rest ->
  bounded (aws_pool w) ->
  let out := AWS.chat fuel model system prompt limiter temperature json_start
               wait_time backend w in
  (exists new : list event,
     trace (snd out) = trace w ++ new
     /\ Forall (eq (BedrockInvoke c
                      (AWS.format_payload system prompt temperature json_start)
                      model))
          (requests new))
  /\ queue (aws_pool (snd out))
     = (if is_pending (fst out) then rest else rest ++ [c])
  /\ closed (aws_pool (snd out)) = closed (aws_pool w)
  /\ created (aws_pool (snd out)) = created (aws_pool w)
  /\ maxsize (aws_pool (snd out)) = maxsize (aws_pool w)
  /\ bounded (aws_pool (snd out))
  /\ openai_counters (snd out) = openai_counters w
  /\ anthropic_counters (snd out) = anthropic_counters w.
Proof.
  intros Hq Hb. cbn zeta.
  rewrite (aws_chat_unfold fuel model system prompt limiter temperature
             json_start wait_time backend w c rest Hq Hb).
  pose proof (aws_loop_pool fuel model system prompt limiter temperature
                json_start wait_time backend w c) as Hpool.
  pose proof (attempt_loop_holdings AWS.MAX_RETRIES model limiter
                (AWS.estimate system prompt json_start)
                (BedrockInvoke c
                   (AWS.format_payload system prompt temperature json_start) model)
                (AWS.log_debug model) AWS.always AWS.log_warning backend
                (fun _ => eq_refl) (fun _ _ => eq_refl)
                fuel 0%nat wait_time 0%nat
                (set_pool (handed_out (aws_pool w)) w)) as Hhold.
  destruct (attempt_loop_requests AWS.MAX_RETRIES model limiter
              (AWS.estimate system prompt json_start)
              (BedrockInvoke c
                 (AWS.format_payload system prompt temperature json_start) model)
              (AWS.log_debug model) AWS.always AWS.log_warning backend
              (fun _ => eq_refl) (fun _ _ => eq_refl)
              fuel 0%nat wait_time 0%nat
              (set_pool (handed_out (aws_pool w)) w)) as (new & Htr & Hreq).
  cbn [set_pool trace] in Htr.
  unfold holdings in Hhold. cbn [set_pool openai_counters aws_counters
    anthropic_counters aws_pool] in Hhold.
  injection Hhold as Ho _ Ha _.
  assert (Hback : bounded (put_back c (handed_out (aws_pool w)))).
  { unfold bounded, put_back, handed_out in *. cbn [maxsize queue].
    rewrite Hq in *. cbn [tl]. rewrite length_app. cbn [List.length] in *.
    destruct Hb as [Hb | Hb]; [ left; exact Hb | right; lia ]. }
  assert (Hout : bounded (handed_out (aws_pool w))).
  { unfold bounded, handed_out in *. cbn [maxsize queue].
    rewrite Hq in *. cbn [tl List.length] in *.
    destruct Hb as [Hb | Hb]; [ left; exact Hb | right; lia ]. }
  destruct (attempt_loop _ _ _ _ _ _ _ _ _ _ _ _ _ _) as [res w1].
  cbn [fst snd] in *. destruct res as [b | e |].
  - destruct (aws_finish_frame json_start b
                (set_pool (put_back c (handed_out (aws_pool w))) w1))
      as (Hp & Ht & Ho' & Ha' & Hq').
    rewrite Hp, Ht, Ho', Ha', Hq'. cbn [set_pool trace openai_counters
      anthropic_counters aws_pool].
    split; [ exists new; split; assumption | ].
    unfold put_back, handed_out in *. cbn [queue closed created maxsize] in *.
    rewrite Hq in *. cbn [tl] in *. repeat split; assumption.
  - cbn [fst snd is_pending set_pool trace openai_counters anthropic_counters
      aws_pool].
    split; [ exists new; split; assumption | ].
    unfold put_back, handed_out in *. cbn [queue closed created maxsize] in *.
    rewrite Hq in *. cbn [tl] in *. repeat split; assumption.
  - cbn [fst snd is_pending]. rewrite Hpool.
    split; [ exists new; split; assumption | ].
    unfold handed_out in *. cbn [queue closed created maxsize] in *.
    rewrite Hq in *. cbn [tl] in *. repeat split; assumption.
Qed.

Lemma aws_client_goes_back_to_the_queue_witness :
  let out := AWS.chat 5 "anthropic.claude-3-haiku-20240307-v1:0" "s" "p"
               10%nat one "{" one overloaded warm_world in
  (exists new : list event,
     trace (snd out) = trace warm_world ++ new
     /\ Forall (eq (BedrockInvoke 0%nat (AWS.format_payload "s" "p" one "{")
                      "anthropic.claude-3-haiku-20240307-v1:0"))
          (requests new))
  /\ queue (aws_pool (snd out))
     = (if is_pending (fst out) then [1%nat] else [1%nat] ++ [0%nat])
  /\ closed (aws_pool (snd out)) = closed (aws_pool warm_world)
  /\ created (aws_pool (snd out)) = created (aws_pool warm_world)
  /\ maxsize (aws_pool (snd out)) = maxsize (aws_pool warm_world)
  /\ bounded (aws_pool (snd out))
  /\ openai_counters (snd out) = openai_counters warm_world
  /\ anthropic_counters (snd out) = anthropic_counters warm_world.
Proof.
  refine (aws_client_goes_back_to_the_queue 5
            "anthropic.claude-3-haiku-20240307-v1:0" "s" "p" 10%nat one "{" one
            overloaded warm_world 0%nat [1%nat] _ _).
  - reflexivity.
  - right. vm_compute. discriminate.
Defined.

(** When the first [k] requests fail with the provider's error and the next
    one delivers a body, [chat] of the AWS adapter goes on with that body,
    the client back in the queue. *)
Lemma aws_chat_after_failures
    (k fuel : nat) (model system prompt : string) (limiter : addr)
    (temperature : float) (json_start : string) (wait_time : float)
    (backend : nat -> outcome AWS.body) (w : world)
    (c : client) (rest : list client) (b : AWS.body) :
  queue (aws_pool w) = c :: rest ->
  bounded (aws_pool w) ->
  (k < 3)%nat -> (k < fuel)%nat ->
  (forall i : nat, (i < k)%nat -> exists e : string, backend i = RaisedProvider e) ->
  backend k = Returned b ->
  exists (w1 : world) (new : list event),
    AWS.chat fuel model system prompt limiter temperature json_start wait_time
      backend w
    = aws_finish json_start b w1
    /\ trace w1 = trace w ++ new
    /\ List.length (requests new) = S k
    /\ sleeps new = doubled k wait_time
    /\ holdings w1
       = (openai_counters w, aws_counters w, anthropic_counters w,
          {| maxsize := maxsize (aws_pool w); queue := rest ++ [c];
             closed := closed (aws_pool w); created := created (aws_pool w) |}).
Proof.
  intros Hq Hb Hk Hfuel Hfail Hbody.
  rewrite (aws_chat_unfold fuel model system prompt limiter temperature
             json_start wait_time backend w c rest Hq Hb).
  pose proof (attempt_loop_holdings AWS.MAX_RETRIES model limiter
                (AWS.estimate system prompt json_start)
                (BedrockInvoke c
                   (AWS.format_payload system prompt temperature json_start) model)
                (AWS.log_debug model) AWS.always AWS.log_warning backend
                (fun _ => eq_refl) (fun _ _ => eq_refl)
                fuel 0%nat wait_time 0%nat
                (set_pool (handed_out (aws_pool w)) w)) as Hhold.
  destruct (attempt_loop_recovers AWS.MAX_RETRIES model limiter
              (AWS.estimate system prompt json_start)
              (BedrockInvoke c
                 (AWS.format_payload system prompt temperature json_start) model)
              (AWS.log_debug model) AWS.always AWS.log_warning backend
              (fun _ => eq_refl) (fun _ _ => eq_refl)
              k 0%nat fuel wait_time 0%nat
              (set_pool (handed_out (aws_pool w)) w) b b Hfail Hbody eq_refl
              Hk Hfuel) as (new & Hres & Htr & Hlen & Hsl).
  destruct (attempt_loop _ _ _ _ _ _ _ _ _ _ _ _ _ _) as [res w1].
  cbn [fst snd] in *. subst res.
  exists (set_pool (put_back c (handed_out (aws_pool w))) w1), new.
  split; [ reflexivity | ].
  cbn [set_pool trace] in *. repeat split; try assumption.
  unfold holdings in *. cbn [set_pool openai_counters aws_counters
    anthropic_counters aws_pool] in *.
  injection Hhold as -> -> -> _.
  unfold put_back, handed_out. cbn [maxsize queue closed created].
  rewrite Hq. reflexivity.
Qed.

Lemma aws_count_tokens_full (fields ufields : list (string * json)) (p q : Z)
    (w : world) :
  Json.assoc "usage" fields = Some (JObj ufields) ->
  Json.assoc "input_tokens" ufields = Some (JInt p) ->
  Json.assoc "output_tokens" ufields = Some (JInt q) ->
  AWS.count_tokens (JObj fields) w
  = (Ok tt,
     set_aws_counters
       {| PROMPT_TOKENS := PROMPT_TOKENS (aws_counters w) + p;
          RESPONSE_TOKENS := RESPONSE_TOKENS (aws_counters w) + q |}
       (set_aws_counters
          {| PROMPT_TOKENS := PROMPT_TOKENS (aws_counters w) + p;
             RESPONSE_TOKENS := RESPONSE_TOKENS (aws_counters w) |} w)).
Proof.
  intros Hu Hi Ho. unfold AWS.count_tokens, Json.getitem.
  rewrite Hu. cbn [bind]. rewrite Hi, Ho. reflexivity.
Qed.

Lemma aws_count_tokens_partial (fields ufields : list (string * json)) (p : Z)
    (w : world) :
  Json.assoc "usage" fields = Some (JObj ufields) ->
  Json.assoc "input_tokens" ufields = Some (JInt p) ->
  Json.assoc "output_tokens" ufields = None ->
  AWS.count_tokens (JObj fields) w
  = (Ok tt,
     AWS.warn_usage
       (set_aws_counters
          {| PROMPT_TOKENS := PROMPT_TOKENS (aws_counters w) + p;
             RESPONSE_TOKENS := RESPONSE_TOKENS (aws_counters w) |} w)).
Proof.
  intros Hu Hi Ho. unfold AWS.count_tokens, Json.getitem.
  rewrite Hu. cbn [bind]. rewrite Hi, Ho. reflexivity.
Qed.

(** X7.  On the AWS adapter, with a client in the queue, when the first
    [k] requests ([k] below 3) fail with [ClientError] and the next one
    delivers a JSON object with integer [input_tokens] and [output_tokens]
    in its [usage] entry and a list of text blocks as [content], [chat]
    returns the prefix followed by the stripped, space-joined texts:
    [k + 1] requests have been sent, the [k] waits start at the drawn
    value and double each time, the counters of the module have grown by
    the usage of that one response, and the client is back at the end of
    the queue. *)
Theorem aws_retries_until_the_body_arrives
    (k fuel : nat) (model system prompt : string) (limiter : addr)
    (temperature : float) (json_start : string) (wait_time : float)
    (backend : nat -> outcome AWS.body) (w : world)
    (c : client) (rest : list client)
    (fields ufields : list (string * json)) (p q : Z)
    (blocks : list json) (ts : list string) :
  queue (aws_pool w) = c :: rest ->
  bounded (aws_pool w) ->
  (k < 3)%nat -> (k < fuel)%nat ->
  (forall i : nat, (i < k)%nat -> exists e : string, backend i = RaisedProvider e) ->
  backend k = Returned (AWS.Document (JObj fields)) ->
  Json.assoc "usage" fields = Some (JObj ufields) ->
  Json.assoc "input_tokens" ufields = Some (JInt p) ->
  Json.assoc "output_tokens" ufields = Some (JInt q) ->
  Json.assoc "content" fields = Some (JArr blocks) ->
  Forall2 is_text_block blocks ts ->
  let out := AWS.chat fuel model system prompt limiter temperature json_start
               wait_time backend w in
  exists new : list event,
    fst out = Ok (json_start +:+ strip (join " " ts))
    /\ trace (snd out) = trace w ++ new
    /\ List.length (requests new) = S k
    /\ sleeps new = doubled k wait_time
    /\ holdings (snd out)
       = (openai_counters w,
          {| PROMPT_TOKENS := PROMPT_TOKENS (aws_counters w) + p;
             RESPONSE_TOKENS := RESPONSE_TOKENS (aws_counters w) + q |},
          anthropic_counters w,
          {| maxsize := maxsize (aws_pool w); queue := rest ++ [c];
             closed := closed (aws_pool w); created := created (aws_pool w) |}).
Proof.
  intros Hq Hb Hk Hfuel Hfail Hbody Hu Hi Ho Hc Hblocks. cbn zeta.
  destruct (aws_chat_after_failures k fuel model system prompt limiter
              temperature json_start wait_time backend w c rest _
              Hq Hb Hk Hfuel Hfail Hbody)
    as (w1 & new & -> & Htr & Hlen & Hsl & Hhold).
  unfold aws_finish. cbn [AWS.parse].
  rewrite (aws_count_tokens_full fields ufields p q w1 Hu Hi Ho).
  rewrite (reply_of_text_blocks fields blocks ts json_start Hc Hblocks).
  cbn [fst snd]. exists new. split; [ reflexivity | ].
  cbn [set_aws_counters trace]. repeat split; try assumption.
  unfold holdings in *. cbn [set_aws_counters openai_counters aws_counters
    anthropic_counters aws_pool].
  injection Hhold as -> -> -> ->. reflexivity.
Qed.

Lemma aws_retries_until_the_body_arrives_witness :
  let out := AWS.chat 3 "anthropic.claude-3-haiku-20240307-v1:0" "s" "p"
               10%nat one "{" one
               (flaky_then (Returned (AWS.Document (bedrock_reply ["yes"] 12 5))))
               warm_world in
  exists new : list event,
    fst out = Ok ("{" +:+ strip (join " " ["yes"]))
    /\ trace (snd out) = trace warm_world ++ new
    /\ List.length (requests new) = 2%nat
    /\ sleeps new = doubled 1 one
    /\ holdings (snd out)
       = (openai_counters warm_world,
          {| PROMPT_TOKENS := PROMPT_TOKENS (aws_counters warm_world) + 12;
             RESPONSE_TOKENS := RESPONSE_TOKENS (aws_counters warm_world) + 5 |},
          anthropic_counters warm_world,
          {| maxsize := maxsize (aws_pool warm_world);
             queue := [1%nat] ++ [0%nat];
             closed := closed (aws_pool warm_world);
             created := created (aws_pool warm_world) |}).
Proof.
  refine (aws_retries_until_the_body_arrives 1 3
            "anthropic.claude-3-haiku-20240307-v1:0" "s" "p" 10%nat one "{" one
            (flaky_then (Returned (AWS.Document (bedrock_reply ["yes"] 12 5))))
            warm_world 0%nat [1%nat]
            [ ("content", JArr (map text_block_of ["yes"]));
              ("usage", JObj [ ("input_tokens", JInt 12);
                               ("output_tokens", JInt 5) ]) ]
            [ ("input_tokens", JInt 12); ("output_tokens", JInt 5) ]
            12 5 [text_block_of "yes"] ["yes"] _ _ _ _ _ _ _ _ _ _ _).
  - reflexivity.
  - right. vm_compute. discriminate.
  - lia.
  - lia.
  - intros i Hi. exists "overloaded". destruct i; [ reflexivity | lia ].
  - reflexivity.
  - reflexivity.
  - reflexivity.
  - reflexivity.
  - reflexivity.
  - repeat constructor. apply text_block_of_is_text_block.
Defined.

(** X8.  On the AWS adapter, a body that [json.loads] rejects is not asked
    for again: when the first [k] requests ([k] below 3) fail with
    [ClientError] and the next one delivers such a body, [chat] raises
    [RuntimeError] with the text of the decoding error after [k + 1]
    requests, with every counter as it was and the client back at the end
    of the queue. *)
Theorem aws_malformed_body_is_not_retried
    (k fuel : nat) (model system prompt : string) (limiter : addr)
    (temperature : float) (json_start : string) (wait_time : float)
    (backend : nat -> outcome AWS.body) (w : world)
    (c : client) (rest : list client) (e : string) :
  queue (aws_pool w) = c :: rest ->
  bounded (aws_pool w) ->
  (k < 3)%nat -> (k < fuel)%nat ->
  (forall i : nat, (i < k)%nat -> exists e' : string, backend i = RaisedProvider e') ->
  backend k = Returned (AWS.Malformed e) ->
  let out := AWS.chat fuel model system prompt limiter temperature json_start
               wait_time backend w in
  exists new : list event,
    fst out = Raise (RuntimeError ("Ill-formatted Claude response: " +:+ e))
    /\ trace (snd out) = trace w ++ new
    /\ List.length (requests new) = S k
    /\ holdings (snd out)
       = (openai_counters w, aws_counters w, anthropic_counters w,
          {| maxsize := maxsize (aws_pool w); queue := rest ++ [c];
             closed := closed (aws_pool w); created := created (aws_pool w) |}).
Proof.
  intros Hq Hb Hk Hfuel Hfail Hbody. cbn zeta.
  destruct (aws_chat_after_failures k fuel model system prompt limiter
              temperature json_start wait_time backend w c rest _
              Hq Hb Hk Hfuel Hfail Hbody)
    as (w1 & new & -> & Htr & Hlen & Hsl & Hhold).
  exists new. cbn. repeat split; assumption.
Qed.

Lemma aws_malformed_body_is_not_retried_witness :
  let out := AWS.chat 3 "anthropic.claude-3-haiku-20240307-v1:0" "s" "p"
               10%nat one "{" one
               (flaky_then (Returned (AWS.Malformed "Expecting value")))
               warm_world in
  exists new : list event,
    fst out = Raise (RuntimeError ("Ill-formatted Claude response: "
                                   +:+ "Expecting value"))
    /\ trace (snd out) = trace warm_world ++ new
    /\ List.length (requests new) = 2%nat
    /\ holdings (snd out)
       = (openai_counters warm_world, aws_counters warm_world,
          anthropic_counters warm_world,
          {| maxsize := maxsize (aws_pool warm_world);
             queue := [1%nat] ++ [0%nat];
             closed := closed (aws_pool warm_world);
             created := created (aws_pool warm_world) |}).
Proof.
  refine (aws_malformed_body_is_not_retried 1 3
            "anthropic.claude-3-haiku-20240307-v1:0" "s" "p" 10%nat one "{" one
            (flaky_then (Returned (AWS.Malformed "Expecting value")))
            warm_world 0%nat [1%nat] "Expecting value" _ _ _ _ _ _).
  - reflexivity.
  - right. vm_compute. discriminate.
  - lia.
  - lia.
  - intros i Hi. exists "overloaded". destruct i; [ reflexivity | lia ].
  - reflexivity.
Defined.

(** X9.  On the AWS adapter, a response whose [usage] entry has an integer
    [input_tokens] but no [output_tokens] is counted by half: the call
    goes on to its reply as if nothing had happened, [PROMPT_TOKENS] has
    grown by the input tokens, [RESPONSE_TOKENS] is as it was, and the
    last record of the log is the warning that the usage was not found. *)
Theorem aws_partial_usage_counts_the_prompt_only
    (k fuel : nat) (model system prompt : string) (limiter : addr)
    (temperature : float) (json_start : string) (wait_time : float)
    (backend : nat -> outcome AWS.body) (w : world)
    (c : client) (rest : list client)
    (fields ufields : list (string * json)) (p : Z) :
  queue (aws_pool w) = c :: rest ->
  bounded (aws_pool w) ->
  (k < 3)%nat -> (k < fuel)%nat ->
  (forall i : nat, (i < k)%nat -> exists e : string, backend i = RaisedProvider e) ->
  backend k = Returned (AWS.Document (JObj fields)) ->
  Json.assoc "usage" fields = Some (JObj ufields) ->
  Json.assoc "input_tokens" ufields = Some (JInt p) ->
  Json.assoc "output_tokens" ufields = None ->
  let out := AWS.chat fuel model system prompt limiter temperature json_start
               wait_time backend w in
  fst out = AWS.reply (JObj fields) json_start
  /\ aws_counters (snd out)
     = {| PROMPT_TOKENS := PROMPT_TOKENS (aws_counters w) + p;
          RESPONSE_TOKENS := RESPONSE_TOKENS (aws_counters w) |}
  /\ exists earlier : list log_record,
       log (snd out) = earlier ++ [usage_warning].
Proof.
  intros Hq Hb Hk Hfuel Hfail Hbody Hu Hi Ho. cbn zeta.
  destruct (aws_chat_after_failures k fuel model system prompt limiter
              temperature json_start wait_time backend w c rest _
              Hq Hb Hk Hfuel Hfail Hbody)
    as (w1 & new & -> & Htr & Hlen & Hsl & Hhold).
  unfold aws_finish. cbn [AWS.parse].
  rewrite (aws_count_tokens_partial fields ufields p w1 Hu Hi Ho).
  cbn [fst snd]. split; [ reflexivity | ].
  unfold holdings in Hhold. injection Hhold as _ Ha _ _.
  split.
  - cbn. rewrite Ha. reflexivity.
  - eexists. cbn. reflexivity.
Qed.

Lemma aws_partial_usage_counts_the_prompt_only_witness :
  let out := AWS.chat 3 "anthropic.claude-3-haiku-20240307-v1:0" "s" "p"
               10%nat one "{" one
               (flaky_then
                  (Returned (AWS.Document (bedrock_reply_without_output ["yes"] 12))))
               warm_world in
  fst out = AWS.reply (bedrock_reply_without_output ["yes"] 12) "{"
  /\ aws_counters (snd out)
     = {| PROMPT_TOKENS := PROMPT_TOKENS (aws_counters warm_world) + 12;
          RESPONSE_TOKENS := RESPONSE_TOKENS (aws_counters warm_world) |}
  /\ exists earlier : list log_record,
       log (snd out) = earlier ++ [usage_warning].
Proof.
  refine (aws_partial_usage_counts_the_prompt_only 1 3
            "anthropic.claude-3-haiku-20240307-v1:0" "s" "p" 10%nat one "{" one
            (flaky_then
               (Returned (AWS.Document (bedrock_reply_without_output ["yes"] 12))))
            warm_world 0%nat [1%nat]
            [ ("content", JArr (map text_block_of ["yes"]));
              ("usage", JObj [ ("input_tokens", JInt 12) ]) ]
            [ ("input_tokens", JInt 12) ] 12 _ _ _ _ _ _ _ _ _).
  - reflexivity.
  - right. vm_compute. discriminate.
  - lia.
  - lia.
  - intros i Hi. exists "overloaded". destruct i; [ reflexivity | lia ].
  - reflexivity.
  - reflexivity.
  - reflexivity.
  - reflexivity.
Defined.

(* ===================================================================== *)
(** * Model contexts *)
(* ===================================================================== *)

(** The events of one [chat] of the AWS adapter, whatever the pool holds. *)
Lemma aws_chat_events
    (fuel : nat) (model system prompt : string) (limiter : addr)
    (temperature : float) (json_start : string) (wait_time : float)
    (backend : nat -> outcome AWS.body) (w : world) :
  let out := AWS.chat fuel model system prompt limiter temperature json_start
               wait_time backend w in
  exists new : list event,
    trace (snd out) = trace w ++ new
    /\ taken new = [] /\ released new = []
    /\ Forall (eq limiter) (limiters_acquired new).
Proof.
  cbn zeta. unfold AWS.chat.
  destruct (AWSClientConnectionPool.acquire (aws_pool w)) as [[c | e |] p];
    [ | exists []; cbn; rewrite app_nil_r; repeat split; constructor .. ].
  destruct (attempt_loop_events AWS.MAX_RETRIES model limiter
              (AWS.estimate system prompt json_start)
              (BedrockInvoke c
                 (AWS.format_payload system prompt temperature json_start) model)
              (AWS.log_debug model) AWS.always AWS.log_warning backend
              (fun _ => eq_refl) (fun _ _ => eq_refl)
              fuel 0%nat wait_time 0%nat (set_pool p w)) as (new & Htr & H).
  cbn [set_pool trace] in Htr. exists new. split; [ | exact H ].
  destruct (attempt_loop _ _ _ _ _ _ _ _ _ _ _ _ _ _) as [res w1].
  cbn [fst snd] in Htr.
  destruct res as [b | e |]; [ | | exact Htr ];
    destruct (AWSClientConnectionPool.release c (aws_pool w1))
      as [[[] | e' |] p1]; try exact Htr.
  destruct b as [doc | e]; cbn [AWS.parse]; [ | exact Htr ].
  pose proof (AWSFacts.aws_count_tokens_trace doc (set_pool p1 w1)) as Hct.
  destruct (AWS.count_tokens doc (set_pool p1 w1)) as [[[] | e |] w2];
    cbn [fst snd] in *; rewrite Hct; exact Htr.
Qed.

Lemma acquired_elsewhere (l r : addr) (tr : list event) :
  Forall (eq l) (limiters_acquired tr) -> r <> l -> acquired r tr = [].
Proof.
  intros H Hne. induction tr as [| e tr IH]; [ reflexivity | ].
  destruct e as [l' n | s | s | q | t]; cbn [limiters_acquired acquired] in *;
    try (apply IH; exact H).
  inversion H as [| x y Heq H']; subst.
  match goal with
  | |- context [Nat.eqb ?a r] =>
      destruct (Nat.eqb_spec a r) as [E | _]; [ congruence | ]
  end.
  apply IH. exact H'.
Qed.

(** What [__init__] binds for the aliases it accepts. *)
Lemma init_listed (service model : string) (c : ModelContext.t) :
  ModelContext.init service model = Ok c ->
  ModelContext.service c = service
  /\ ModelContext.model c = model
  /\ ModelContext.rate_limiter c <> ModelContext.token_limiter c
  /\ ((service = "OpenAI"
       /\ ModelContext.connection_limiter c = Semaphore 0%nat)
      \/ (service = "AWS"
          /\ ModelContext.connection_limiter c = ConnectionPool)
      \/ (service = "Anthropic"
          /\ ModelContext.connection_limiter c = Semaphore 1%nat)).
Proof.
  unfold ModelContext.init. intros H.
  destruct (MODELS !! service) as [aliases|] eqn:Hs; [ | discriminate H ].
  destruct (aliases !! model) as [full|] eqn:Ha; [ | discriminate H ].
  unfold MODELS in Hs.
  lookup_cases Hs; injection Hs as <-; lookup_cases Ha;
    vm_compute in H; injection H as <-; cbn;
    (split; [ reflexivity | ]); (split; [ reflexivity | ]);
    (split; [ discriminate | ]); tauto.
Qed.

(** X10.  [ModelContext(service, model)] raises [ValueError] for a service
    or an alias that [MODELS] does not list, and for every alias that
    [MODELS] lists it returns a context with the full model name of the
    table: the limiter tables and the connection table have an entry
    wherever [MODELS] has one, so that no [KeyError] comes out of the
    constructor. *)
Theorem init_succeeds_exactly_on_listed_models (service model : string) :
  match MODELS !! service with
  | None =>
      ModelContext.init service model
      = Raise (ValueError ("Unknown service: " +:+ service))
  | Some aliases =>
      match aliases !! model with
      | None =>
          ModelContext.init service model
          = Raise (ValueError ("Unknown model: " +:+ model))
      | Some full =>
          exists c : ModelContext.t,
            ModelContext.init service model = Ok c
            /\ ModelContext.service c = service
            /\ ModelContext.model c = model
            /\ ModelContext.full_model c = full
            /\ In (service, model, ModelContext.rate_limiter c,
                   ModelContext.token_limiter c) bindings
      end
  end.
Proof.
  unfold ModelContext.init.
  destruct (MODELS !! service) as [aliases|] eqn:Hs; [ | reflexivity ].
  destruct (aliases !! model) as [full|] eqn:Ha; [ | reflexivity ].
  unfold MODELS in Hs.
  lookup_cases Hs; injection Hs as <-; lookup_cases Ha; injection Ha as <-;
    eexists; (split; [ vm_compute; reflexivity | ]); cbn; tauto.
Qed.

(** A lookup of a key that a dictionary given by its literal holds. *)
Ltac lookup_found :=
  repeat (rewrite lookup_list_to_map_cons;
          let E := fresh "E" in
          destruct (decide _) as [E | E];
          [ first [ discriminate E | reflexivity ]
          | try (exfalso; apply E; reflexivity) ]).

Lemma listed_models_have_prices (service model : string) (c : ModelContext.t) :
  ModelContext.init service model = Ok c ->
  is_Some (MODELS !! service)
  /\ exists (costs : gmap string prices) (p : prices),
       MODEL_COSTS !! service = Some costs /\ costs !! model = Some p.
Proof.
  unfold ModelContext.init. intros H.
  destruct (MODELS !! service) as [aliases|] eqn:Hs; [ | discriminate H ].
  split; [ eauto | ].
  destruct (aliases !! model) as [full|] eqn:Ha; [ | discriminate H ].
  clear H. unfold MODELS in Hs.
  lookup_cases Hs; injection Hs as <-; lookup_cases Ha;
    eexists; eexists; (split; [ unfold MODEL_COSTS | ]); lookup_found.
Qed.

(** X11.  Whenever [ModelContext(service, model)] can be built,
    [calculate_cost(service, model)] returns its report and changes
    nothing: every alias of [MODELS] has its prices in [MODEL_COSTS].  The
    counters are taken below [2^1000] in magnitude. *)
Theorem every_context_can_be_priced
    (service model : string) (c : ModelContext.t) (w : world) :
  ModelContext.init service model = Ok c ->
  Z.abs (PROMPT_TOKENS (module_counters service w)) < 2 ^ 1000 ->
  Z.abs (RESPONSE_TOKENS (module_counters service w)) < 2 ^ 1000 ->
  exists cost : float,
    calculate_cost service model w
    = (Ok (summary (PROMPT_TOKENS (module_counters service w))
             (RESPONSE_TOKENS (module_counters service w)) cost),
       w).
Proof.
  intros H Hp Hr.
  destruct (listed_models_have_prices service model c H)
    as (Hs & costs & p & Hc & Hm).
  destruct (cost_formula_listed service model costs p _ _ Hc Hm Hp Hr)
    as [cost Hcost].
  exists cost. unfold calculate_cost. destruct Hs as [aliases Hs]. rewrite Hs.
  rewrite counters_of_known by eauto.
  rewrite (cost_of_formula service model costs p) by assumption.
  rewrite Hcost. reflexivity.
Qed.

Lemma every_context_can_be_priced_witness :
  exists cost : float,
    calculate_cost "OpenAI" "gpt-4" initial_world
    = (Ok (summary (PROMPT_TOKENS (module_counters "OpenAI" initial_world))
             (RESPONSE_TOKENS (module_counters "OpenAI" initial_world)) cost),
       initial_world).
Proof.
  refine (every_context_can_be_priced "OpenAI" "gpt-4" gpt_4_context
            initial_world _ _ _).
  - vm_compute. reflexivity.
  - vm_compute. reflexivity.
  - vm_compute. reflexivity.
Defined.

(** X12.  One [chat] of a context built by [ModelContext(service, model)]
    acquires the request limiter of the context once, with amount 1 and
    as the first event of the call, however many requests and retries
    follow: every other acquisition of the call is made on the token
    limiter, which is another object. *)
Theorem request_limiter_acquired_once_per_chat
    (encode : string -> string -> list Z) (api : services) (fuel : nat)
    (service model : string) (c : ModelContext.t) (system prompt : string)
    (temperature : float) (json_start : string) (wait_time : float)
    (w : world) :
  ModelContext.init service model = Ok c ->
  let out := ModelContext.chat encode api fuel c system prompt temperature
               json_start wait_time w in
  exists new : list event,
    trace (snd out)
    = trace w ++ LimiterAcquire (ModelContext.rate_limiter c) 1 :: new
    /\ acquired (ModelContext.rate_limiter c) new = []
    /\ Forall (eq (ModelContext.token_limiter c)) (limiters_acquired new).
Proof.
  intros H. cbn zeta.
  destruct (init_listed service model c H) as (Hs & _ & Hne & Hconn).
  assert (Hgoal : forall new : list event,
             Forall (eq (ModelContext.token_limiter c)) (limiters_acquired new) ->
             acquired (ModelContext.rate_limiter c) new = []
             /\ Forall (eq (ModelContext.token_limiter c)) (limiters_acquired new)).
  { intros new Hall. split; [ | exact Hall ].
    apply (acquired_elsewhere (ModelContext.token_limiter c)); assumption. }
  unfold ModelContext.chat. rewrite Hs.
  destruct Hconn as [[-> ->] | [[-> ->] | [-> ->]]]; cbn [String.eqb Ascii.eqb
    Bool.eqb]; cbv iota.
  - destruct (openai_chat_events encode fuel (ModelContext.full_model c) system
                prompt (ModelContext.token_limiter c) 0%nat temperature wait_time
                (openai_api api)
                (if truthy json_start
                 then logging WARNING "json_start not supported for OpenAI: %s"
                        [Some json_start]
                        (emit (LimiterAcquire (ModelContext.rate_limiter c) 1) w)
                 else emit (LimiterAcquire (ModelContext.rate_limiter c) 1) w))
      as (new & Htr & _ & _ & Hall).
    exists new. split; [ | apply Hgoal; exact Hall ].
    rewrite Htr. destruct (truthy json_start); cbn [logging emit trace];
      rewrite <- app_assoc; reflexivity.
  - destruct (aws_chat_events fuel (ModelContext.full_model c) system prompt
                (ModelContext.token_limiter c) temperature json_start wait_time
                (bedrock_api api)
                (emit (LimiterAcquire (ModelContext.rate_limiter c) 1) w))
      as (new & Htr & _ & _ & Hall).
    exists new. split; [ | apply Hgoal; exact Hall ].
    unfold ModelContext.some_str. cbn [snd]. rewrite Htr. cbn [emit trace].
    rewrite <- app_assoc. reflexivity.
  - destruct (anthropic_chat_events fuel (ModelContext.full_model c) system
                prompt (ModelContext.token_limiter c) 1%nat temperature
                json_start wait_time (anthropic_api api)
                (emit (LimiterAcquire (ModelContext.rate_limiter c) 1) w))
      as (new & Htr & _ & _ & Hall).
    exists new. split; [ | apply Hgoal; exact Hall ].
    unfold ModelContext.some_str. cbn [snd]. rewrite Htr. cbn [emit trace].
    rewrite <- app_assoc. reflexivity.
Qed.

Lemma request_limiter_acquired_once_per_chat_witness :
  let out := ModelContext.chat no_tokens
               {| openai_api := overloaded; bedrock_api := overloaded;
                  anthropic_api := overloaded |}
               5 gpt_4_context "s" "p" one "{" one initial_world in
  exists new : list event,
    trace (snd out)
    = trace initial_world
      ++ LimiterAcquire (ModelContext.rate_limiter gpt_4_context) 1 :: new
    /\ acquired (ModelContext.rate_limiter gpt_4_context) new = []
    /\ Forall (eq (ModelContext.token_limiter gpt_4_context))
         (limiters_acquired new).
Proof.
  refine (request_limiter_acquired_once_per_chat no_tokens
            {| openai_api := overloaded; bedrock_api := overloaded;
               anthropic_api := overloaded |}
            5 "OpenAI" "gpt-4" gpt_4_context "s" "p" one "{" one
            initial_world _).
  vm_compute. reflexivity.
Defined.

Lemma set_pool_same (w : world) : set_pool (aws_pool w) w = w.
Proof. destruct w. reflexivity. Qed.

(** X13.  A context for AWS serves a [chat] only while the pool holds a
    client.  With an empty queue, [chat] acquires the request limiter and
    then waits for a client for ever: no request is sent and nothing else
    changes.  That is the state of the pool when the modules have just
    been imported, before [initialize], and the state [close] leaves, which
    always returns. *)
Theorem aws_context_serves_only_with_a_client
    (encode : string -> string -> list Z) (api : services) (fuel : nat)
    (model : string) (c : ModelContext.t) (system prompt : string)
    (temperature : float) (json_start : string) (wait_time : float) :
  ModelContext.init "AWS" model = Ok c ->
  (forall w : world,
     queue (aws_pool w) = [] ->
     ModelContext.chat encode api fuel c system prompt temperature json_start
       wait_time w
     = (Pending, emit (LimiterAcquire (ModelContext.rate_limiter c) 1) w))
  /\ queue (aws_pool initial_world) = []
  /\ (forall w : world,
        fst (ModelContext.close c w) = Ok tt
        /\ queue (aws_pool (snd (ModelContext.close c w))) = []).
Proof.
  intros H.
  destruct (init_listed "AWS" model c H)
    as (Hs & _ & _ & [[Hx _] | [[_ Hconn] | [Hx _]]]); try discriminate Hx.
  split; [ | split; [ reflexivity | ] ].
  - intros w Hq. unfold ModelContext.chat. rewrite Hs, Hconn.
    cbn [String.eqb Ascii.eqb Bool.eqb]. cbv iota.
    unfold AWS.chat, AWSClientConnectionPool.acquire, AWSClientConnectionPool.get.
    cbn [emit aws_pool]. rewrite Hq.
    unfold ModelContext.some_str. cbn [fst snd bind].
    rewrite <- (set_pool_same (emit _ w)) at 2. reflexivity.
  - intros w. unfold ModelContext.close. rewrite Hs.
    cbn [String.eqb Ascii.eqb Bool.eqb]. cbv iota.
    rewrite PoolFacts.close_drains. split; reflexivity.
Qed.

Lemma aws_context_serves_only_with_a_client_witness :
  (forall w : world,
     queue (aws_pool w) = [] ->
     ModelContext.chat no_tokens
       {| openai_api := overloaded; bedrock_api := overloaded;
          anthropic_api := overloaded |}
       5 haiku_context "s" "p" one "{" one w
     = (Pending,
        emit (LimiterAcquire (ModelContext.rate_limiter haiku_context) 1) w))
  /\ queue (aws_pool initial_world) = []
  /\ (forall w : world,
        fst (ModelContext.close haiku_context w) = Ok tt
        /\ queue (aws_pool (snd (ModelContext.close haiku_context w))) = []).
Proof.
  refine (aws_context_serves_only_with_a_client no_tokens
            {| openai_api := overloaded; bedrock_api := overloaded;
               anthropic_api := overloaded |}
            5 "haiku" haiku_context "s" "p" one "{" one _).
  vm_compute. reflexivity.
Defined.

(* ===================================================================== *)
(** * The connection pool over its life *)
(* ===================================================================== *)

Module PoolRuns.
Import AWSClientConnectionPool.

(** The loop of [initialize] on a queue with [free] places left: it puts
    one new client after the other, and waits with the first one that
    finds the queue full. *)
Lemma initialize_loop_fills (n : nat) :
  forall (p : pool) (free : nat),
    0 < maxsize p ->
    Z.of_nat (List.length (queue p)) + Z.of_nat free = maxsize p ->
    initialize_loop n p
    = if (n <=? free)%nat
      then (Ok tt, {| maxsize := maxsize p;
                      queue := queue p ++ seq (created p) n;
                      closed := closed p;
                      created := (created p + n)%nat |})
      else (Pending, {| maxsize := maxsize p;
                        queue := queue p ++ seq (created p) free;
                        closed := closed p;
                        created := S (created p + free)%nat |}).
Proof.
  induction n as [| n IH]; intros [size q cl made] free Hpos Hfree;
    cbn [maxsize queue closed created] in *.
  - cbn. rewrite app_nil_r, Nat.add_0_r. reflexivity.
  - cbn [initialize_loop create_client]. unfold put, full.
    cbn [maxsize queue closed created].
    rewrite (proj2 (Z.ltb_lt 0 size) Hpos). cbn [andb].
    destruct free as [| free].
    + replace (size <=? Z.of_nat (List.length q)) with true
        by (symmetry; apply Z.leb_le; lia).
      cbn. rewrite app_nil_r, Nat.add_0_r. reflexivity.
    + replace (size <=? Z.of_nat (List.length q)) with false
        by (symmetry; apply Z.leb_gt; lia).
      rewrite (IH _ free) by (cbn [maxsize queue]; rewrite ?length_app; cbn; lia).
      cbn [maxsize queue closed created].
      change (S n <=? S free)%nat with (n <=? free)%nat.
      destruct (n <=? free)%nat; cbn [seq]; rewrite <- app_assoc;
        cbn [app]; do 2 f_equal; lia.
Qed.

Lemma initialize_unbounded (p : pool) :
  maxsize p <= 0 -> initialize p = (Ok tt, p).
Proof.
  intros H. unfold initialize.
  replace (Z.to_nat (maxsize p)) with 0%nat by lia. reflexivity.
Qed.

End PoolRuns.

(** X14.  [initialize] of a pool with a positive [maxsize] returns only
    when the queue is empty: it then leaves [maxsize] new clients in it,
    in the order of their creation.  On a queue that holds a client
    already, as after a first [initialize], it fills the free places, makes
    one client more and waits for ever for a place for it. *)
Theorem initialize_returns_only_on_an_empty_queue (p : pool) :
  0 < maxsize p ->
  Z.of_nat (List.length (queue p)) <= maxsize p ->
  let free := (Z.to_nat (maxsize p) - List.length (queue p))%nat in
  AWSClientConnectionPool.initialize p
  = match queue p with
    | [] => (Ok tt, {| maxsize := maxsize p;
                       queue := seq (created p) (Z.to_nat (maxsize p));
                       closed := closed p;
                       created := (created p + Z.to_nat (maxsize p))%nat |})
    | _ :: _ => (Pending, {| maxsize := maxsize p;
                             queue := queue p ++ seq (created p) free;
                             closed := closed p;
                             created := S (created p + free)%nat |})
    end.
Proof.
  intros Hpos Hlen. cbn zeta. unfold AWSClientConnectionPool.initialize.
  rewrite (PoolRuns.initialize_loop_fills _ p
             (Z.to_nat (maxsize p) - List.length (queue p))%nat Hpos) by lia.
  destruct (queue p) as [| c rest] eqn:Hq.
  - cbn [List.length]. rewrite Nat.sub_0_r, Nat.leb_refl. reflexivity.
  - replace (Z.to_nat (maxsize p) <=? Z.to_nat (maxsize p) - List.length (c :: rest))%nat
      with false; [ reflexivity | ].
    symmetry. apply Nat.leb_gt. cbn [List.length] in *. lia.
Qed.

Lemma initialize_returns_only_on_an_empty_queue_witness :
  let free := (Z.to_nat (maxsize pool_of_two)
               - List.length (queue pool_of_two))%nat in
  AWSClientConnectionPool.initialize pool_of_two
  = match queue pool_of_two with
    | [] => (Ok tt, {| maxsize := maxsize pool_of_two;
                       queue := seq (created pool_of_two)
                                  (Z.to_nat (maxsize pool_of_two));
                       closed := closed pool_of_two;
                       created := (created pool_of_two
                                   + Z.to_nat (maxsize pool_of_two))%nat |})
    | _ :: _ => (Pending, {| maxsize := maxsize pool_of_two;
                             queue := queue pool_of_two
                                      ++ seq (created pool_of_two) free;
                             closed := closed pool_of_two;
                             created := S (created pool_of_two + free)%nat |})
    end.
Proof.
  refine (initialize_returns_only_on_an_empty_queue pool_of_two _ _).
  - vm_compute. reflexivity.
  - vm_compute. discriminate.
Defined.

(** X15.  The queue of the pool never holds more clients than its
    [maxsize] (where that is positive): this holds for the pool as
    [AWSClientConnectionPool(maxsize)] makes it, and each of [initialize],
    [close], [acquire] and [release] keeps it, whether the call returns or
    waits. *)
Theorem pool_operations_keep_the_bound :
  (forall size : Z, bounded (AWSClientConnectionPool.init size))
  /\ (forall (p : pool) (c : client),
        bounded p ->
        bounded (snd (AWSClientConnectionPool.initialize p))
        /\ bounded (snd (AWSClientConnectionPool.close p))
        /\ bounded (snd (AWSClientConnectionPool.acquire p))
        /\ bounded (snd (AWSClientConnectionPool.release c p))).
Proof.
  split.
  - intros size. unfold bounded. cbn. lia.
  - intros p c Hb. repeat split.
    + destruct (Z_le_gt_dec (maxsize p) 0) as [Hle | Hgt].
      * rewrite PoolRuns.initialize_unbounded by exact Hle. exact Hb.
      * assert (Hlen : Z.of_nat (List.length (queue p)) <= maxsize p)
          by (destruct Hb; lia).
        unfold AWSClientConnectionPool.initialize.
        rewrite (PoolRuns.initialize_loop_fills _ p
                   (Z.to_nat (maxsize p) - List.length (queue p))%nat) by lia.
        destruct (Nat.leb_spec (Z.to_nat (maxsize p))
                    (Z.to_nat (maxsize p) - List.length (queue p)));
          right; cbn [snd maxsize queue]; rewrite length_app, length_seq; lia.
    + rewrite PoolFacts.close_drains. unfold bounded in *.
      cbn [snd maxsize queue List.length]. lia.
    + unfold AWSClientConnectionPool.acquire, AWSClientConnectionPool.get.
      destruct (queue p) as [| c0 rest] eqn:Hq; [ exact Hb | ].
      unfold bounded in *. cbn [snd maxsize queue]. rewrite Hq in Hb.
      cbn [List.length] in Hb. lia.
    + unfold AWSClientConnectionPool.release, AWSClientConnectionPool.put,
        AWSClientConnectionPool.full.
      destruct (0 <? maxsize p) eqn:Hpos; cbn [andb].
      * destruct (maxsize p <=? Z.of_nat (List.length (queue p))) eqn:Hfull;
          [ exact Hb | ].
        apply Z.leb_gt in Hfull. right. cbn [snd maxsize queue].
        rewrite length_app. cbn [List.length]. lia.
      * apply Z.ltb_ge in Hpos. left. exact Hpos.
Qed.

(* ===================================================================== *)
(** * Properties: [clean_events] *)
(* ===================================================================== *)

Lemma filter_keeps_all {A : Type} (f : A -> bool) (l : list A) :
  Forall (fun x => f x = true) l -> List.filter f l = l.
Proof.
  induction 1 as [| x l Hx _ IH]; [ reflexivity | ].
  cbn. rewrite Hx, IH. reflexivity.
Qed.

Lemma filter_of_full_length {A : Type} (f : A -> bool) (l : list A) :
  (List.length l <= List.length (List.filter f l))%nat -> List.filter f l = l.
Proof.
  induction l as [| x l IH]; [ reflexivity | ].
  cbn. destruct (f x); cbn; intros H.
  - rewrite IH by lia. reflexivity.
  - pose proof (List.filter_length_le f l). lia.
Qed.

Lemma filter_filtered {A : Type} (f : A -> bool) (l : list A) :
  Forall (fun x => f x = true) (List.filter f l).
Proof.
  apply List.Forall_forall. intros x Hx. apply List.filter_In in Hx. tauto.
Qed.

Module EventsFacts.
Import Events.

Lemma lists_unknown_false (segments : list segment) (event : Event) :
  lists_unknown (segment_ids segments) event = false
  <-> Forall (existing segments) (ev_segments event).
Proof.
  unfold lists_unknown. rewrite <- Bool.not_true_iff_false, existsb_exists.
  rewrite List.Forall_forall. unfold existing, segment_ids. split.
  - intros H s Hs.
    destruct (decide (s ∈ (list_to_set (map row_id segments) : gset Z)))
      as [Hin | Hout].
    + apply elem_of_list_to_set, list_elem_of_In, in_map_iff in Hin.
      destruct Hin as (row & Hrow & Hin). exists row. auto.
    + exfalso. apply H. exists s. split; [ exact Hs | ].
      rewrite bool_decide_eq_false_2 by exact Hout. reflexivity.
  - intros H (s & Hs & Hneg). destruct (H s Hs) as (row & Hin & Hrow).
    rewrite bool_decide_eq_true_2 in Hneg; [ discriminate Hneg | ].
    apply elem_of_list_to_set, list_elem_of_In, in_map_iff. exists row. auto.
Qed.

Lemma lists_unknown_true (segments : list segment) (event : Event) :
  lists_unknown (segment_ids segments) event = true
  -> exists s : Z, In s (ev_segments event) /\ ~ existing segments s.
Proof.
  unfold lists_unknown. rewrite existsb_exists. intros (s & Hs & Hneg).
  exists s. split; [ exact Hs | ]. intros (row & Hin & Hrow).
  rewrite bool_decide_eq_true_2 in Hneg; [ discriminate Hneg | ].
  apply elem_of_list_to_set, list_elem_of_In, in_map_iff. exists row. auto.
Qed.

Section Check.
Variable message : Event -> gset Z -> string.
Variable segments : list segment.

Lemma check_cases (events : list Event) :
  match check message (segment_ids segments) events with
  | Ok _ => Forall (fun e => Forall (existing segments) (ev_segments e)) events
  | Raise e =>
      exists (before : list Event) (event : Event) (after : list Event),
        events = before ++ event :: after
        /\ e = ValueError (message event (segment_ids segments))
        /\ lists_unknown (segment_ids segments) event = true
        /\ Forall (fun e => Forall (existing segments) (ev_segments e)) before
  | Pending => False
  end.
Proof.
  induction events as [| event rest IH]; [ constructor | ].
  cbn [check].
  destruct (lists_unknown (segment_ids segments) event) eqn:Hu.
  - exists [], event, rest. repeat split; [ exact Hu | constructor ].
  - apply lists_unknown_false in Hu.
    destruct (check message (segment_ids segments) rest) as [[] | e |].
    + constructor; assumption.
    + destruct IH as (before & ev & after & -> & -> & Hev & Hbefore).
      exists (event :: before), ev, after.
      repeat split; [ exact Hev | constructor; assumption ].
    + exact IH.
Qed.

Lemma check_passes (events : list Event) :
  Forall (fun e => Forall (existing segments) (ev_segments e)) events ->
  check message (segment_ids segments) events = Ok tt.
Proof.
  induction 1 as [| event rest Hev _ IH]; [ reflexivity | ].
  cbn [check]. rewrite (proj2 (lists_unknown_false segments event) Hev).
  exact IH.
Qed.
End Check.

End EventsFacts.

(** X16.  When [clean_events] returns, it returns the events that list at
    least one segment, in their order, and each of them lists only ids of
    the rows given.  It logs its warning exactly when it has dropped an
    event, with the descriptions of the dropped events as argument, and
    cleaning the returned list again returns it unchanged and logs
    nothing. *)
Theorem clean_events_keeps_the_events_with_segments
    (message : Events.Event -> gset Z -> string)
    (segments : list Events.segment) (events kept : list Events.Event)
    (log log' : list Events.record) :
  Events.clean_events message segments events log = (Ok kept, log') ->
  kept = List.filter Events.has_segments events
  /\ Forall (fun e => Events.ev_segments e <> []
                      /\ Forall (existing segments) (Events.ev_segments e))
       kept
  /\ (log' = log <-> kept = events)
  /\ (kept <> events ->
      log' = log ++ [ Events.Dropped
                        (map Events.ev_description
                           (List.filter
                              (fun e => negb (Events.has_segments e)) events)) ])
  /\ Events.clean_events message segments kept log' = (Ok kept, log').
Proof.
  unfold Events.clean_events. intros H.
  pose proof (EventsFacts.check_cases message segments events) as Hcheck.
  destruct (Events.check message (Events.segment_ids segments) events)
    as [[] | e |]; [ | discriminate H | discriminate H ].
  injection H as <- <-.
  set (kept := List.filter (fun event => Events.has_segments event) events).
  assert (Hkept : Forall (fun e => Forall (existing segments)
                                     (Events.ev_segments e)) kept).
  { apply List.Forall_forall. intros e He. apply List.filter_In in He.
    rewrite List.Forall_forall in Hcheck. apply Hcheck. tauto. }
  split; [ reflexivity | ].
  split.
  { apply List.Forall_forall. intros e He. split.
    - apply List.filter_In in He. destruct He as [_ He].
      unfold Events.has_segments in He.
      destruct (Events.ev_segments e); [ discriminate He | discriminate ].
    - rewrite List.Forall_forall in Hkept. apply Hkept. exact He. }
  split.
  { destruct (Nat.ltb_spec (List.length kept) (List.length events)) as [Hlt | Hge].
    - split; intros Heq.
      + apply (f_equal (@List.length _)) in Heq. rewrite length_app in Heq.
        cbn in Heq. lia.
      + rewrite Heq in Hlt. lia.
    - split; [ intros _; apply filter_of_full_length; exact Hge | reflexivity ]. }
  split.
  { intros Hne.
    destruct (Nat.ltb_spec (List.length kept) (List.length events)) as [Hlt | Hge];
      [ reflexivity | ].
    exfalso. apply Hne. apply filter_of_full_length. exact Hge. }
  rewrite (EventsFacts.check_passes message segments kept Hkept).
  rewrite (filter_keeps_all _ kept) by apply filter_filtered.
  rewrite Nat.ltb_irrefl. reflexivity.
Qed.

Lemma clean_events_keeps_the_events_with_segments_witness :
  [ {| Events.ev_description := "a"; Events.ev_segments := [1; 2] |} ]
  = List.filter Events.has_segments two_events
  /\ Forall (fun e => Events.ev_segments e <> []
                      /\ Forall (existing two_segments) (Events.ev_segments e))
       [ {| Events.ev_description := "a"; Events.ev_segments := [1; 2] |} ]
  /\ ([ Events.Dropped ["b"] ] = []
      <-> [ {| Events.ev_description := "a"; Events.ev_segments := [1; 2] |} ]
          = two_events)
  /\ ([ {| Events.ev_description := "a"; Events.ev_segments := [1; 2] |} ]
      <> two_events ->
      [ Events.Dropped ["b"] ]
      = [] ++ [ Events.Dropped
                  (map Events.ev_description
                     (List.filter
                        (fun e => negb (Events.has_segments e)) two_events)) ])
  /\ Events.clean_events plain_message two_segments
       [ {| Events.ev_description := "a"; Events.ev_segments := [1; 2] |} ]
       [ Events.Dropped ["b"] ]
     = (Ok [ {| Events.ev_description := "a"; Events.ev_segments := [1; 2] |} ],
        [ Events.Dropped ["b"] ]).
Proof.
  refine (clean_events_keeps_the_events_with_segments plain_message
            two_segments two_events
            [ {| Events.ev_description := "a"; Events.ev_segments := [1; 2] |} ]
            [] [ Events.Dropped ["b"] ] _).
  vm_compute. reflexivity.
Defined.

(** X17.  [clean_events] raises exactly when some event lists a segment
    that is not among the rows given, and it does nothing else then: the
    [ValueError] is about the first such event, and no warning is logged,
    whatever events without segments there are.  Otherwise it returns. *)
Theorem clean_events_rejects_unknown_segments
    (message : Events.Event -> gset Z -> string)
    (segments : list Events.segment) (events : list Events.Event)
    (log : list Events.record) :
  match Events.clean_events message segments events log with
  | (Ok _, _) =>
      Forall (fun e => Forall (existing segments) (Events.ev_segments e)) events
  | (Raise e, log') =>
      log' = log
      /\ exists (before : list Events.Event) (event : Events.Event)
                (after : list Events.Event) (s : Z),
           events = before ++ event :: after
           /\ e = ValueError (message event (Events.segment_ids segments))
           /\ In s (Events.ev_segments event)
           /\ ~ existing segments s
           /\ Forall (fun e => Forall (existing segments) (Events.ev_segments e))
                before
  | (Pending, _) => False
  end.
Proof.
  unfold Events.clean_events.
  pose proof (EventsFacts.check_cases message segments events) as Hcheck.
  destruct (Events.check message (Events.segment_ids segments) events)
    as [[] | e |]; [ exact Hcheck | | exact Hcheck ].
  split; [ reflexivity | ].
  destruct Hcheck as (before & event & after & Hev & He & Hu & Hbefore).
  destruct (EventsFacts.lists_unknown_true segments event Hu) as (s & Hs & Hno).
  exists before, event, after, s. auto.
Qed.

(* ===================================================================== *)
(** * Properties: [apply_response] *)
(* ===================================================================== *)

Module TopicsFacts.
Import Topics.

Lemma index_last {A : Type} (earlier : list A) (x : A) :
  index (earlier ++ [x]) (Z.of_nat (List.length (earlier ++ [x])) - 1) = Ok x.
Proof.
  unfold index. rewrite length_app. cbn [List.length].
  replace (Z.of_nat (List.length earlier + 1) - 1)
    with (Z.of_nat (List.length earlier)) by lia.
  replace (Z.of_nat (List.length earlier) <? 0) with false
    by (symmetry; apply Z.ltb_ge; lia).
  replace (0 <=? Z.of_nat (List.length earlier)) with true
    by (symmetry; apply Z.leb_le; lia).
  replace (Z.of_nat (List.length earlier)
           <? Z.of_nat (List.length earlier + 1)) with true
    by (symmetry; apply Z.ltb_lt; lia).
  cbn [andb]. rewrite Nat2Z.id, nth_error_app2 by lia.
  rewrite Nat.sub_diag. reflexivity.
Qed.

(** The loop over the current topics adds the survivors, in order, and
    leaves [TOPICS] alone. *)
Lemma keep_survivors (current : list topic) (ids : gset Z) :
  forall (i : Z) (topics : list topic) (st : state),
    fst (keep i current ids topics st)
    = topics ++ map snd (List.filter (fun it => bool_decide (fst it ∉ ids))
                           (numbered i current))
    /\ TOPICS (snd (keep i current ids topics st)) = TOPICS st.
Proof.
  induction current as [| t rest IH]; intros i topics st.
  - cbn. rewrite app_nil_r. split; reflexivity.
  - cbn [keep numbered List.filter fst].
    destruct (bool_decide (i ∉ ids)).
    + destruct (IH (i + 1) (topics ++ [t])
                  (tell INFO ("Keeping topic " +:+ str_of_int i +:+ ": "
                              +:+ title t) st)) as [H1 H2].
      rewrite H1, H2. cbn [map snd]. rewrite <- app_assoc.
      split; reflexivity.
    + destruct (IH (i + 1) topics
                  (tell INFO ("Removing topic " +:+ str_of_int i +:+ ": "
                              +:+ title t) st)) as [H1 H2].
      rewrite H1, H2. split; reflexivity.
Qed.

Lemma add_additions (extra : list Addition) :
  forall (topics : list topic) (st : state),
    fst (add extra topics st) = topics ++ map topic_of extra
    /\ TOPICS (snd (add extra topics st)) = TOPICS st.
Proof.
  induction extra as [| a rest IH]; intros topics st.
  - cbn. rewrite app_nil_r. split; reflexivity.
  - cbn [add map].
    destruct (IH (topics ++ [ {| title := ad_title a;
                                 description := ad_description a |} ])
                (tell INFO ("Adding topic: " +:+ ad_title a) st)) as [H1 H2].
    rewrite H1, H2. rewrite <- app_assoc. split; reflexivity.
Qed.


End TopicsFacts.

(** X18.  When [TOPICS] holds as many lists as the number of the round,
    [apply_response] returns, leaves every list of [TOPICS] as it was and
    appends one list to it: a reordering of the topics of the last list
    whose number, counted from 1, is not the [id] of a removal, followed by
    one topic per addition.  Only the [id] of a removal is read: its
    [title] plays no part, and an [id] that numbers no topic removes
    nothing. *)
Theorem apply_response_appends_a_reordering
    (shuffle : list Topics.topic -> list Topics.topic)
    (response : Topics.Response) (iteration : Z) (st : Topics.state)
    (earlier : list (list Topics.topic)) (current : list Topics.topic) :
  (forall l : list Topics.topic, Permutation l (shuffle l)) ->
  Topics.TOPICS st = earlier ++ [current] ->
  iteration = Z.of_nat (List.length (Topics.TOPICS st)) ->
  let out := Topics.apply_response shuffle response iteration st in
  let ids : gset Z := list_to_set (map Topics.rm_id (Topics.removals response)) in
  exists new : list Topics.topic,
    fst out = Ok tt
    /\ Topics.TOPICS (snd out) = Topics.TOPICS st ++ [new]
    /\ Permutation new
         (survivors ids current ++ map topic_of (Topics.additions response))
    /\ ((forall r : Topics.Removal,
           In r (Topics.removals response) ->
           Topics.rm_id r < 1
           \/ Z.of_nat (List.length current) < Topics.rm_id r) ->
        Permutation new (current ++ map topic_of (Topics.additions response))).
Proof.
  intros Hshuffle Htopics Hiter. cbn zeta. unfold Topics.apply_response.
  rewrite <- Hiter, Z.eqb_refl. cbn [negb].
  rewrite Hiter, Htopics, TopicsFacts.index_last. rewrite <- Htopics.
  set (ids := (list_to_set (map Topics.rm_id (Topics.removals response)) : gset Z)).
  destruct (TopicsFacts.keep_survivors current ids 1 [] st) as [Hk1 Hk2].
  destruct (Topics.keep 1 current ids [] st) as [topics st1].
  cbn [fst snd] in Hk1, Hk2.
  destruct (TopicsFacts.add_additions (Topics.additions response) topics st1)
    as [Ha1 Ha2].
  destruct (Topics.add (Topics.additions response) topics st1) as [topics2 st2].
  cbn [fst snd] in Ha1, Ha2 |- *.
  exists (shuffle topics2).
  assert (Hperm : Permutation (shuffle topics2)
                    (survivors ids current
                     ++ map topic_of (Topics.additions response))).
  { symmetry. rewrite <- (Hshuffle topics2), Ha1, Hk1. reflexivity. }
  split; [ reflexivity | ].
  split; [ rewrite Ha2, Hk2; reflexivity | ].
  split; [ exact Hperm | ].
  intros Hout. rewrite Hperm.
  replace (survivors ids current) with current; [ reflexivity | ].
  unfold survivors.
  assert (Hgen : forall (l : list Topics.topic) (i : Z),
             1 <= i ->
             i + Z.of_nat (List.length l) <= 1 + Z.of_nat (List.length current) ->
             map snd (List.filter (fun it => bool_decide (fst it ∉ ids))
                        (numbered i l)) = l).
  { induction l as [| t l IH]; intros i Hi Hlen; [ reflexivity | ].
    cbn [numbered List.filter fst]. cbn [List.length] in Hlen.
    rewrite bool_decide_eq_true_2.
    - cbn [map snd]. rewrite IH by lia. reflexivity.
    - unfold ids. intros Hin.
      apply elem_of_list_to_set, list_elem_of_In, in_map_iff in Hin.
      destruct Hin as (r & Hr & Hin). destruct (Hout r Hin); lia. }
  symmetry. apply Hgen; lia.
Qed.

Lemma apply_response_appends_a_reordering_witness :
  let out := Topics.apply_response (@rev Topics.topic) swap_sports 1 first_list in
  let ids : gset Z :=
    list_to_set (map Topics.rm_id (Topics.removals swap_sports)) in
  exists new : list Topics.topic,
    fst out = Ok tt
    /\ Topics.TOPICS (snd out) = Topics.TOPICS first_list ++ [new]
    /\ Permutation new
         (survivors ids three_topics
          ++ map topic_of (Topics.additions swap_sports))
    /\ ((forall r : Topics.Removal,
           In r (Topics.removals swap_sports) ->
           Topics.rm_id r < 1
           \/ Z.of_nat (List.length three_topics) < Topics.rm_id r) ->
        Permutation new
          (three_topics ++ map topic_of (Topics.additions swap_sports))).
Proof.
  refine (apply_response_appends_a_reordering (@rev Topics.topic) swap_sports 1
            first_list [] three_topics _ _ _).
  - intros l. apply Permutation_rev.
  - reflexivity.
  - reflexivity.
Defined.




(* ===================================================================== *)
(** * Responses without content *)
(* ===================================================================== *)

Lemma openai_chat_after_failures
    (encode : string -> string -> list Z) (k fuel : nat)
    (model system prompt : string) (limiter : addr) (pool : semaphore)
    (temperature wait_time : float)
    (backend : nat -> outcome (option OpenAI.response)) (w : world)
    (resp : OpenAI.response) :
  (k < 3)%nat -> (k < fuel)%nat ->
  (forall i : nat, (i < k)%nat -> exists e : string, backend i = RaisedProvider e) ->
  backend k = Returned (Some resp) ->
  exists w1 : world,
    OpenAI.chat encode fuel model system prompt limiter pool temperature
      wait_time backend w
    = openai_finish resp w1
    /\ holdings w1 = holdings w.
Proof.
  intros Hk Hfuel Hfail Hresp. rewrite openai_chat_unfold.
  destruct (attempt_loop_recovers OpenAI.MAX_RETRIES model limiter
              (OpenAI.estimate encode model system prompt)
              (OpenAI.request_for model system prompt temperature)
              (fun w => w) OpenAI.is_not_None OpenAI.log_error backend
              (fun _ => eq_refl) (fun _ _ => eq_refl)
              k 0%nat fuel wait_time 0%nat (emit (SemaphoreAcquire pool) w)
              (Some resp) resp Hfail Hresp eq_refl Hk Hfuel)
    as (new & Hres & _).
  destruct (openai_loop_frame encode fuel model system prompt limiter pool
              temperature wait_time backend w) as (Hhold & _).
  rewrite Hres. eexists. split; [ reflexivity | exact Hhold ].
Qed.

Lemma anthropic_chat_after_failures
    (k fuel : nat) (model system prompt : string) (limiter : addr)
    (pool : semaphore) (temperature : float) (json_start : string)
    (wait_time : float)
    (backend : nat -> outcome (option Anthropic.response)) (w : world)
    (resp : Anthropic.response) :
  (k < 3)%nat -> (k < fuel)%nat ->
  (forall i : nat, (i < k)%nat -> exists e : string, backend i = RaisedProvider e) ->
  backend k = Returned (Some resp) ->
  exists w1 : world,
    Anthropic.chat fuel model system prompt limiter pool temperature json_start
      wait_time backend w
    = anthropic_finish json_start resp w1
    /\ holdings w1 = holdings w.
Proof.
  intros Hk Hfuel Hfail Hresp. rewrite anthropic_chat_unfold.
  destruct (attempt_loop_recovers Anthropic.MAX_RETRIES model limiter
              (Anthropic.estimate system prompt)
              (Anthropic.request_for model system prompt temperature json_start)
              (fun w => w) Anthropic.is_truthy Anthropic.log_error backend
              (fun _ => eq_refl) (fun _ _ => eq_refl)
              k 0%nat fuel wait_time 0%nat (emit (SemaphoreAcquire pool) w)
              (Some resp) resp Hfail Hresp eq_refl Hk Hfuel)
    as (new & Hres & _).
  destruct (anthropic_loop_frame fuel model system prompt limiter pool
              temperature json_start wait_time backend w) as (Hhold & _).
  rewrite Hres. eexists. split; [ reflexivity | exact Hhold ].
Qed.

(** X20.  A response that carries its usage but nothing to return (no
    choice on OpenAI, no content block on Anthropic) makes [chat] raise
    [IndexError], and only after the tokens of that response have been
    added to the counters of the adapter: the call is paid for and
    counted, and yields no text. *)
Theorem response_without_content_is_counted_and_fails
    (encode : string -> string -> list Z) (k fuel : nat)
    (model system prompt : string) (limiter : addr) (pool : semaphore)
    (temperature : float) (json_start : string) (wait_time : float)
    (openai : nat -> outcome (option OpenAI.response))
    (anthropic : nat -> outcome (option Anthropic.response)) (w : world)
    (p q : Z) (u : Anthropic.usage_t) :
  (k < 3)%nat -> (k < fuel)%nat ->
  (forall i : nat, (i < k)%nat -> exists e : string, openai i = RaisedProvider e) ->
  openai k
  = Returned (Some {| OpenAI.usage :=
                        Some {| OpenAI.prompt_tokens := Some p;
                                OpenAI.completion_tokens := Some q |};
                      OpenAI.choices := [] |}) ->
  (forall i : nat, (i < k)%nat ->
                   exists e : string, anthropic i = RaisedProvider e) ->
  anthropic k
  = Returned (Some {| Anthropic.usage := Some u; Anthropic.content := [] |}) ->
  (let out := OpenAI.chat encode fuel model system prompt limiter pool
                temperature wait_time openai w in
   fst out = Raise IndexError
   /\ holdings (snd out)
      = ({| PROMPT_TOKENS := PROMPT_TOKENS (openai_counters w) + p;
            RESPONSE_TOKENS := RESPONSE_TOKENS (openai_counters w) + q |},
         aws_counters w, anthropic_counters w, aws_pool w))
  /\ (let out := Anthropic.chat fuel model system prompt limiter pool
                   temperature json_start wait_time anthropic w in
      fst out = Raise IndexError
      /\ holdings (snd out)
         = (openai_counters w, aws_counters w,
            {| PROMPT_TOKENS := PROMPT_TOKENS (anthropic_counters w)
                                + Anthropic.input_tokens u;
               RESPONSE_TOKENS := RESPONSE_TOKENS (anthropic_counters w)
                                  + Anthropic.output_tokens u |},
            aws_pool w)).
Proof.
  intros Hk Hfuel Ho Hok Ha Hak. split; cbn zeta.
  - destruct (openai_chat_after_failures encode k fuel model system prompt
                limiter pool temperature wait_time openai w _ Hk Hfuel Ho Hok)
      as (w1 & -> & Hhold).
    unfold holdings in *. injection Hhold as Ho1 Ho2 Ho3 Ho4.
    cbn. rewrite Ho1, Ho2, Ho3, Ho4. split; reflexivity.
  - destruct (anthropic_chat_after_failures k fuel model system prompt limiter
                pool temperature json_start wait_time anthropic w _
                Hk Hfuel Ha Hak) as (w1 & -> & Hhold).
    unfold holdings in *. injection Hhold as Ho1 Ho2 Ho3 Ho4.
    cbn. rewrite Ho1, Ho2, Ho3, Ho4. split; reflexivity.
Qed.

Lemma response_without_content_is_counted_and_fails_witness :
  (let out := OpenAI.chat no_tokens 3 "claude-3-haiku-20240307" "s" "p" 8%nat
                0%nat one one
                (flaky_then
                   (Returned
                      (Some {| OpenAI.usage :=
                                 Some {| OpenAI.prompt_tokens := Some 12;
                                         OpenAI.completion_tokens := Some 5 |};
                               OpenAI.choices := [] |})))
                initial_world in
   fst out = Raise IndexError
   /\ holdings (snd out)
      = ({| PROMPT_TOKENS := PROMPT_TOKENS (openai_counters initial_world) + 12;
            RESPONSE_TOKENS := RESPONSE_TOKENS (openai_counters initial_world) + 5 |},
         aws_counters initial_world, anthropic_counters initial_world,
         aws_pool initial_world))
  /\ (let out := Anthropic.chat 3 "claude-3-haiku-20240307" "s" "p" 8%nat 0%nat
                   one "{" one
                   (flaky_then
                      (Returned
                         (Some {| Anthropic.usage :=
                                    Some {| Anthropic.input_tokens := 12;
                                            Anthropic.output_tokens := 5 |};
                                  Anthropic.content := [] |})))
                   initial_world in
      fst out = Raise IndexError
      /\ holdings (snd out)
         = (openai_counters initial_world, aws_counters initial_world,
            {| PROMPT_TOKENS := PROMPT_TOKENS (anthropic_counters initial_world)
                                + Anthropic.input_tokens
                                    {| Anthropic.input_tokens := 12;
                                       Anthropic.output_tokens := 5 |};
               RESPONSE_TOKENS := RESPONSE_TOKENS (anthropic_counters initial_world)
                                  + Anthropic.output_tokens
                                      {| Anthropic.input_tokens := 12;
                                         Anthropic.output_tokens := 5 |} |},
            aws_pool initial_world)).
Proof.
  refine (response_without_content_is_counted_and_fails no_tokens 1 3
            "claude-3-haiku-20240307" "s" "p" 8%nat 0%nat one "{" one _ _
            initial_world 12 5
            {| Anthropic.input_tokens := 12; Anthropic.output_tokens := 5 |}
            _ _ _ _ _ _).
  - lia.
  - lia.
  - intros i Hi. exists "overloaded". destruct i; [ reflexivity | lia ].
  - reflexivity.
  - intros i Hi. exists "overloaded". destruct i; [ reflexivity | lia ].
  - reflexivity.
Defined.

Lemma append_empty (s : string) : s +:+ EmptyString = s.
Proof.
  induction s as [| c s IH]; [ reflexivity | ].
  change (String c (s +:+ EmptyString) = String c s). rewrite IH. reflexivity.
Qed.

(** X21.  On the AWS adapter the same kind of response is no error: a JSON
    object with neither a [usage] nor a [content] entry makes [chat]
    return the assistant prefix alone, with the warning about the usage as
    the last record of the log and the counters of the module as they
    were. *)
Theorem aws_empty_object_returns_the_prefix
    (k fuel : nat) (model system prompt : string) (limiter : addr)
    (temperature : float) (json_start : string) (wait_time : float)
    (backend : nat -> outcome AWS.body) (w : world)
    (c : client) (rest : list client) (fields : list (string * json)) :
  queue (aws_pool w) = c :: rest ->
  bounded (aws_pool w) ->
  (k < 3)%nat -> (k < fuel)%nat ->
  (forall i : nat, (i < k)%nat -> exists e : string, backend i = RaisedProvider e) ->
  backend k = Returned (AWS.Document (JObj fields)) ->
  Json.assoc "usage" fields = None ->
  Json.assoc "content" fields = None ->
  let out := AWS.chat fuel model system prompt limiter temperature json_start
               wait_time backend w in
  fst out = Ok json_start
  /\ aws_counters (snd out) = aws_counters w
  /\ exists earlier : list log_record,
       log (snd out) = earlier ++ [usage_warning].
Proof.
  intros Hq Hb Hk Hfuel Hfail Hbody Hu Hc. cbn zeta.
  destruct (aws_chat_after_failures k fuel model system prompt limiter
              temperature json_start wait_time backend w c rest _
              Hq Hb Hk Hfuel Hfail Hbody)
    as (w1 & new & -> & _ & _ & _ & Hhold).
  unfold aws_finish, AWS.count_tokens, AWS.reply, Json.getitem, Json.get.
  cbn [AWS.parse]. rewrite Hu, Hc. cbn.
  unfold holdings in Hhold. injection Hhold as _ Ha _ _.
  rewrite append_empty. split; [ reflexivity | ].
  split; [ exact Ha | ]. eexists. reflexivity.
Qed.

Lemma aws_empty_object_returns_the_prefix_witness :
  let out := AWS.chat 3 "anthropic.claude-3-haiku-20240307-v1:0" "s" "p"
               10%nat one "{" one
               (flaky_then (Returned (AWS.Document (JObj []))))
               warm_world in
  fst out = Ok "{"
  /\ aws_counters (snd out) = aws_counters warm_world
  /\ exists earlier : list log_record,
       log (snd out) = earlier ++ [usage_warning].
Proof.
  refine (aws_empty_object_returns_the_prefix 1 3
            "anthropic.claude-3-haiku-20240307-v1:0" "s" "p" 10%nat one "{" one
            (flaky_then (Returned (AWS.Document (JObj []))))
            warm_world 0%nat [1%nat] [] _ _ _ _ _ _ _ _).
  - reflexivity.
  - right. vm_compute. discriminate.
  - lia.
  - lia.
  - intros i Hi. exists "overloaded". destruct i; [ reflexivity | lia ].
  - reflexivity.
  - reflexivity.
  - reflexivity.
Defined.
